(** * The cloud client of krita-ai-diffusion: [ai_diffusion/cloud_client.py]

    A shallow embedding of the job lifecycle engine of the cloud client
    (enqueue, listen, job processing, payload transfer, error handling,
    interactive sign-in) and the properties its specification states.

    Python values that travel through the client (parsed JSON replies,
    request bodies, byte blobs) are embedded as the type [pyval]; Python
    [int] is [Z], Python [float] is the binary64 type [float] of Rocq,
    [str] is [string] (the bytes of its UTF-8 encoding) and a [dict] with
    string keys is an association list in insertion order.  Coroutines and
    asynchronous generators are functions in a state, error and output
    monad over a [World] that holds the client object and the environment
    the client talks to (transport replies, the clock, the UUID source). *)

From Stdlib Require Import ZArith List String Ascii Bool Lia.
From Stdlib Require Import Floats.PrimFloat Floats.SpecFloat Floats.FloatOps.
From Stdlib Require Import Numbers.DecimalString Numbers.DecimalZ Numbers.DecimalPos.
From Stdlib Require Init.Byte.
From ExtLib Require Import Structures.Monad.
Import ListNotations.
Import MonadNotation.

Set Warnings "-inexact-float,-register-all".
Local Open Scope string_scope.
Local Open Scope Z_scope.
Local Open Scope monad_scope.

(* ===================================================================== *)
(** * Python values *)
(* ===================================================================== *)

Inductive pyval : Type :=
| PyNone
| PyBool (b : bool)
| PyInt (z : Z)
| PyFloat (f : float)
| PyStr (s : string)
| PyBytes (b : list Byte.byte)
| PyList (l : list pyval)
| PyDict (d : list (string * pyval)).

(** A [dict] with [str] keys: the first binding of a key is the binding. *)
Definition pydict := list (string * pyval).

Fixpoint dict_get (d : pydict) (k : string) : option pyval :=
  match d with
  | [] => None
  | (k', v) :: d' => if String.eqb k' k then Some v else dict_get d' k
  end.

(** [d[k] = v]: a present key keeps its place, a new key goes last. *)
Fixpoint dict_set (d : pydict) (k : string) (v : pyval) : pydict :=
  match d with
  | [] => [(k, v)]
  | (k', v') :: d' =>
      if String.eqb k' k then (k', v) :: d' else (k', v') :: dict_set d' k v
  end.

(** [type(v).__name__] *)
Definition type_name (v : pyval) : string :=
  match v with
  | PyNone => "NoneType"
  | PyBool _ => "bool"
  | PyInt _ => "int"
  | PyFloat _ => "float"
  | PyStr _ => "str"
  | PyBytes _ => "bytes"
  | PyList _ => "list"
  | PyDict _ => "dict"
  end.

(** Truth value testing, [bool(v)]. *)
Definition truthy (v : pyval) : bool :=
  match v with
  | PyNone => false
  | PyBool b => b
  | PyInt z => negb (z =? 0)
  | PyFloat f => negb (PrimFloat.eqb f 0%float)
  | PyStr s => negb (String.eqb s "")
  | PyBytes b => match b with [] => false | _ => true end
  | PyList l => match l with [] => false | _ => true end
  | PyDict d => match d with [] => false | _ => true end
  end.

(** [v == s] for a string literal [s]: values of another type are unequal. *)
Definition eq_str (v : pyval) (s : string) : bool :=
  match v with
  | PyStr s' => String.eqb s' s
  | _ => false
  end.

(** A byte that continues a character of a [str]: in UTF-8 every byte of
    a character after its first has the form [10xxxxxx]. *)
Definition is_continuation (c : ascii) : bool :=
  let n := nat_of_ascii c in (128 <=? n)%nat && (n <? 192)%nat.

(** [len(s)] for a [str]: the number of its characters. *)
Fixpoint str_length (s : string) : nat :=
  match s with
  | EmptyString => 0%nat
  | String c r => if is_continuation c then str_length r else S (str_length r)
  end.

(** [s[:n]] for a [str]: its first [n] characters, each with all its
    bytes. *)
Fixpoint str_prefix (n : nat) (s : string) : string :=
  match s with
  | EmptyString => EmptyString
  | String c r =>
      if is_continuation c then String c (str_prefix n r)
      else match n with
           | O => EmptyString
           | S n' => String c (str_prefix n' r)
           end
  end.

(** [str(z)] for an [int]. *)
Definition str_of_int (z : Z) : string := NilZero.string_of_int (Z.to_int z).

(** [float(z)] for an [int]: round to nearest, ties to even. *)
Definition float_of_int (z : Z) : float :=
  SF2Prim (binary_normalize prec emax z 0 false).

(* ===================================================================== *)
(** * Exceptions and outcomes *)
(* ===================================================================== *)

(** [network.NetworkError]: the fields the client reads. *)
Record NetError := mkNetError {
  message : string;
  status : option Z;
  data : pyval
}.

(** Subclasses of [Exception] other than [NetworkError]. *)
Inductive exn_class :=
| KeyError | TypeError | AttributeError | OverflowError | ValueError
| JSONDecodeError | AssertionError | TimeoutError | RuntimeError
| RecursionError.

(** A raised exception.  [Exception cls msg] carries [str(e)] as [msg];
    the text of an error raised by the interpreter itself or by a library
    (type, attribute, overflow and JSON errors) differs between Python
    versions and is an indicative text here.  [CancelledError] derives from
    [BaseException], not from [Exception]. *)
Inductive exn :=
| NetworkError (e : NetError)
| CancelledError
| Exception (cls : exn_class) (msg : string).

(** The outcome of a computation: a value, a raised exception, or a
    coroutine suspended on an await that the environment never resumes. *)
Inductive Outcome (A : Type) : Type :=
| Ok (a : A)
| Raise (e : exn)
| Blocked.
Arguments Ok {A} a.
Arguments Raise {A} e.
Arguments Blocked {A}.

#[global] Instance Monad_Outcome : Monad Outcome := {
  ret := fun _ a => Ok a;
  bind := fun _ _ m f =>
    match m with
    | Ok a => f a
    | Raise e => Raise e
    | Blocked => Blocked
    end
}.

Definition key_error {A} (k : string) : Outcome A :=
  Raise (Exception KeyError ("'" ++ k ++ "'")).

Definition type_error {A} (msg : string) : Outcome A :=
  Raise (Exception TypeError msg).

(** [v[k]] for a string key [k]. *)
Definition getitem (v : pyval) (k : string) : Outcome pyval :=
  match v with
  | PyDict d => match dict_get d k with Some x => Ok x | None => key_error k end
  | PyStr _ | PyBytes _ | PyList _ =>
      type_error (type_name v ++ " indices must be integers")
  | _ => type_error ("'" ++ type_name v ++ "' object is not subscriptable")
  end.

(** [v.get(k, dflt)]: only a [dict] has the method. *)
Definition get_method (v : pyval) (k : string) (dflt : pyval) : Outcome pyval :=
  match v with
  | PyDict d => Ok (match dict_get d k with Some x => x | None => dflt end)
  | _ => Raise (Exception AttributeError
                  ("'" ++ type_name v ++ "' object has no attribute 'get'"))
  end.

(** [v[k] = x] for a string key [k]; the result is the object after the
    assignment. *)
Definition setitem (v : pyval) (k : string) (x : pyval) : Outcome pyval :=
  match v with
  | PyDict d => Ok (PyDict (dict_set d k x))
  | PyList _ => type_error "list indices must be integers"
  | _ => type_error ("'" ++ type_name v ++
                     "' object does not support item assignment")
  end.

(** [len(v)] *)
Definition py_len (v : pyval) : Outcome Z :=
  match v with
  | PyStr s => Ok (Z.of_nat (str_length s))
  | PyBytes b => Ok (Z.of_nat (List.length b))
  | PyList l => Ok (Z.of_nat (List.length l))
  | PyDict d => Ok (Z.of_nat (List.length d))
  | _ => type_error ("object of type '" ++ type_name v ++ "' has no len()")
  end.

(** The numeric tower as far as [-] and [>] need it: [bool] is an [int]. *)
Inductive number := NInt (z : Z) | NFloat (f : float).

Definition as_number (v : pyval) : option number :=
  match v with
  | PyBool b => Some (NInt (if b then 1 else 0))
  | PyInt z => Some (NInt z)
  | PyFloat f => Some (NFloat f)
  | _ => None
  end.

(** The conversion of an [int] operand next to a [float] operand. *)
Definition to_float (z : Z) : Outcome float :=
  let f := float_of_int z in
  if is_infinity f
  then Raise (Exception OverflowError "int too large to convert to float")
  else Ok f.

(** [a - b] *)
Definition py_sub (a b : pyval) : Outcome pyval :=
  match as_number a, as_number b with
  | Some (NInt x), Some (NInt y) => Ok (PyInt (x - y))
  | Some (NFloat x), Some (NFloat y) => Ok (PyFloat (x - y)%float)
  | Some (NInt x), Some (NFloat y) =>
      fx <- to_float x ;; ret (PyFloat (fx - y)%float)
  | Some (NFloat x), Some (NInt y) =>
      fy <- to_float y ;; ret (PyFloat (x - fy)%float)
  | _, _ => type_error ("unsupported operand type(s) for -: '" ++ type_name a
                        ++ "' and '" ++ type_name b ++ "'")
  end.

(** [max(0, v)]: the second argument is returned when [v > 0] holds. *)
Definition py_max0 (v : pyval) : Outcome pyval :=
  match as_number v with
  | Some (NInt z) => Ok (if 0 <? z then v else PyInt 0)
  | Some (NFloat f) => Ok (if PrimFloat.ltb 0%float f then v else PyInt 0)
  | None => type_error ("'>' not supported between instances of '"
                        ++ type_name v ++ "' and 'int'")
  end.

(* ===================================================================== *)
(** * [_base64_size] and [performance_settings] *)
(* ===================================================================== *)

(** [math.ceil(size / 3) * 4].  The quotient [size / 3] is a float
    division; it is exact when [size] is a multiple of 3 and otherwise
    lies strictly between two consecutive integers for every [size] below
    [2^53], so [math.ceil] returns the integer ceiling computed here (a
    larger size is far above every threshold the client compares with). *)
Definition _base64_size (size : Z) : Z := ((size + 2) / 3) * 4.

(** [settings.PerformanceSettings] and the fields of [settings] read by
    the property [performance_settings]. *)
Record PerformanceSettings := mkPerformanceSettings {
  batch_size : Z;
  resolution_multiplier : float;
  max_pixel_count : Z
}.

Definition performance_settings (settings : PerformanceSettings)
  : PerformanceSettings :=
  {| batch_size := Z.min 4 (Z.max 8 (batch_size settings));
     resolution_multiplier := resolution_multiplier settings;
     max_pixel_count := Z.min 8 (max_pixel_count settings) |}.

(* ===================================================================== *)
(** * Data classes of the client *)
(* ===================================================================== *)

(** [api.CheckpointInput] and [api.WorkflowInput]: the fields the client
    assigns, and the remaining fields as one value. *)
Record CheckpointInput := mkCheckpointInput {
  self_attention_guidance : bool;
  checkpoint_fields : pyval
}.

Record WorkflowInput := mkWorkflowInput {
  batch_count : Z;
  models : option CheckpointInput;
  workflow_fields : pyval
}.

Record JobInfo := mkJobInfo {
  local_id : string;
  work : WorkflowInput;
  remote_id : pyval;
  worker_id : pyval
}.

(** [client.User] *)
Record User := mkUser {
  user_id : pyval;
  user_name : pyval;
  images_generated : pyval;
  credits : pyval
}.

(** The members of [client.ClientEvent] that the cloud client emits. *)
Module ClientEvent.
Inductive t := connected | queued | progress | finished | interrupted | error.
End ClientEvent.

(** What the interpreter, its library and the modules of the plugin that
    the client imports provide. *)
Class Host := {
  (** [image.ImageCollection] with [from_bytes] and [from_base64] *)
  ImageCollection : Type;
  from_bytes : pyval -> pyval -> Outcome ImageCollection;
  from_base64 : pyval -> pyval -> Outcome ImageCollection;
  (** [api.WorkflowInput.to_dict] *)
  to_dict : WorkflowInput -> pyval;
  (** the message of the assertion in [util.ensure] *)
  ensure_message : string;
  (** [repr] of a float, bytes, list or dict *)
  py_repr : pyval -> string;
  (** [float(text)] for the text of a JSON number *)
  float_of_literal : string -> float;
  (** the text of a [bytes] document given to [json.loads], [None] when
      the bytes do not decode *)
  json_decode_bytes : list Byte.byte -> option string;
  (** [sys.get_int_max_str_digits()]: the digits the text of an [int] may
      have, 4300 unless the interpreter is told otherwise, 0 for no limit *)
  int_max_str_digits : nat;
  (** the recursion limit of the interpreter as the scanner of
      [json.loads] meets it: the containers within the outermost one of a
      document that it can enter before the limit is reached *)
  spare_recursion : nat;
  (** [str(uuid.uuid4())], by the number of identifiers drawn before *)
  uuid4 : nat -> string;
  (** [platform.node()] *)
  node : string;
  (** [CloudClient.default_web_url] *)
  default_web_url : string
}.

(** [str(v)], which is also how an f-string formats [v]. *)
Definition py_str `{Host} (v : pyval) : string :=
  match v with
  | PyNone => "None"
  | PyBool true => "True"
  | PyBool false => "False"
  | PyInt z => str_of_int z
  | PyStr s => s
  | _ => py_repr v
  end.

(** [client.ClientMessage], a named tuple with defaults. *)
Record ClientMessage `{Host} := mkClientMessage {
  msg_event : ClientEvent.t;
  msg_job_id : string;
  msg_progress : pyval;
  msg_images : option ImageCollection;
  msg_result : pyval;
  msg_error : pyval
}.
Arguments mkClientMessage {_} _ _ _ _ _ _.

(** [ClientMessage(event, job_id, progress, images, result, error=...)]
    with the defaults of the named tuple for the arguments left out. *)
Definition message_of `{Host} (event : ClientEvent.t) (job_id : string)
  : ClientMessage :=
  {| msg_event := event; msg_job_id := job_id; msg_progress := PyInt 0;
     msg_images := None; msg_result := PyNone; msg_error := PyNone |}.

Definition with_progress `{Host} (m : ClientMessage) (p : pyval) :=
  {| msg_event := msg_event m; msg_job_id := msg_job_id m; msg_progress := p;
     msg_images := msg_images m; msg_result := msg_result m;
     msg_error := msg_error m |}.

Definition with_error `{Host} (m : ClientMessage) (e : pyval) :=
  {| msg_event := msg_event m; msg_job_id := msg_job_id m;
     msg_progress := msg_progress m; msg_images := msg_images m;
     msg_result := msg_result m; msg_error := e |}.

Definition with_images `{Host} (m : ClientMessage)
  (i : ImageCollection) (r : pyval) :=
  {| msg_event := msg_event m; msg_job_id := msg_job_id m;
     msg_progress := msg_progress m; msg_images := Some i;
     msg_result := r; msg_error := msg_error m |}.

(* ===================================================================== *)
(** * [json.loads] *)
(* ===================================================================== *)

(** The decoder of the [json] module on a document held in a [str]:
    objects, arrays, strings with their escapes, numbers, the literals
    [null], [true], [false], [NaN], [Infinity] and [-Infinity], and the
    whitespace around them, as the scanner of the module written in C
    reads them: it converts the text of an integer with [int], which
    refuses more digits than the interpreter allows, and it enters an
    object or an array with a recursive call, which the recursion limit of
    the interpreter bounds.  The scanner stops at the first thing it cannot
    read; [json_loads] raises the exception that belongs to it. *)
Module Json.

(** Why the scanner stops: the document is not JSON, an integer has too
    many digits, or the containers are nested too deeply. *)
Inductive failure := Malformed | TooManyDigits | TooDeep.

(** What the scanner finds at a position: a value and the text after it,
    or a failure. *)
Inductive scanned :=
| Found (v : pyval) (rest : string)
| Failed (f : failure).

Definition dquote : ascii := "034"%char.
Definition backslash : ascii := "092"%char.

Definition is_ws (c : ascii) : bool :=
  Ascii.eqb c " " || Ascii.eqb c "009" || Ascii.eqb c "010" || Ascii.eqb c "013".

Fixpoint skip_ws (s : string) : string :=
  match s with
  | String c r => if is_ws c then skip_ws r else s
  | EmptyString => s
  end.

Fixpoint strip_prefix (p s : string) : option string :=
  match p, s with
  | EmptyString, _ => Some s
  | String a p', String b s' => if Ascii.eqb a b then strip_prefix p' s' else None
  | String _ _, EmptyString => None
  end.

Definition is_digit (c : ascii) : bool :=
  let n := nat_of_ascii c in (48 <=? n)%nat && (n <=? 57)%nat.

Definition hex_value (c : ascii) : option N :=
  let n := N_of_ascii c in
  if (48 <=? n)%N && (n <=? 57)%N then Some (n - 48)%N
  else if (65 <=? n)%N && (n <=? 70)%N then Some (n - 55)%N
  else if (97 <=? n)%N && (n <=? 102)%N then Some (n - 87)%N
  else None.

(** The four hexadecimal digits of a [\uXXXX] escape. *)
Definition hex4 (a b c d : ascii) : option N :=
  match hex_value a, hex_value b, hex_value c, hex_value d with
  | Some x, Some y, Some z, Some w => Some (((x * 16 + y) * 16 + z) * 16 + w)%N
  | _, _, _, _ => None
  end.

(** The UTF-8 bytes of a code point (a lone surrogate is encoded the same
    way, as three bytes). *)
Definition utf8 (cp : N) : string :=
  let ch (n : N) := String (ascii_of_N n) EmptyString in
  if (cp <? 128)%N then ch cp
  else if (cp <? 2048)%N then
    ch (192 + cp / 64)%N ++ ch (128 + cp mod 64)%N
  else if (cp <? 65536)%N then
    ch (224 + cp / 4096)%N ++ ch (128 + (cp / 64) mod 64)%N
    ++ ch (128 + cp mod 64)%N
  else
    ch (240 + cp / 262144)%N ++ ch (128 + (cp / 4096) mod 64)%N
    ++ ch (128 + (cp / 64) mod 64)%N ++ ch (128 + cp mod 64)%N.

Definition is_high_surrogate (cp : N) : bool := (55296 <=? cp)%N && (cp <=? 56319)%N.
Definition is_low_surrogate (cp : N) : bool := (56320 <=? cp)%N && (cp <=? 57343)%N.

(** The character of a one-letter escape. *)
Definition unescape (c : ascii) : option ascii :=
  if Ascii.eqb c dquote then Some dquote
  else if Ascii.eqb c backslash then Some backslash
  else if Ascii.eqb c "/" then Some "/"%char
  else if Ascii.eqb c "b" then Some "008"%char
  else if Ascii.eqb c "f" then Some "012"%char
  else if Ascii.eqb c "n" then Some "010"%char
  else if Ascii.eqb c "r" then Some "013"%char
  else if Ascii.eqb c "t" then Some "009"%char
  else None.

Definition cons_text (t : string) (r : option (string * string))
  : option (string * string) :=
  match r with
  | Some (body, rest) => Some (t ++ body, rest)
  | None => None
  end.

(** The body of a string after its opening quote, in strict mode: the
    decoded text and what follows the closing quote. *)
Fixpoint scan_string (s : string) : option (string * string) :=
  match s with
  | EmptyString => None
  | String c r =>
      if Ascii.eqb c dquote then Some (EmptyString, r)
      else if Ascii.eqb c backslash then
        match r with
        | EmptyString => None
        | String e r1 =>
            if Ascii.eqb e "u" then
              match r1 with
              | String h1 (String h2 (String h3 (String h4 r5))) =>
                  match hex4 h1 h2 h3 h4 with
                  | None => None
                  | Some cp =>
                      match r5 with
                      | String b (String u (String g1 (String g2
                          (String g3 (String g4 r11))))) =>
                          if is_high_surrogate cp && Ascii.eqb b backslash
                             && Ascii.eqb u "u" then
                            match hex4 g1 g2 g3 g4 with
                            | None => None
                            | Some lo =>
                                if is_low_surrogate lo then
                                  cons_text
                                    (utf8 (65536 + (cp - 55296) * 1024
                                           + (lo - 56320))%N)
                                    (scan_string r11)
                                else cons_text (utf8 cp) (scan_string r5)
                            end
                          else cons_text (utf8 cp) (scan_string r5)
                      | _ => cons_text (utf8 cp) (scan_string r5)
                      end
                  end
              | _ => None
              end
            else
              match unescape e with
              | Some ch => cons_text (String ch EmptyString) (scan_string r1)
              | None => None
              end
        end
      else if (nat_of_ascii c <? 32)%nat then None
      else cons_text (String c EmptyString) (scan_string r)
  end.

(** The longest prefix of digits and the rest. *)
Fixpoint span_digits (s : string) : string * string :=
  match s with
  | String c r =>
      if is_digit c then let (d, rest) := span_digits r in (String c d, rest)
      else (EmptyString, s)
  | EmptyString => (EmptyString, s)
  end.

Definition int_of_digits (d : string) : Z :=
  fold_left (fun acc c => acc * 10 + Z.of_nat (nat_of_ascii c - 48))
            (list_ascii_of_string d) 0.

(** An optional minus sign, then a single zero or a digit from 1 to 9
    followed by digits: the sign, the digits and the rest. *)
Definition scan_integer (s : string) : option (bool * string * string) :=
  let (neg, s1) := match s with
                   | String c r => if Ascii.eqb c "-" then (true, r) else (false, s)
                   | EmptyString => (false, s)
                   end in
  match s1 with
  | String c r =>
      if Ascii.eqb c "0" then Some (neg, "0", r)
      else if is_digit c then let (d, rest) := span_digits s1 in Some (neg, d, rest)
      else None
  | EmptyString => None
  end.

(** An optional fraction, a point and at least one digit: the matched
    text and the rest. *)
Definition scan_fraction (s : string) : string * string :=
  match s with
  | String c r =>
      if Ascii.eqb c "." then
        match span_digits r with
        | (EmptyString, _) => (EmptyString, s)
        | (d, rest) => (String c d, rest)
        end
      else (EmptyString, s)
  | EmptyString => (EmptyString, s)
  end.

(** An optional exponent, [e] or [E], an optional sign and at least one
    digit: the matched text and the rest. *)
Definition scan_exponent (s : string) : string * string :=
  match s with
  | String c r =>
      if Ascii.eqb c "e" || Ascii.eqb c "E" then
        let (sign, r1) :=
          match r with
          | String g r' =>
              if Ascii.eqb g "-" || Ascii.eqb g "+"
              then (String g EmptyString, r') else (EmptyString, r)
          | EmptyString => (EmptyString, r)
          end in
        match span_digits r1 with
        | (EmptyString, _) => (EmptyString, s)
        | (d, rest) => (String c (sign ++ d), rest)
        end
      else (EmptyString, s)
  | EmptyString => (EmptyString, s)
  end.

(** [int] refuses a text with more digits than the limit, when there is
    one; the sign does not count. *)
Definition too_many_digits `{Host} (digits : string) : bool :=
  negb (int_max_str_digits =? 0)%nat
  && (int_max_str_digits <? String.length digits)%nat.

(** A number: with a fraction or an exponent it is converted with
    [float], without them with [int]. *)
Definition scan_number `{Host} (s : string) : scanned :=
  match scan_integer s with
  | None => Failed Malformed
  | Some (neg, digits, r) =>
      let (frac, r1) := scan_fraction r in
      let (exp, r2) := scan_exponent r1 in
      let text := (if neg then "-" else "") ++ digits in
      match frac, exp with
      | EmptyString, EmptyString =>
          if too_many_digits digits then Failed TooManyDigits
          else Found (PyInt (if neg then - int_of_digits digits
                             else int_of_digits digits)) r2
      | _, _ => Found (PyFloat (float_of_literal (text ++ frac ++ exp))) r2
      end
  end.

(** The literal [p] for the value [v] where the text starts with it, a
    number otherwise. *)
Definition literal_or_number `{Host} (p : string) (v : pyval) (s : string)
  : scanned :=
  match strip_prefix p s with
  | Some rest => Found v rest
  | None => scan_number s
  end.

(** [scan_once] with the object and array parsers it calls; [members] and
    [elements] start at the first character of a key or of an element.
    [room] counts the containers that can still be entered: the scanner
    tests it where an object or an array opens, before it reads what is
    inside.  Of two successive calls made with less fuel, at least one has
    consumed a character first, so two units of fuel for every character
    of the document are never used up. *)
Fixpoint scan_once `{Host} (fuel room : nat) (s : string) {struct fuel}
  : scanned :=
  match fuel with
  | O => Failed Malformed
  | S n =>
      match s with
      | EmptyString => Failed Malformed
      | String c r =>
          if Ascii.eqb c dquote then
            match scan_string r with
            | Some (text, rest) => Found (PyStr text) rest
            | None => Failed Malformed
            end
          else if Ascii.eqb c "{" then
            match room with
            | O => Failed TooDeep
            | S inner =>
                match skip_ws r with
                | String c' r' =>
                    if Ascii.eqb c' "}" then Found (PyDict []) r'
                    else members n inner [] (String c' r')
                | EmptyString => Failed Malformed
                end
            end
          else if Ascii.eqb c "[" then
            match room with
            | O => Failed TooDeep
            | S inner =>
                match skip_ws r with
                | String c' r' =>
                    if Ascii.eqb c' "]" then Found (PyList []) r'
                    else elements n inner [] (String c' r')
                | EmptyString => Failed Malformed
                end
            end
          else if Ascii.eqb c "n" then literal_or_number "null" PyNone s
          else if Ascii.eqb c "t" then literal_or_number "true" (PyBool true) s
          else if Ascii.eqb c "f" then literal_or_number "false" (PyBool false) s
          else if Ascii.eqb c "N" then literal_or_number "NaN" (PyFloat nan) s
          else if Ascii.eqb c "I" then
            literal_or_number "Infinity" (PyFloat infinity) s
          else if Ascii.eqb c "-" then
            literal_or_number "-Infinity" (PyFloat neg_infinity) s
          else scan_number s
      end
  end
with members `{Host} (fuel room : nat) (acc : pydict) (s : string)
  {struct fuel} : scanned :=
  match fuel with
  | O => Failed Malformed
  | S n =>
      match s with
      | String c r =>
          if Ascii.eqb c dquote then
            match scan_string r with
            | None => Failed Malformed
            | Some (key, r1) =>
                match skip_ws r1 with
                | String colon r2 =>
                    if Ascii.eqb colon ":" then
                      match scan_once n room (skip_ws r2) with
                      | Failed f => Failed f
                      | Found v r3 =>
                          let acc' := dict_set acc key v in
                          match skip_ws r3 with
                          | String d r4 =>
                              if Ascii.eqb d "}" then Found (PyDict acc') r4
                              else if Ascii.eqb d ","
                                   then members n room acc' (skip_ws r4)
                                   else Failed Malformed
                          | EmptyString => Failed Malformed
                          end
                      end
                    else Failed Malformed
                | EmptyString => Failed Malformed
                end
            end
          else Failed Malformed
      | EmptyString => Failed Malformed
      end
  end
with elements `{Host} (fuel room : nat) (acc : list pyval) (s : string)
  {struct fuel} : scanned :=
  match fuel with
  | O => Failed Malformed
  | S n =>
      match scan_once n room s with
      | Failed f => Failed f
      | Found v r1 =>
          match skip_ws r1 with
          | String d r2 =>
              if Ascii.eqb d "]" then Found (PyList (acc ++ [v])%list) r2
              else if Ascii.eqb d ","
                   then elements n room (acc ++ [v])%list (skip_ws r2)
                   else Failed Malformed
          | EmptyString => Failed Malformed
          end
      end
  end.

(** The UTF-8 bytes of the byte order mark U+FEFF. *)
Definition bom : string := String "239" (String "187" (String "191" EmptyString)).

(** [JSONDecoder.decode]: one value between optional whitespace.  The
    outermost container of the document can always be entered. *)
Definition decode `{Host} (s : string) : failure + pyval :=
  match strip_prefix bom s with
  | Some _ => inl Malformed
  | None =>
      match scan_once (2 * String.length s + 2) (S spare_recursion)
                      (skip_ws s) with
      | Found v rest =>
          match skip_ws rest with
          | EmptyString => inr v
          | String _ _ => inl Malformed
          end
      | Failed f => inl f
      end
  end.

End Json.

(** A text with every apostrophe read as a double quote, to write JSON in
    a string literal. *)
Definition dq (s : string) : string :=
  string_of_list_ascii
    (map (fun c => if Ascii.eqb c "'" then Json.dquote else c)
         (list_ascii_of_string s)).

(** [json.loads(v)] *)
Definition json_loads `{Host} (v : pyval) : Outcome pyval :=
  let parse (s : string) :=
    match Json.decode s with
    | inr x => Ok x
    | inl Json.Malformed =>
        Raise (Exception JSONDecodeError "invalid JSON document")
    | inl Json.TooManyDigits =>
        Raise (Exception ValueError
                 "Exceeds the limit for integer string conversion")
    | inl Json.TooDeep =>
        Raise (Exception RecursionError
                 "maximum recursion depth exceeded while decoding a JSON document")
    end in
  match v with
  | PyStr s => parse s
  | PyBytes b =>
      match json_decode_bytes b with
      | Some s => parse s
      | None => Raise (Exception ValueError "the bytes of the document do not decode")
      end
  | _ => type_error ("the JSON object must be str, bytes or bytearray, not "
                     ++ type_name v)
  end.

(* ===================================================================== *)
(** * [base64.b64encode] *)
(* ===================================================================== *)

Module Base64.

Definition alphabet : list ascii :=
  list_ascii_of_string
    "ABCDEFGHIJKLMNOPQRSTUVWXYZabcdefghijklmnopqrstuvwxyz0123456789+/".

Definition digit (n : N) : ascii := nth (N.to_nat (n mod 64)) alphabet "="%char.

Definition pad : ascii := "="%char.

(** Three bytes make four digits; one or two last bytes are padded. *)
Fixpoint b64encode (bs : list Byte.byte) : string :=
  match bs with
  | [] => EmptyString
  | [a] =>
      let n := (Byte.to_N a * 65536)%N in
      String (digit (n / 262144)) (String (digit (n / 4096))
        (String pad (String pad EmptyString)))
  | [a; b] =>
      let n := (Byte.to_N a * 65536 + Byte.to_N b * 256)%N in
      String (digit (n / 262144)) (String (digit (n / 4096))
        (String (digit (n / 64)) (String pad EmptyString)))
  | a :: b :: c :: rest =>
      let n := (Byte.to_N a * 65536 + Byte.to_N b * 256 + Byte.to_N c)%N in
      String (digit (n / 262144)) (String (digit (n / 4096))
        (String (digit (n / 64)) (String (digit n) (b64encode rest))))
  end.

End Base64.

(** [b64encode(blob).decode("utf-8")] *)
Definition b64encode_str (blob : pyval) : Outcome string :=
  match blob with
  | PyBytes b => Ok (Base64.b64encode b)
  | _ => type_error ("a bytes-like object is required, not '"
                     ++ type_name blob ++ "'")
  end.

(* ===================================================================== *)
(** * The world of the client and the monad of its coroutines *)
(* ===================================================================== *)

(** What the transport answers to one request: a parsed reply, a
    [NetworkError], or the cancellation of the task while it awaits. *)
Inductive Reply :=
| Answer (v : pyval)
| Failure (e : NetError)
| Cancel.

(** What the client does to its environment. *)
Inductive Effect :=
| Get (url : string) (bearer : pyval)
| Post (url : string) (body : pyval) (bearer : pyval)
| Put (url : pyval) (body : pyval)
| Download (url : pyval)
| Sleep (seconds : pyval).

(** The attributes of the [CloudClient] object and its environment:
    the replies the transport will give, in order; the effects so far,
    oldest first; the readings of [datetime.now()] in microseconds, by the
    number of readings taken before; the number of UUIDs drawn. *)
Record World := mkWorld {
  url : string;
  _token : pyval;
  _user : option User;
  _current_job : option JobInfo;
  _queue : list JobInfo;
  net : list Reply;
  trace : list Effect;
  now : nat -> Z;
  ticks : nat;
  uuids : nat
}.

Definition set_token (t : pyval) (w : World) : World :=
  mkWorld (url w) t (_user w) (_current_job w) (_queue w)
          (net w) (trace w) (now w) (ticks w) (uuids w).
Definition set_user (u : option User) (w : World) : World :=
  mkWorld (url w) (_token w) u (_current_job w) (_queue w)
          (net w) (trace w) (now w) (ticks w) (uuids w).
Definition set_current_job (j : option JobInfo) (w : World) : World :=
  mkWorld (url w) (_token w) (_user w) j (_queue w)
          (net w) (trace w) (now w) (ticks w) (uuids w).
Definition set_queue (q : list JobInfo) (w : World) : World :=
  mkWorld (url w) (_token w) (_user w) (_current_job w) q
          (net w) (trace w) (now w) (ticks w) (uuids w).
Definition set_net (n : list Reply) (w : World) : World :=
  mkWorld (url w) (_token w) (_user w) (_current_job w) (_queue w)
          n (trace w) (now w) (ticks w) (uuids w).
Definition log_effect (e : Effect) (w : World) : World :=
  mkWorld (url w) (_token w) (_user w) (_current_job w) (_queue w)
          (net w) (trace w ++ [e])%list (now w) (ticks w) (uuids w).
Definition tick (w : World) : World :=
  mkWorld (url w) (_token w) (_user w) (_current_job w) (_queue w)
          (net w) (trace w) (now w) (S (ticks w)) (uuids w).
Definition draw (w : World) : World :=
  mkWorld (url w) (_token w) (_user w) (_current_job w) (_queue w)
          (net w) (trace w) (now w) (ticks w) (S (uuids w)).

(** A coroutine or asynchronous generator that yields values of type [Y]:
    from a world to its outcome, the values yielded in order, and the world
    it leaves. *)
Definition Gen (Y A : Type) : Type := World -> Outcome A * list Y * World.

#[global] Instance Monad_Gen {Y} : Monad (Gen Y) := {
  ret := fun _ a w => (Ok a, [], w);
  bind := fun _ _ m f w =>
    match m w with
    | (Ok a, ys, w1) => let '(o, ys', w2) := f a w1 in (o, (ys ++ ys')%list, w2)
    | (Raise e, ys, w1) => (Raise e, ys, w1)
    | (Blocked, ys, w1) => (Blocked, ys, w1)
    end
}.

(** A computation without effects, inside a coroutine. *)
Definition lift {Y A} (o : Outcome A) : Gen Y A := fun w => (o, [], w).

Definition raise {Y A} (e : exn) : Gen Y A := fun w => (Raise e, [], w).

Definition yield {Y} (y : Y) : Gen Y unit := fun w => (Ok tt, [y], w).

Definition get_world {Y} : Gen Y World := fun w => (Ok w, [], w).

Definition modify {Y} (f : World -> World) : Gen Y unit :=
  fun w => (Ok tt, [], f w).

(** [try: body  except <every exception> as e: handler e]: the handler
    runs in the world the body left. *)
Definition try_except {Y A} (body : Gen Y A) (handler : exn -> Gen Y A)
  : Gen Y A :=
  fun w =>
    match body w with
    | (Raise e, ys, w1) => let '(o, ys', w2) := handler e w1 in (o, (ys ++ ys')%list, w2)
    | r => r
    end.

(** [await] of a call of the transport: the request is made, and the next
    pending reply decides how the await ends; with no reply left the
    coroutine stays suspended. *)
Definition request {Y} (e : Effect) : Gen Y pyval :=
  fun w =>
    let w1 := log_effect e w in
    match net w1 with
    | [] => (Blocked, [], w1)
    | Answer v :: rest => (Ok v, [], set_net rest w1)
    | Failure err :: rest => (Raise (NetworkError err), [], set_net rest w1)
    | Cancel :: rest => (Raise CancelledError, [], set_net rest w1)
    end.

(** [await asyncio.sleep(seconds)] *)
Definition sleep {Y} (seconds : pyval) : Gen Y unit :=
  modify (log_effect (Sleep seconds)).

(** [datetime.now()], in microseconds. *)
Definition datetime_now {Y} : Gen Y Z :=
  fun w => (Ok (now w (ticks w)), [], tick w).

(** [(later - earlier).seconds]: the seconds field of a [timedelta], which
    is normalised to days, seconds in [0, 86400) and microseconds. *)
Definition timedelta_seconds (earlier later : Z) : Z :=
  ((later - earlier) / 1000000) mod 86400.

(** [str(uuid.uuid4())] *)
Definition uuid4_str `{Host} {Y} : Gen Y string :=
  fun w => (Ok (uuid4 (uuids w)), [], draw w).

(** The pending replies bound the number of requests a loop can make
    before it suspends: a loop that makes a request in every iteration is
    run with one more unit of fuel than there are replies. *)
Definition with_fuel {Y A} (loop : nat -> Gen Y A) : Gen Y A :=
  fun w => loop (S (List.length (net w))) w.

(* ===================================================================== *)
(** * The module functions of [cloud_client.py] *)
(* ===================================================================== *)

(** The calls of the logger change nothing the client or its environment
    can observe and have no counterpart below. *)

Section CloudClient.
Context `{Host}.

(** [response["status"] == s] *)
Definition status_is (response : pyval) (s : string) : Outcome bool :=
  st <- getitem response "status" ;;
  ret (eq_str st s).

(** [_extract_error(response, job_id)] *)
Definition _extract_error (response job_id : pyval) : Outcome (pyval * pyval) :=
  err <- get_method response "error"
           (PyStr (String Json.dquote ("Job " ++ py_str job_id
                     ++ " failed (unknown error)" ++ String Json.dquote ""))) ;;
  match (error_args <- json_loads err ;;
         err_msg <- get_method error_args "error_message" error_args ;;
         err_trace <- get_method error_args "error_traceback" (PyStr "No traceback") ;;
         ret (err_msg, err_trace)) with
  | Ok r => Ok r
  | Raise (Exception _ _) => Ok (PyStr (py_str err), PyStr "No traceback")
  | Raise e => Raise e
  | Blocked => Blocked
  end.

(** [_update_user(user, response)]: the cost and the user object after
    the call. *)
Definition _update_user (user : User) (response : pyval)
  : Outcome (pyval * User) :=
  if truthy response then
    reported <- getitem response "credits" ;;
    diff <- py_sub (credits user) reported ;;
    cost <- py_max0 diff ;;
    generated <- getitem response "images_generated" ;;
    let user := mkUser (user_id user) (user_name user) generated (credits user) in
    reported <- getitem response "credits" ;;
    let user := mkUser (user_id user) (user_name user) (images_generated user) reported in
    ret (cost, user)
  else
    ret (PyInt 0, user).

(** [_poll_interval] *)
Definition _poll_interval : pyval := PyFloat 0.5.

(* --------------------------------------------------------------------- *)
(** ** The methods of [CloudClient] *)
(* --------------------------------------------------------------------- *)

Definition _get {Y} (op : string) : Gen Y pyval :=
  w <- get_world ;;
  request (Get (url w ++ "/" ++ op) (_token w)).

Definition _post {Y} (op : string) (body : pyval) : Gen Y pyval :=
  w <- get_world ;;
  request (Post (url w ++ "/" ++ op) body (_token w)).

(** [ensure(self.user)] *)
Definition ensure_user {Y} : Gen Y User :=
  w <- get_world ;;
  match _user w with
  | Some u => ret u
  | None => raise (Exception AssertionError ensure_message)
  end.

(** The body of the loop of [sign_in]: the next confirmation. *)
Definition confirm_again (client_id : string) (time : Z) : Gen pyval pyval :=
  t <- datetime_now ;;
  if timedelta_seconds time t >? 300 then
    raise (Exception TimeoutError "Sign-in attempt timed out after 5 minutes")
  else
    sleep (PyInt 2) ;;
    _post "auth/confirm" (PyDict [("client_id", PyStr client_id)]).

(** The loop of [sign_in] from the test of its condition on. *)
Fixpoint sign_in_loop (fuel : nat) (client_id : string) (time : Z)
  (auth_confirm : pyval) : Gen pyval pyval :=
  waiting <- lift (status_is auth_confirm "not-found") ;;
  if (waiting : bool) then
    match fuel with
    | O => fun w => (Blocked, [], w)
    | S fuel' =>
        auth_confirm <- confirm_again client_id time ;;
        sign_in_loop fuel' client_id time auth_confirm
    end
  else ret auth_confirm.

(** The statements of [sign_in] after its loop. *)
Definition sign_in_result (auth_confirm : pyval) : Gen pyval unit :=
  authorized <- lift (status_is auth_confirm "authorized") ;;
  if (authorized : bool) then
    token <- lift (getitem auth_confirm "token") ;;
    modify (set_token token) ;;
    yield token
  else
    reason <- lift (get_method auth_confirm "status" (PyStr "unexpected response")) ;;
    raise (Exception RuntimeError
             ("Authorization could not be confirmed: " ++ py_str reason)).

(** [sign_in]: yields the URL of the sign-in page, then the token. *)
Definition sign_in : Gen pyval unit :=
  client_id <- uuid4_str ;;
  let info := "Generative AI for Krita [Device: " ++ node ++ "]" in
  init <- _post "auth/initiate"
            (PyDict [("client_id", PyStr client_id); ("client_info", PyStr info)]) ;;
  init_url <- lift (getitem init "url") ;;
  let sign_in_url := default_web_url ++ py_str init_url in
  yield (PyStr sign_in_url) ;;
  auth_confirm <- _post "auth/confirm" (PyDict [("client_id", PyStr client_id)]) ;;
  time <- datetime_now ;;
  auth_confirm <- with_fuel (fun fuel => sign_in_loop fuel client_id time auth_confirm) ;;
  sign_in_result auth_confirm.

(** [enqueue(work, front)]: the put on the unbounded queue never waits. *)
Definition enqueue {Y} (work : WorkflowInput) (front : bool) : Gen Y string :=
  let work := mkWorkflowInput (Z.min (batch_count work) 8) (models work)
                              (workflow_fields work) in
  let work :=
    match models work with
    | Some m =>
        mkWorkflowInput (batch_count work)
          (Some (mkCheckpointInput false (checkpoint_fields m)))
          (workflow_fields work)
    | None => work
    end in
  fresh <- uuid4_str ;;
  let job := mkJobInfo fresh work PyNone PyNone in
  w <- get_world ;;
  modify (set_queue (_queue w ++ [job])%list) ;;
  ret (local_id job).

(** [_upload_to_s3(data)] *)
Definition _upload_to_s3 {Y} (blob : pyval) : Gen Y pyval :=
  upload_info <- _get "upload" ;;
  target <- lift (getitem upload_info "url") ;;
  request (Put target blob) ;;
  lift (getitem upload_info "object").

(** [_send_images(inputs)]: the dict [inputs] after the call. *)
Definition _send_images {Y} (inputs : pyval) : Gen Y pyval :=
  image_data <- lift (get_method inputs "image_data" PyNone) ;;
  if truthy image_data then
    blob <- lift (getitem image_data "bytes") ;;
    offsets <- lift (getitem image_data "offsets") ;;
    size <- lift (py_len blob) ;;
    if _base64_size size <? 3500000 then
      encoded <- lift (b64encode_str blob) ;;
      lift (setitem inputs "image_data"
              (PyDict [("base64", PyStr encoded); ("offsets", offsets)]))
    else
      s3_object <- _upload_to_s3 blob ;;
      lift (setitem inputs "image_data"
              (PyDict [("s3_object", s3_object); ("offsets", offsets)]))
  else ret inputs.

(** [isinstance(offsets, list) and len(offsets) > 0] *)
Definition valid_offsets (offsets : pyval) : bool :=
  match offsets with
  | PyList l => 0 <? Z.of_nat (List.length l)
  | _ => false
  end.

(** [receive_images(images)] *)
Definition receive_images {Y} (images : pyval) : Gen Y ImageCollection :=
  offsets <- lift (get_method images "offsets" PyNone) ;;
  if negb (valid_offsets offsets) then
    raise (Exception ValueError
             ("Could not read result images, invalid offsets: " ++ py_str offsets))
  else
    link <- lift (get_method images "url" PyNone) ;;
    if truthy link then
      bytes <- request (Download link) ;;
      lift (from_bytes bytes offsets)
    else
      b64 <- lift (get_method images "base64" PyNone) ;;
      if truthy b64 then lift (from_base64 b64 offsets)
      else
        raise (Exception ValueError
                 ("No result images found in server response: "
                  ++ str_prefix 80 (py_str images))).

(** [self.user.credits = v] *)
Definition set_user_credits {Y} (v : pyval) : Gen Y unit :=
  w <- get_world ;;
  match _user w with
  | Some user =>
      modify (set_user (Some (mkUser (user_id user) (user_name user)
                                     (images_generated user) v)))
  | None => raise (Exception AttributeError
                     "'NoneType' object has no attribute 'credits'")
  end.

(** [self.user.credits] *)
Definition user_credits {Y} : Gen Y pyval :=
  w <- get_world ;;
  match _user w with
  | Some user => ret (credits user)
  | None => raise (Exception AttributeError
                     "'NoneType' object has no attribute 'credits'")
  end.

Definition is_some {A} (o : option A) : bool :=
  match o with Some _ => true | None => false end.

(** [_process_http_error(e)]: the bare [except] clause catches whatever
    the two lines of the [try] block raise. *)
Definition _process_http_error {Y} (e : NetError) : Gen Y string :=
  let raw := message e in
  w <- get_world ;;
  if match status e with Some code => code =? 402 | None => false end
     && truthy (data e) && is_some (_user w) then
    try_except
      (reported <- lift (getitem (data e) "credits") ;;
       set_user_credits reported ;;
       cost <- lift (getitem (data e) "cost") ;;
       remaining <- user_credits ;;
       ret ("Insufficient funds - generation would cost " ++ py_str cost
            ++ " tokens. Remaining tokens: " ++ py_str remaining))
      (fun _ => ret raw)
  else ret raw.

(** The body of the [while] loop of [_process_job]: the response to one
    status request. *)
Definition poll_once (job : JobInfo) : Gen ClientMessage pyval :=
  response <- _post ("status/" ++ py_str (worker_id job) ++ "/"
                     ++ py_str (remote_id job)) (PyDict []) ;;
  in_queue <- lift (status_is response "IN_QUEUE") ;;
  (if (in_queue : bool) then
     yield (message_of ClientEvent.queued (local_id job))
   else
     in_progress <- lift (status_is response "IN_PROGRESS") ;;
     if (in_progress : bool) then
       output <- lift (get_method response "output" PyNone) ;;
       fraction <- (if truthy output
                    then lift (get_method output "progress" (PyFloat 0.09))
                    else ret (PyFloat 0.09)) ;;
       yield (with_progress
                (message_of ClientEvent.progress (local_id job)) fraction)
     else ret tt) ;;
  sleep _poll_interval ;;
  ret response.

(** The [while] loop of [_process_job], from the test of its condition
    on; the result is the last response. *)
Fixpoint poll_loop (fuel : nat) (job : JobInfo) (response : pyval)
  : Gen ClientMessage pyval :=
  in_queue <- lift (status_is response "IN_QUEUE") ;;
  pending <- (if (in_queue : bool) then ret true
              else lift (status_is response "IN_PROGRESS")) ;;
  if (pending : bool) then
    match fuel with
    | O => fun w => (Blocked, [], w)
    | S fuel' =>
        response <- poll_once job ;;
        poll_loop fuel' job response
    end
  else ret response.

(** The statements of [_process_job] after its loop. *)
Definition resolve (job : JobInfo) (response : pyval) : Gen ClientMessage unit :=
  completed <- lift (status_is response "COMPLETED") ;;
  if (completed : bool) then
    output <- lift (getitem response "output") ;;
    payload <- lift (getitem output "images") ;;
    images <- receive_images payload ;;
    pose <- lift (get_method output "pose" PyNone) ;;
    yield (with_images
             (with_progress (message_of ClientEvent.finished (local_id job))
                            (PyInt 1))
             images pose)
  else
    failed <- lift (status_is response "FAILED") ;;
    if (failed : bool) then
      extracted <- lift (_extract_error response (remote_id job)) ;;
      yield (with_error (message_of ClientEvent.error (local_id job))
                        (fst extracted))
    else
      cancelled <- lift (status_is response "CANCELLED") ;;
      if (cancelled : bool) then
        yield (message_of ClientEvent.interrupted (local_id job))
      else
        timed_out <- lift (status_is response "TIMED_OUT") ;;
        if (timed_out : bool) then
          yield (with_error (message_of ClientEvent.error (local_id job))
                            (PyStr "job timed out"))
        else ret tt.

(** [_process_job] from its loop on: poll, then resolve. *)
Definition track (job : JobInfo) (response : pyval) : Gen ClientMessage unit :=
  response <- with_fuel (fun fuel => poll_loop fuel job response) ;;
  resolve job response.

(** [_process_job(job)].  The job is the object that [_current_job]
    holds ([listen] is the only caller), and [user] is the object that
    [_user] holds: an assignment to an attribute of either is made in the
    world. *)
Definition _process_job (job : JobInfo) : Gen ClientMessage unit :=
  user <- ensure_user ;;
  let inputs := to_dict (work job) in
  inputs <- _send_images inputs ;;
  let body := PyDict [("input", PyDict [("workflow", inputs)])] in
  response <- _post "generate" body ;;
  remote <- lift (getitem response "id") ;;
  let job := mkJobInfo (local_id job) (work job) remote (worker_id job) in
  modify (set_current_job (Some job)) ;;
  worker <- lift (getitem response "worker_id") ;;
  let job := mkJobInfo (local_id job) (work job) (remote_id job) worker in
  modify (set_current_job (Some job)) ;;
  user_data <- lift (get_method response "user" PyNone) ;;
  updated <- lift (_update_user user user_data) ;;
  modify (set_user (Some (snd updated))) ;;
  yield (message_of ClientEvent.progress (local_id job)) ;;
  track job response.

(** [await self._queue.get()]: waits while the queue is empty. *)
Definition queue_get {Y} : Gen Y JobInfo :=
  fun w =>
    match _queue w with
    | [] => (Blocked, [], w)
    | job :: rest => (Ok job, [], set_queue rest w)
    end.

(** [finally: self._current_job = None], at every exit of the statement
    it guards; a suspended coroutine has not left it. *)
Definition finally_reset {Y A} (body : Gen Y A) : Gen Y A :=
  fun w =>
    match body w with
    | (Blocked, ys, w1) => (Blocked, ys, w1)
    | (o, ys, w1) => (o, ys, set_current_job None w1)
    end.

(** The [error] message of an [except] clause of [listen], emitted when
    [_current_job] is not [None]. *)
Definition yield_error (text : string) : Gen ClientMessage unit :=
  w <- get_world ;;
  match _current_job w with
  | Some job =>
      yield (with_error (message_of ClientEvent.error (local_id job)) (PyStr text))
  | None => ret tt
  end.

(** The [except] clauses of [listen], in their order: [true] to go on with
    the loop, [false] after [break]. *)
Definition on_exception (e : exn) : Gen ClientMessage bool :=
  match e with
  | NetworkError ne =>
      text <- _process_http_error ne ;;
      yield_error text ;;
      ret true
  | Exception _ text =>
      yield_error text ;;
      ret true
  | CancelledError => ret false
  end.

(** One iteration of the loop of [listen]: [true] to go on, [false] after
    [break]. *)
Definition listen_step : Gen ClientMessage bool :=
  finally_reset
    (try_except
       (job <- queue_get ;;
        modify (set_current_job (Some job)) ;;
        _process_job job ;;
        ret true)
       on_exception).

(** The loop of [listen]: every iteration takes a job from the queue, so
    the jobs in the queue bound the iterations before the loop waits. *)
Fixpoint listen_loop (fuel : nat) : Gen ClientMessage unit :=
  match fuel with
  | O => fun w => (Blocked, [], w)
  | S fuel' =>
      go_on <- listen_step ;;
      if (go_on : bool) then listen_loop fuel' else ret tt
  end.

(** [listen] *)
Definition listen : Gen ClientMessage unit :=
  yield (message_of ClientEvent.connected "") ;;
  fun w => listen_loop (S (List.length (_queue w))) w.

End CloudClient.

(* ===================================================================== *)
(** * The session of the client and the control of its queue *)
(* ===================================================================== *)

Section Session.
Context `{Host}.

(** The defaults of the fields of [client.User] that the call
    [User(id, name)] leaves to the data class. *)
Variables (default_images_generated default_credits : pyval).

(** What [authenticate] does with a [NetworkError]: the token is cleared,
    a 401 gets the message about the login data, and the error is raised
    again. *)
Definition reject_token {Y A} (e : NetError) : Gen Y A :=
  modify (set_token (PyStr "")) ;;
  raise (NetworkError
           (if match status e with Some code => code =? 401 | None => false end
            then mkNetError "The login data is incorrect, please sign in again."
                            (status e) (data e)
            else e)).

(** [authenticate(token)]: the user object is created with its defaults
    and then receives the counters of the reply, one assignment after the
    other. *)
Definition authenticate {Y} (token : pyval) : Gen Y User :=
  if negb (truthy token) then
    raise (Exception ValueError "Authorization missing for cloud endpoint")
  else
    modify (set_token token) ;;
    user_data <- try_except (_get "user")
                   (fun e => match e with
                             | NetworkError ne => reject_token ne
                             | _ => raise e
                             end) ;;
    uid <- lift (getitem user_data "id") ;;
    uname <- lift (getitem user_data "name") ;;
    modify (set_user (Some (mkUser uid uname default_images_generated
                                   default_credits))) ;;
    generated <- lift (getitem user_data "images_generated") ;;
    modify (set_user (Some (mkUser uid uname generated default_credits))) ;;
    reported <- lift (getitem user_data "credits") ;;
    modify (set_user (Some (mkUser uid uname generated reported))) ;;
    ret (mkUser uid uname generated reported).

(** [CloudClient(url)]: a client object of its own in the same
    environment. *)
Definition new_client (address : string) (w : World) : World :=
  mkWorld address (PyStr "") None None []
          (net w) (trace w) (now w) (ticks w) (uuids w).

(** [connect(url, access_token)]: the client it returns is the client of
    the world it leaves. *)
Definition connect {Y} (address : string) (access_token : pyval) : Gen Y unit :=
  if negb (truthy access_token) then
    raise (Exception ValueError "Authorization missing for cloud endpoint")
  else
    modify (new_client address) ;;
    authenticate access_token ;;
    ret tt.

(** [interrupt()]: a [JobInfo] object is true in a condition. *)
Definition interrupt {Y} : Gen Y unit :=
  w <- get_world ;;
  match _current_job w with
  | Some job =>
      if truthy (remote_id job) then
        _post ("cancel/" ++ py_str (remote_id job)) (PyDict []) ;;
        ret tt
      else ret tt
  | None => ret tt
  end.

(** [clear_queue()] *)
Definition clear_queue {Y} : Gen Y unit := modify (set_queue []).

End Session.

(* ===================================================================== *)
(** * A host to run the client on *)
(* ===================================================================== *)

(** A host whose image collections are the received payload with its
    offsets, and whose workflows serialise to the fields they carry. *)
Module Demo.

#[local] Instance host : Host := {|
  ImageCollection := pyval * pyval;
  from_bytes := fun bytes offsets => Ok (bytes, offsets);
  from_base64 := fun b64 offsets => Ok (b64, offsets);
  to_dict := workflow_fields;
  ensure_message := "a value is required";
  py_repr := fun v => "<" ++ type_name v ++ ">";
  float_of_literal := fun _ => nan;
  json_decode_bytes := fun _ => None;
  int_max_str_digits := 4300;
  spare_recursion := 900;
  uuid4 := fun n => "uuid-" ++ str_of_int (Z.of_nat n);
  node := "workstation";
  default_web_url := "https://www.interstice.cloud"
|}.

Definition user : User := mkUser (PyStr "u-1") (PyStr "Ada") (PyInt 3) (PyInt 10).

(** A client connected to [https://api.interstice.cloud] with the given
    user, queue, pending replies and clock. *)
Definition world (u : option User) (queue : list JobInfo)
  (replies : list Reply) (clock : nat -> Z) : World :=
  mkWorld "https://api.interstice.cloud" (PyStr "token") u None queue
          replies [] clock 0 0.

Definition job (label : string) : JobInfo :=
  mkJobInfo label (mkWorkflowInput 1 None (PyDict [])) PyNone PyNone.

(** A reply with the given status and further fields. *)
Definition reply (state : string) (fields : pydict) : Reply :=
  Answer (PyDict (("status", PyStr state) :: fields)).

Definition accepted : Reply :=
  reply "IN_QUEUE" [("id", PyStr "r-1"); ("worker_id", PyStr "wk-1");
                    ("user", PyDict [("credits", PyInt 7);
                                     ("images_generated", PyInt 4)])].

Definition running (fraction : float) : Reply :=
  reply "IN_PROGRESS" [("output", PyDict [("progress", PyFloat fraction)])].

Definition completed : Reply :=
  reply "COMPLETED"
        [("output", PyDict [("images", PyDict [("base64", PyStr "QUJD");
                                               ("offsets", PyList [PyInt 0])])])].

(** A client that is not signed in yet. *)
Definition signed_out (replies : list Reply) (clock : nat -> Z) : World :=
  mkWorld "https://api.interstice.cloud" (PyStr "") None None [] replies []
          clock 0 0.

(** A transport error of the service while it is polled. *)
Definition unavailable : NetError :=
  mkNetError "Service Unavailable" (Some 503) PyNone.

(** A 402 error with the remaining credits and the cost of the job. *)
Definition payment_required : NetError :=
  mkNetError "Payment Required" (Some 402)
             (PyDict [("credits", PyInt 5); ("cost", PyInt 3)]).

(** A 402 error that does not say what the job costs. *)
Definition payment_required_malformed : NetError :=
  mkNetError "Payment Required" (Some 402) (PyDict [("credits", PyInt 5)]).

(** A response [FAILED] with the given error field. *)
Definition failed (err : string) : pydict :=
  [("status", PyStr "FAILED"); ("error", PyStr err)].

(** A workflow with three bytes of image data. *)
Definition small_blob : list Byte.byte := [Byte.x01; Byte.x02; Byte.x03].

(** The smallest blob that is uploaded: 2,624,998 bytes. *)
Definition large_blob : list Byte.byte := repeat Byte.x00 (N.to_nat 2624998).

Definition image_data (blob : list Byte.byte) : pydict :=
  [("bytes", PyBytes blob); ("offsets", PyList [PyInt 0])].

Definition inputs (blob : list Byte.byte) : pydict :=
  [("kind", PyStr "generate"); ("image_data", PyDict (image_data blob))].

(** Two jobs in the queue; the service accepts the first and fails while
    it is polled, then accepts and completes the second. *)
Definition two_jobs : World :=
  world (Some user) [job "job-a"; job "job-b"]
        [accepted; Failure unavailable; accepted; completed] (fun _ => 0).

(** The replies to a sign-in that is confirmed at the third request. *)
Definition sign_in_replies : list Reply :=
  [Answer (PyDict [("url", PyStr "/auth?code=1")]);
   reply "not-found" [];
   reply "not-found" [];
   reply "authorized" [("token", PyStr "T-1")]].

(** A clock, in microseconds, of a machine that is suspended for a day
    during the second wait of the sign-in: the readings are 0 s, 1 s, and
    from then on 86,405 s. *)
Definition suspended_clock (n : nat) : Z :=
  match n with
  | 0%nat => 0
  | 1%nat => 1000000
  | _ => 86405 * 1000000
  end.

End Demo.

(* ===================================================================== *)
(** * The events of the specification *)
(* ===================================================================== *)

Section Events.
Context `{Host}.

Definition queued_event (job_id : string) : ClientMessage :=
  mkClientMessage ClientEvent.queued job_id (PyInt 0) None PyNone PyNone.

Definition progress_event (job_id : string) (fraction : pyval) : ClientMessage :=
  mkClientMessage ClientEvent.progress job_id fraction None PyNone PyNone.

Definition finished_event (job_id : string) (images : ImageCollection)
  (pose : pyval) : ClientMessage :=
  mkClientMessage ClientEvent.finished job_id (PyInt 1) (Some images) pose PyNone.

Definition error_event (job_id : string) (text : pyval) : ClientMessage :=
  mkClientMessage ClientEvent.error job_id (PyInt 0) None PyNone text.

Definition is_error (m : ClientMessage) : bool :=
  match msg_event m with ClientEvent.error => true | _ => false end.

End Events.

(* ===================================================================== *)
(** * Runs and what they preserve *)
(* ===================================================================== *)

Section Runs.
Context `{Host}.

(** The operation of a status request for a job. *)
Definition status_path (job : JobInfo) : string :=
  "status/" ++ py_str (worker_id job) ++ "/" ++ py_str (remote_id job).

(** The world after one answered status request for [job] and the pause
    that follows it; [rest] are the replies still pending. *)
Definition polled (job : JobInfo) (rest : list Reply) (w : World) : World :=
  log_effect (Sleep _poll_interval)
    (set_net rest
       (log_effect (Post (url w ++ "/" ++ status_path job) (PyDict []) (_token w))
                   w)).

(** A run that yields [y] before everything a given run yields. *)
Definition emit_first {Y A} (y : Y) (r : Outcome A * list Y * World)
  : Outcome A * list Y * World :=
  let '(o, ys, w) := r in (o, y :: ys, w).

(** Every run of [m] from a world in [I] ends in a world in [I] and
    yields only values in [E]. *)
Definition keeps {Y A} (I : World -> Prop) (E : Y -> Prop) (m : Gen Y A)
  : Prop :=
  forall w o ys w', m w = (o, ys, w') -> I w -> I w' /\ Forall E ys.

(** The client holds a current job with the identifier [job_id], and [q]
    is its queue. *)
Definition processing (job_id : string) (q : list JobInfo) (w : World) : Prop :=
  _queue w = q
  /\ exists job, _current_job w = Some job /\ local_id job = job_id.

(** A response that keeps the loop of [_process_job] going. *)
Definition pending (response : pydict) : Prop :=
  dict_get response "status" = Some (PyStr "IN_QUEUE")
  \/ dict_get response "status" = Some (PyStr "IN_PROGRESS").

(** A response that carries no fraction of progress: no output, an output
    that is false in a condition, or an output without the key. *)
Definition no_fraction (response : pydict) : Prop :=
  match dict_get response "output" with
  | None => True
  | Some output =>
      truthy output = false
      \/ exists d, output = PyDict d /\ dict_get d "progress" = None
  end.

(** The world after the service accepted a submission: the request is
    in the trace, [rest] are the replies still pending, the job holds its
    remote identifiers and the user the reported quota. *)
Definition submitted (job : JobInfo) (user : User) (body : pyval)
  (rest : list Reply) (w : World) : World :=
  set_user (Some user)
    (set_current_job (Some job)
       (set_net rest
          (log_effect (Post (url w ++ "/generate") body (_token w)) w))).

(** Every run of [m] that does not end with a value yields only values
    in [E]. *)
Definition quiet_unless_done {Y A} (E : Y -> Prop) (m : Gen Y A) : Prop :=
  forall w o ys w',
    m w = (o, ys, w') -> (exists a, o = Ok a) \/ Forall E ys.

(** An event that is not an error event. *)
Definition not_error (m : ClientMessage) : Prop := is_error m = false.

End Runs.

(** [needle] occurs in [text]. *)
Definition contains (needle text : string) : Prop :=
  exists before after, text = before ++ needle ++ after.

(* ===================================================================== *)
(** * What a caller observes *)
(* ===================================================================== *)

(** The parts of a run. *)
Definition outcome_of {Y A} (r : Outcome A * list Y * World) : Outcome A :=
  fst (fst r).
Definition events_of {Y A} (r : Outcome A * list Y * World) : list Y :=
  snd (fst r).
Definition world_of {Y A} (r : Outcome A * list Y * World) : World := snd r.

(** The run ended with a value. *)
Definition returned {Y A} (r : Outcome A * list Y * World) : Prop :=
  exists a, outcome_of r = Ok a.

(** The requests and pauses a run added to the ones made before it. *)
Definition effects_since (w : World) {Y A} (r : Outcome A * list Y * World)
  : list Effect :=
  skipn (List.length (trace w)) (trace (world_of r)).

(** No cancellation is among the replies that wait. *)
Definition undisturbed (w : World) : bool :=
  forallb (fun r => match r with Cancel => false | _ => true end) (net w).

(** An outcome other than a cancellation. *)
Definition uncancelled {A} (o : Outcome A) : Prop := o <> Raise CancelledError.

(** Every run of [m] in an undisturbed world is not cancelled and leaves
    the world undisturbed. *)
Definition steady {Y A} (m : Gen Y A) : Prop :=
  forall w o ys w',
    m w = (o, ys, w') -> undisturbed w = true ->
    uncancelled o /\ undisturbed w' = true.

Section Observations.
Context `{Host}.

Definition interrupted_event (job_id : string) : ClientMessage :=
  mkClientMessage ClientEvent.interrupted job_id (PyInt 0) None PyNone PyNone.

(** An event that ends a job for the caller. *)
Definition is_terminal (m : ClientMessage) : bool :=
  match msg_event m with
  | ClientEvent.finished | ClientEvent.error | ClientEvent.interrupted => true
  | _ => false
  end.

(** An event that leaves the job open. *)
Definition open_event (m : ClientMessage) : Prop := is_terminal m = false.

(** The events of a run are events that do not end the job, followed by
    at most one that does, and that one only when the run ended with a
    value. *)
Definition ends_once {A} (r : Outcome A * list ClientMessage * World) : Prop :=
  exists before last,
    events_of r = (before ++ last)%list
    /\ Forall (fun e => is_terminal e = false) before
    /\ (last = [] \/ (exists t, last = [t]) /\ returned r).

(** A run that emitted nothing and did not end with a value, or whose
    first event is [y]. *)
Definition opens_with {A} (y : ClientMessage)
  (r : Outcome A * list ClientMessage * World) : Prop :=
  (events_of r = [] /\ ~ returned r)
  \/ exists rest, events_of r = y :: rest.

(** The statuses of a response that [_process_job] knows. *)
Definition known_status (s : string) : Prop :=
  s = "IN_QUEUE" \/ s = "IN_PROGRESS" \/ s = "COMPLETED" \/ s = "FAILED"
  \/ s = "CANCELLED" \/ s = "TIMED_OUT".

End Observations.

(** Further inputs to run the client on. *)
Module Samples.

(** The job of [Demo.accepted] once the service has named it. *)
Definition submitted_job : JobInfo :=
  mkJobInfo "job-a" (mkWorkflowInput 1 None (PyDict [])) (PyStr "r-1")
            (PyStr "wk-1").

(** A client that processes [job], with the given pending replies. *)
Definition busy (job : JobInfo) (waiting : list JobInfo) (replies : list Reply)
  : World :=
  set_current_job (Some job)
    (Demo.world (Some Demo.user) waiting replies (fun _ => 0)).

(** The reply of the service to [GET user]. *)
Definition user_data : pydict :=
  [("id", PyStr "u-1"); ("name", PyStr "Ada");
   ("images_generated", PyInt 3); ("credits", PyInt 10)].

(** A reply to [GET user] of a service that does not count images. *)
Definition user_data_without_counter : pydict :=
  [("id", PyStr "u-1"); ("name", PyStr "Ada")].

(** A rejected token. *)
Definition unauthorized : NetError :=
  mkNetError "Unauthorized" (Some 401) PyNone.

(** A result that names a URL and carries the images as well. *)
Definition result_with_url : pydict :=
  [("url", PyStr "https://transfer.example/result");
   ("base64", PyStr "QUJD"); ("offsets", PyList [PyInt 0])].

(** A clock that reads [t] microseconds. *)
Definition clock_at (t : Z) : nat -> Z := fun _ => t.

(** [repr(v)] for the values the examples print: [None], booleans,
    integers, strings of printable characters without quotes and
    backslashes, and lists and dicts of such values with such strings as
    keys. *)
Fixpoint repr (v : pyval) : string :=
  match v with
  | PyNone => "None"
  | PyBool true => "True"
  | PyBool false => "False"
  | PyInt z => str_of_int z
  | PyStr s => "'" ++ s ++ "'"
  | PyList l =>
      "[" ++ (fix items (l : list pyval) : string :=
                match l with
                | [] => ""
                | x :: r =>
                    match r with
                    | [] => repr x
                    | _ :: _ => repr x ++ ", " ++ items r
                    end
                end) l ++ "]"
  | PyDict d =>
      "{" ++ (fix members (d : list (string * pyval)) : string :=
                match d with
                | [] => ""
                | (k, x) :: r =>
                    match r with
                    | [] => "'" ++ k ++ "': " ++ repr x
                    | _ :: _ => "'" ++ k ++ "': " ++ repr x ++ ", " ++ members r
                    end
                end) d ++ "}"
  | PyFloat _ => "<float>"
  | PyBytes _ => "<bytes>"
  end.

(** The host of [Demo] with that [repr]. *)
Definition host : Host := {|
  ImageCollection := pyval * pyval;
  from_bytes := fun bytes offsets => Ok (bytes, offsets);
  from_base64 := fun b64 offsets => Ok (b64, offsets);
  to_dict := workflow_fields;
  ensure_message := "a value is required";
  py_repr := repr;
  float_of_literal := fun _ => nan;
  json_decode_bytes := fun _ => None;
  int_max_str_digits := 4300;
  spare_recursion := 900;
  uuid4 := fun n => "uuid-" ++ str_of_int (Z.of_nat n);
  node := "workstation";
  default_web_url := "https://www.interstice.cloud"
|}.

(** [n] times the letter e with an acute accent, two bytes each. *)
Fixpoint accents (n : nat) : string :=
  match n with
  | O => EmptyString
  | S n' => String "195" (String "169" (accents n'))
  end.

(** A result without images and with a note of 100 accented letters. *)
Definition result_with_note : pydict :=
  [("offsets", PyList [PyInt 0]); ("note", PyStr (accents 100))].

(** [n] digits 7. *)
Fixpoint sevens (n : nat) : string :=
  match n with
  | O => EmptyString
  | S n' => String "7" (sevens n')
  end.

(** [n] opening brackets, then as many closing ones. *)
Fixpoint nested (n : nat) : string :=
  match n with
  | O => EmptyString
  | S n' => String "[" (nested n' ++ "]")
  end.

End Samples.

(* ===================================================================== *)
(** * Properties *)
(* ===================================================================== *)

Ltac outcome := cbn [bind ret Monad_Outcome].

Section Properties.
Context `{Host}.

(** ** Running a coroutine step by step *)

Lemma run_eta {Y A} (r : Outcome A * list Y * World) :
  (let '(o, ys, w) := r in (o, ([] ++ ys)%list, w)) = r.
Proof. now destruct r as [[o ys] w]. Qed.

Lemma bind_lift_ok {Y A B} (a : A) (f : A -> Gen Y B) (w : World) :
  bind (lift (Ok a)) f w = f a w.
Proof. cbn. apply run_eta. Qed.

Lemma bind_lift_raise {Y A B} (e : exn) (f : A -> Gen Y B) (w : World) :
  bind (lift (Raise e)) f w = (Raise e, [], w).
Proof. reflexivity. Qed.

Lemma bind_ret {Y A B} (a : A) (f : A -> Gen Y B) (w : World) :
  bind (ret a) f w = f a w.
Proof. cbn. apply run_eta. Qed.

Lemma bind_raise {Y A B} (e : exn) (f : A -> Gen Y B) (w : World) :
  bind (raise e) f w = (Raise e, [], w).
Proof. reflexivity. Qed.

Lemma bind_get_world {Y B} (f : World -> Gen Y B) (w : World) :
  bind get_world f w = f w w.
Proof. cbn. apply run_eta. Qed.

Lemma bind_modify {Y B} (g : World -> World) (f : unit -> Gen Y B) (w : World) :
  bind (modify g) f w = f tt (g w).
Proof. cbn. apply run_eta. Qed.

Lemma bind_yield {Y B} (y : Y) (f : unit -> Gen Y B) (w : World) :
  bind (yield y) f w = emit_first y (f tt w).
Proof. reflexivity. Qed.

Lemma bind_bind {Y A B C} (m : Gen Y A) (f : A -> Gen Y B) (g : B -> Gen Y C)
  (w : World) :
  bind (bind m f) g w = bind m (fun a => bind (f a) g) w.
Proof.
  cbn. destruct (m w) as [[[a | e |] ys] w1]; try reflexivity.
  destruct (f a w1) as [[[b | e |] ys1] w2]; try reflexivity.
  destruct (g b w2) as [[o ys2] w3]. now rewrite app_assoc.
Qed.

(** A request that the transport answers. *)
Lemma bind_request_answer {Y B} (e : Effect) (f : pyval -> Gen Y B)
  (w : World) (v : pyval) (rest : list Reply) :
  net w = Answer v :: rest ->
  bind (request e) f w = f v (set_net rest (log_effect e w)).
Proof.
  intros E. cbn. unfold request. cbn [net log_effect]. rewrite E. apply run_eta.
Qed.

(** A request that fails in the transport. *)
Lemma bind_request_failure {Y B} (e : Effect) (f : pyval -> Gen Y B)
  (w : World) (err : NetError) (rest : list Reply) :
  net w = Failure err :: rest ->
  bind (request e) f w
  = (Raise (NetworkError err), [], set_net rest (log_effect e w)).
Proof. intros E. cbn. unfold request. cbn [net log_effect]. now rewrite E. Qed.

Lemma bind_post_answer {Y B} (op : string) (body : pyval)
  (f : pyval -> Gen Y B) (w : World) (v : pyval) (rest : list Reply) :
  net w = Answer v :: rest ->
  bind (_post op body) f w
  = f v (set_net rest (log_effect (Post (url w ++ "/" ++ op) body (_token w)) w)).
Proof.
  intros E. unfold _post. rewrite bind_bind, bind_get_world.
  now apply bind_request_answer.
Qed.

Lemma bind_get_answer {Y B} (op : string)
  (f : pyval -> Gen Y B) (w : World) (v : pyval) (rest : list Reply) :
  net w = Answer v :: rest ->
  bind (_get op) f w
  = f v (set_net rest (log_effect (Get (url w ++ "/" ++ op) (_token w)) w)).
Proof.
  intros E. unfold _get. rewrite bind_bind, bind_get_world.
  now apply bind_request_answer.
Qed.

Lemma bind_ok_inv {Y A B} (m : Gen Y A) (f : A -> Gen Y B) (w w' : World)
  (b : B) (ys : list Y) :
  bind m f w = (Ok b, ys, w') ->
  exists a ys1 w1 ys2,
    m w = (Ok a, ys1, w1) /\ f a w1 = (Ok b, ys2, w') /\ ys = (ys1 ++ ys2)%list.
Proof.
  cbn. destruct (m w) as [[[a | e |] ys1] w1] eqn:Em; try discriminate.
  destruct (f a w1) as [[o ys2] w2] eqn:Ef. intros E. inversion E; subst.
  exists a, ys1, w1, ys2. auto.
Qed.

Lemma run_lift {Y A} (o : Outcome A) (w : World) :
  lift (Y := Y) o w = (o, [], w).
Proof. reflexivity. Qed.


(** ** Dictionaries and dynamic operations *)

Lemma dict_get_set_same (d : pydict) (k : string) (v : pyval) :
  dict_get (dict_set d k v) k = Some v.
Proof.
  induction d as [| [k' v'] d IH]; simpl.
  - now rewrite String.eqb_refl.
  - destruct (String.eqb k' k) eqn:E; simpl; rewrite E; auto.
Qed.

Lemma getitem_dict (d : pydict) (k : string) (v : pyval) :
  dict_get d k = Some v -> getitem (PyDict d) k = Ok v.
Proof. intros E. unfold getitem. now rewrite E. Qed.

Lemma get_method_dict (d : pydict) (k : string) (v dflt : pyval) :
  dict_get d k = Some v -> get_method (PyDict d) k dflt = Ok v.
Proof. intros E. unfold get_method. now rewrite E. Qed.

Lemma get_method_missing (d : pydict) (k : string) (dflt : pyval) :
  dict_get d k = None -> get_method (PyDict d) k dflt = Ok dflt.
Proof. intros E. unfold get_method. now rewrite E. Qed.

Lemma truthy_dict (d : pydict) (k : string) (v : pyval) :
  dict_get d k = Some v -> truthy (PyDict d) = true.
Proof. destruct d; [discriminate | reflexivity]. Qed.

Lemma status_is_dict (d : pydict) (s t : string) :
  dict_get d "status" = Some (PyStr s) ->
  status_is (PyDict d) t = Ok (String.eqb s t).
Proof. intros E. unfold status_is. now rewrite (getitem_dict _ _ _ E). Qed.

(** ** [_base64_size] *)

(** [_base64_size size] is four times the ceiling of [size / 3]. *)
Lemma base64_size_ceiling (size c : Z) :
  3 * (c - 1) < size <= 3 * c -> _base64_size size = c * 4.
Proof.
  intros Hc. unfold _base64_size. f_equal.
  symmetry. apply Z.div_unique with (r := size + 2 - 3 * c); lia.
Qed.

(** The threshold in bytes: 2,624,997 bytes still go inline. *)
Lemma base64_size_threshold (size : Z) :
  _base64_size size < 3500000 <-> size <= 2624997.
Proof.
  unfold _base64_size.
  pose proof (Z.div_mod (size + 2) 3 ltac:(lia)) as E.
  pose proof (Z.mod_pos_bound (size + 2) 3 ltac:(lia)) as B.
  lia.
Qed.

(** C10: whatever the settings are, [performance_settings] returns the
    batch size 4, since [min(4, max(8, x)) = 4] for every [x], so the
    configured batch size has no effect on it; and it returns the smaller of
    8 and the configured maximal pixel count. *)
Theorem performance_settings_constant_batch_size (settings : PerformanceSettings) :
  batch_size (performance_settings settings) = 4
  /\ max_pixel_count (performance_settings settings)
     = Z.min 8 (max_pixel_count settings)
  /\ forall other : PerformanceSettings,
       batch_size (performance_settings other)
       = batch_size (performance_settings settings).
Proof.
  unfold performance_settings; cbn [batch_size max_pixel_count].
  repeat split; intros; lia.
Qed.

(** ** [_update_user] *)

Lemma update_user_reported (user : User) (d : pydict) (p c : Z) (g : pyval) :
  credits user = PyInt p ->
  dict_get d "credits" = Some (PyInt c) ->
  dict_get d "images_generated" = Some g ->
  _update_user user (PyDict d)
  = Ok (PyInt (Z.max 0 (p - c)),
        mkUser (user_id user) (user_name user) g (PyInt c)).
Proof.
  intros Hp Hc Hg. unfold _update_user.
  rewrite (truthy_dict _ _ _ Hc), (getitem_dict _ _ _ Hc), (getitem_dict _ _ _ Hg).
  outcome. rewrite Hp. cbn [py_sub as_number py_max0]. outcome. cbn.
  destruct (Z.ltb_spec 0 (p - c));
    [rewrite Z.max_r by lia | rewrite Z.max_l by lia]; reflexivity.
Qed.

Lemma update_user_missing (user : User) :
  _update_user user PyNone = Ok (PyInt 0, user).
Proof. reflexivity. Qed.

(** ** [_process_http_error] *)

Lemma getitem_result (v : pyval) (k : string) :
  (exists x, getitem v k = Ok x)
  \/ (exists cls msg, getitem v k = Raise (Exception cls msg)).
Proof.
  destruct v; cbn; try (right; eexists; eexists; reflexivity).
  destruct (dict_get d k); [left | right]; repeat eexists.
Qed.

(** A 402 error with credits and a cost updates the credits of the user
    and is reported as insufficient funds. *)
Lemma process_http_error_402 {Y} (e : NetError) (w : World) (user : User)
  (d : pydict) (c k : pyval) :
  status e = Some 402 -> data e = PyDict d ->
  dict_get d "credits" = Some c -> dict_get d "cost" = Some k ->
  _user w = Some user ->
  _process_http_error (Y := Y) e w
  = (Ok ("Insufficient funds - generation would cost " ++ py_str k
         ++ " tokens. Remaining tokens: " ++ py_str c), [],
     set_user (Some (mkUser (user_id user) (user_name user)
                            (images_generated user) c)) w).
Proof.
  intros Hs Hd Hc Hk Hu. destruct w, e; cbn in Hs, Hd, Hu; subst.
  unfold _process_http_error; cbn [message status data].
  rewrite (getitem_dict _ _ _ Hc), (getitem_dict _ _ _ Hk), (truthy_dict _ _ _ Hc).
  reflexivity.
Qed.

(** Whatever the error is, [_process_http_error] returns a message, yields
    nothing, and leaves the job and the queue of the client alone. *)
Lemma process_http_error_returns {Y} (e : NetError) (w : World) :
  exists text w',
    _process_http_error (Y := Y) e w = (Ok text, [], w')
    /\ _current_job w' = _current_job w /\ _queue w' = _queue w
    /\ net w' = net w /\ trace w' = trace w.
Proof.
  destruct w as [u tok usr cur q n tr clk tk ids], e as [raw st dat].
  unfold _process_http_error; cbn [message status data].
  assert (Done : forall w1 : World,
             _current_job w1 = cur -> _queue w1 = q -> net w1 = n -> trace w1 = tr ->
             exists text w',
               (Ok raw, @nil Y, w1) = (Ok text, [], w')
               /\ _current_job w' = cur /\ _queue w' = q
               /\ net w' = n /\ trace w' = tr)
    by (intros w1 ? ? ? ?; exists raw, w1; auto).
  destruct st as [code |]; [destruct (code =? 402) |];
    try (apply Done; reflexivity).
  destruct (truthy dat); [| apply Done; reflexivity].
  destruct usr as [user |]; [| apply Done; reflexivity].
  destruct (getitem_result dat "credits") as [[c Ec] | (cls & msg & Ec)];
    rewrite Ec; [| apply Done; reflexivity].
  destruct (getitem_result dat "cost") as [[k Ek] | (cls & msg & Ek)];
    rewrite Ek; [| apply Done; reflexivity].
  do 2 eexists; split; [reflexivity | cbn; auto].
Qed.

(** C6: for a transport error with status 402 whose data carries the
    credits 5 and the cost 3, while a user is authenticated, processing the
    error sets the credits of the user to 5 and returns a message that
    contains both 3 and 5; for a 402 error whose data does not carry both
    fields, nothing is raised and the message of the transport error is
    returned as it is. *)
Theorem payment_required_error {Y} (e : NetError) (w : World) :
  status e = Some 402 ->
  (forall (user : User) (d : pydict),
      _user w = Some user ->
      data e = PyDict d ->
      dict_get d "credits" = Some (PyInt 5) ->
      dict_get d "cost" = Some (PyInt 3) ->
      exists text,
        _process_http_error (Y := Y) e w
        = (Ok text, [],
           set_user (Some (mkUser (user_id user) (user_name user)
                                  (images_generated user) (PyInt 5))) w)
        /\ contains "3" text /\ contains "5" text)
  /\ ((forall c k, ~ (getitem (data e) "credits" = Ok c
                      /\ getitem (data e) "cost" = Ok k)) ->
      exists w', _process_http_error (Y := Y) e w = (Ok (message e), [], w')).
Proof.
  intros Hs. split.
  - intros user d Hu Hd Hc Hk.
    eexists. split; [exact (process_http_error_402 e w user d _ _ Hs Hd Hc Hk Hu) |].
    split.
    + exists "Insufficient funds - generation would cost ",
             " tokens. Remaining tokens: 5". reflexivity.
    + exists "Insufficient funds - generation would cost 3 tokens. Remaining tokens: ",
             "". reflexivity.
  - intros Hbad.
    destruct w as [u tok usr cur q n tr clk tk ids], e as [raw st dat].
    cbn [data message] in *.
    unfold _process_http_error; cbn [message status data].
    destruct st as [code |]; [destruct (code =? 402) |];
      try (eexists; reflexivity).
    destruct (truthy dat); [| eexists; reflexivity].
    destruct usr as [user |]; [| eexists; reflexivity].
    destruct (getitem_result dat "credits") as [[c Ec] | (cls & msg & Ec)];
      [| rewrite Ec; eexists; reflexivity].
    destruct (getitem_result dat "cost") as [[k Ek] | (cls & msg & Ek)];
      [| rewrite Ec, Ek; eexists; reflexivity].
    now destruct (Hbad c k).
Qed.

(** ** [_extract_error] *)

Lemma json_loads_result (v : pyval) :
  (exists x, json_loads v = Ok x)
  \/ (exists cls msg, json_loads v = Raise (Exception cls msg)).
Proof.
  unfold json_loads.
  destruct v; try (right; do 2 eexists; reflexivity).
  - destruct (Json.decode s) as [[| |] | x]; [right | right | right | left];
      repeat eexists.
  - destruct (json_decode_bytes b) as [s |]; [| right; repeat eexists].
    destruct (Json.decode s) as [[| |] | x]; [right | right | right | left];
      repeat eexists.
Qed.

Lemma get_method_result (v : pyval) (k : string) (dflt : pyval) :
  (exists x, get_method v k dflt = Ok x)
  \/ (exists cls msg, get_method v k dflt = Raise (Exception cls msg)).
Proof.
  destruct v; cbn; try (right; do 2 eexists; reflexivity).
  left. eexists. reflexivity.
Qed.

(** No exception escapes [_extract_error] on a response that is a dict. *)
Lemma extract_error_total (response : pydict) (job_id : pyval) :
  exists msg trace,
    _extract_error (PyDict response) job_id = Ok (msg, trace).
Proof.
  unfold _extract_error. cbn [get_method]. outcome.
  match goal with |- context [json_loads ?v] => generalize v end.
  intros err.
  destruct (json_loads_result err) as [[args E] | (cls & msg & E)]; rewrite E;
    outcome; [| repeat eexists].
  destruct (get_method_result args "error_message" args)
    as [[m Em] | (cls & msg & Em)]; rewrite Em; outcome; [| repeat eexists].
  destruct (get_method_result args "error_traceback" (PyStr "No traceback"))
    as [[t Et] | (cls & msg & Et)]; rewrite Et; outcome; repeat eexists.
Qed.

(** The error field that parses as an object with a message. *)
Lemma extract_error_structured (response : pydict) (job_id : pyval) :
  dict_get response "error"
  = Some (PyStr (dq "{'error_message':'x','error_traceback':'y'}")) ->
  _extract_error (PyDict response) job_id = Ok (PyStr "x", PyStr "y").
Proof.
  intros E. unfold _extract_error. rewrite (get_method_dict _ _ _ _ E).
  reflexivity.
Qed.

(** The error field that does not parse. *)
Lemma extract_error_raw (response : pydict) (job_id : pyval) :
  dict_get response "error" = Some (PyStr "boom") ->
  _extract_error (PyDict response) job_id
  = Ok (PyStr "boom", PyStr "No traceback").
Proof.
  intros E. unfold _extract_error. rewrite (get_method_dict _ _ _ _ E).
  reflexivity.
Qed.

(** The resolution of a response with status [FAILED]. *)
Lemma resolve_failed (job : JobInfo) (response : pydict) (w : World)
  (msg trace : pyval) :
  dict_get response "status" = Some (PyStr "FAILED") ->
  _extract_error (PyDict response) (remote_id job) = Ok (msg, trace) ->
  resolve job (PyDict response) w
  = (Ok tt, [error_event (local_id job) msg], w).
Proof.
  intros Hs He. unfold resolve.
  rewrite !(status_is_dict _ _ _ Hs), He. reflexivity.
Qed.

(** C5: for a response with status [FAILED], when the error field is the
    JSON text of an object with the message x and the traceback y, the
    message of the error event is x; when the error field is the text boom,
    which is not JSON, the message of the error event is boom; and whatever
    the error field is, no exception escapes the extraction. *)
Theorem failed_response_error_message (job : JobInfo) (response : pydict)
  (w : World) :
  dict_get response "status" = Some (PyStr "FAILED") ->
  (dict_get response "error"
   = Some (PyStr (dq "{'error_message':'x','error_traceback':'y'}")) ->
   resolve job (PyDict response) w
   = (Ok tt, [error_event (local_id job) (PyStr "x")], w))
  /\ (dict_get response "error" = Some (PyStr "boom") ->
      resolve job (PyDict response) w
      = (Ok tt, [error_event (local_id job) (PyStr "boom")], w))
  /\ (exists msg trace,
        _extract_error (PyDict response) (remote_id job) = Ok (msg, trace)
        /\ resolve job (PyDict response) w
           = (Ok tt, [error_event (local_id job) msg], w)).
Proof.
  intros Hs. repeat split.
  - intros He. eapply resolve_failed; [exact Hs |].
    now apply extract_error_structured.
  - intros He. eapply resolve_failed; [exact Hs |].
    now apply extract_error_raw.
  - destruct (extract_error_total response (remote_id job)) as (msg & trace & E).
    exists msg, trace. split; [exact E |].
    now apply resolve_failed with (trace := trace).
Qed.

(** ** [receive_images] *)

(** C4: for every result payload, with a download URL or with inline
    base64 data, [receive_images] raises the [ValueError] for invalid
    offsets, before it decodes or downloads anything, whenever the offsets
    are absent, not a list, or an empty list; it returns images or makes a
    request only when the offsets are a list that is not empty. *)
Theorem receive_images_requires_offsets {Y} (images : pydict) (w : World) :
  let offsets := match dict_get images "offsets" with
                 | Some v => v
                 | None => PyNone
                 end in
  (valid_offsets offsets = false ->
   receive_images (Y := Y) (PyDict images) w
   = (Raise (Exception ValueError
               ("Could not read result images, invalid offsets: "
                ++ py_str offsets)), [], w))
  /\ (forall o ys w',
        receive_images (Y := Y) (PyDict images) w = (o, ys, w') ->
        (exists collection, o = Ok collection) \/ trace w' <> trace w ->
        valid_offsets offsets = true)
  /\ (valid_offsets offsets = true <->
      exists first others,
        dict_get images "offsets" = Some (PyList (first :: others))).
Proof.
  intros offsets.
  assert (Invalid : valid_offsets offsets = false ->
            receive_images (Y := Y) (PyDict images) w
            = (Raise (Exception ValueError
                        ("Could not read result images, invalid offsets: "
                         ++ py_str offsets)), [], w)).
  { intros Hv. unfold receive_images. cbn [get_method]. fold offsets.
    cbn [lift bind Monad_Gen]. rewrite Hv. reflexivity. }
  split; [exact Invalid |]. split.
  - intros o ys w' Hrun Hout.
    destruct (valid_offsets offsets) eqn:Hv; [reflexivity |].
    rewrite (Invalid eq_refl) in Hrun. inversion Hrun; subst.
    destruct Hout as [[collection Hc] | Ht]; [discriminate | now destruct Ht].
  - subst offsets. split.
    + destruct (dict_get images "offsets") as [[| | | | | | [| first others] |] |];
        cbn; try discriminate. intros _. now exists first, others.
    + intros (first & others & E). rewrite E. reflexivity.
Qed.

(** ** [enqueue] *)

(** C8: [enqueue] clamps a batch count above 8 to 8 and leaves a batch
    count of at most 8 as it is; it always switches self-attention guidance
    off in the models of the work, gives the job an identifier that was not
    drawn before, appends the job to the queue, and returns that
    identifier.  The job it appends is the job of the request: the work
    keeps its remaining fields and the remaining fields of its models (and
    has models exactly when the request has), and the job has no
    identifier of the service and no worker yet. *)
Theorem enqueue_clamps_and_appends {Y} (requested : WorkflowInput)
  (front : bool) (w : World) :
  (forall m n : nat, uuid4 m = uuid4 n -> m = n) ->
  exists job : JobInfo,
    enqueue (Y := Y) requested front w
    = (Ok (local_id job), [], set_queue (_queue w ++ [job]) (draw w))
    /\ (8 < batch_count requested -> batch_count (work job) = 8)
    /\ (batch_count requested <= 8 ->
        batch_count (work job) = batch_count requested)
    /\ (forall m, models (work job) = Some m ->
                  self_attention_guidance m = false)
    /\ local_id job = uuid4 (uuids w)
    /\ (forall k : nat, (k < uuids w)%nat -> uuid4 k <> local_id job)
    /\ workflow_fields (work job) = workflow_fields requested
    /\ option_map checkpoint_fields (models (work job))
       = option_map checkpoint_fields (models requested)
    /\ remote_id job = PyNone
    /\ worker_id job = PyNone.
Proof.
  intros Hinj.
  eexists. split; [unfold enqueue; reflexivity |].
  cbn [work batch_count local_id remote_id worker_id].
  repeat split.
  - destruct (models requested); cbn; lia.
  - destruct (models requested); cbn; lia.
  - intros m. destruct (models requested); cbn; intros E; inversion E.
    reflexivity.
  - intros k Hk E. apply Hinj in E. lia.
  - now destruct (models requested).
  - now destruct (models requested).
Qed.

(** ** [b64encode] *)

Example b64encode_padding :
  Base64.b64encode [Byte.x4d] = "TQ=="
  /\ Base64.b64encode [Byte.x4d; Byte.x61] = "TWE="
  /\ Base64.b64encode [Byte.x4d; Byte.x61; Byte.x6e] = "TWFu".
Proof. repeat split. Qed.

(** [_base64_size] is the length of what [b64encode] returns. *)
Lemma b64encode_length (blob : list Byte.byte) :
  Z.of_nat (String.length (Base64.b64encode blob))
  = _base64_size (Z.of_nat (List.length blob)).
Proof.
  assert (Step : forall n (bs : list Byte.byte),
             (List.length bs <= n)%nat ->
             Z.of_nat (String.length (Base64.b64encode bs))
             = _base64_size (Z.of_nat (List.length bs))).
  { induction n as [| n IH]; intros bs Hlen.
    - destruct bs; [reflexivity | inversion Hlen].
    - destruct bs as [| a [| b [| c rest]]]; try reflexivity.
      cbn [Base64.b64encode String.length List.length].
      assert (Hrest : (List.length rest <= n)%nat) by (cbn in Hlen; lia).
      apply IH in Hrest. unfold _base64_size in *.
      replace (Z.of_nat (S (S (S (List.length rest)))) + 2)
        with (Z.of_nat (List.length rest) + 2 + 1 * 3) by lia.
      rewrite Z.div_add by lia. lia. }
  now apply (Step (List.length blob)).
Qed.

(** ** [_send_images] *)

(** C2: for a blob of [size] bytes with its offsets, [_send_images] embeds
    the blob inline as base64 if and only if [ceil(size / 3) * 4] is below
    3,500,000; otherwise it asks the service for an upload target, puts the
    raw bytes there, and embeds the object the service named together with
    the offsets. *)
Theorem send_images_transfer_choice {Y} (inputs image_data : pydict)
  (blob : list Byte.byte) (offsets : pyval) (w : World) :
  dict_get inputs "image_data" = Some (PyDict image_data) ->
  dict_get image_data "bytes" = Some (PyBytes blob) ->
  dict_get image_data "offsets" = Some offsets ->
  let size := Z.of_nat (List.length blob) in
  (_send_images (Y := Y) (PyDict inputs) w
   = (Ok (PyDict (dict_set inputs "image_data"
                    (PyDict [("base64", PyStr (Base64.b64encode blob));
                             ("offsets", offsets)]))), [], w)
   <-> _base64_size size < 3500000)
  /\ (3500000 <= _base64_size size ->
      forall (info ack target object : pyval) (rest : list Reply),
        net w = Answer info :: Answer ack :: rest ->
        getitem info "url" = Ok target ->
        getitem info "object" = Ok object ->
        exists w',
          _send_images (Y := Y) (PyDict inputs) w
          = (Ok (PyDict (dict_set inputs "image_data"
                           (PyDict [("s3_object", object);
                                    ("offsets", offsets)]))), [], w')
          /\ trace w' = (trace w ++ [Get (url w ++ "/upload") (_token w);
                                     Put target (PyBytes blob)])%list
          /\ net w' = rest)
  /\ (forall c : Z, 3 * (c - 1) < size <= 3 * c -> _base64_size size = c * 4).
Proof.
  intros Hi Hb Ho size.
  assert (Start : _send_images (Y := Y) (PyDict inputs) w
            = if _base64_size size <? 3500000
              then (Ok (PyDict (dict_set inputs "image_data"
                           (PyDict [("base64", PyStr (Base64.b64encode blob));
                                    ("offsets", offsets)]))), [], w)
              else bind (_upload_to_s3 (PyBytes blob))
                     (fun s3_object =>
                        lift (setitem (PyDict inputs) "image_data"
                                (PyDict [("s3_object", s3_object);
                                         ("offsets", offsets)]))) w).
  { unfold _send_images.
    rewrite (get_method_dict _ _ _ _ Hi), bind_lift_ok.
    rewrite (truthy_dict _ _ _ Hb).
    rewrite (getitem_dict _ _ _ Hb), bind_lift_ok.
    rewrite (getitem_dict _ _ _ Ho), bind_lift_ok.
    cbn [py_len]. rewrite bind_lift_ok. fold size.
    destruct (_base64_size size <? 3500000); [| reflexivity].
    cbn [b64encode_str]. rewrite bind_lift_ok. reflexivity. }
  split; [| split].
  - split.
    + intros Hrun. rewrite Start in Hrun.
      destruct (Z.ltb_spec (_base64_size size) 3500000) as [Hlt | Hge];
        [exact Hlt | exfalso].
      apply bind_ok_inv in Hrun as (s3 & ys1 & w1 & ys2 & _ & Hset & _).
      cbn in Hset. inversion Hset as [[Hd Hw]].
      apply (f_equal (fun d => dict_get d "image_data")) in Hd.
      rewrite !dict_get_set_same in Hd. discriminate.
    + intros Hlt. rewrite Start.
      destruct (Z.ltb_spec (_base64_size size) 3500000); [reflexivity | lia].
  - intros Hge info ack target object rest Hnet Hurl Hobj.
    rewrite Start.
    destruct (Z.ltb_spec (_base64_size size) 3500000); [lia |].
    unfold _upload_to_s3.
    rewrite !bind_bind, (bind_get_answer _ _ _ _ _ Hnet).
    rewrite !bind_bind, Hurl, bind_lift_ok, bind_bind.
    rewrite (bind_request_answer _ _ _ ack rest) by reflexivity.
    rewrite Hobj, !bind_lift_ok. cbn [setitem].
    eexists. split; [reflexivity |].
    split; [| reflexivity].
    cbn. now rewrite <- app_assoc.
  - intros c. apply base64_size_ceiling.
Qed.

(** ** What the steps of a coroutine preserve *)

Section Keeps.
Context {Y : Type} (I : World -> Prop) (E : Y -> Prop).

Lemma keeps_ret {A} (a : A) : keeps I E (ret a : Gen Y A).
Proof. intros w o ys w' R Hw. inversion R; subst. auto. Qed.

Lemma keeps_lift {A} (x : Outcome A) : keeps I E (lift x).
Proof. intros w o ys w' R Hw. inversion R; subst. auto. Qed.

Lemma keeps_raise {A} (e : exn) : keeps I E (raise e : Gen Y A).
Proof. intros w o ys w' R Hw. inversion R; subst. auto. Qed.

Lemma keeps_get_world : keeps I E get_world.
Proof. intros w o ys w' R Hw. inversion R; subst. auto. Qed.

Lemma keeps_yield (y : Y) : E y -> keeps I E (yield y).
Proof. intros Hy w o ys w' R Hw. inversion R; subst. auto. Qed.

Lemma keeps_modify (g : World -> World) :
  (forall w, I w -> I (g w)) -> keeps I E (modify g).
Proof. intros Hg w o ys w' R Hw. inversion R; subst. auto. Qed.

Lemma keeps_bind {A B} (m : Gen Y A) (f : A -> Gen Y B) :
  keeps I E m -> (forall a, keeps I E (f a)) -> keeps I E (bind m f).
Proof.
  intros Hm Hf w o ys w' R Hw. cbn in R.
  destruct (m w) as [[[a | e |] ys1] w1] eqn:Em;
    try (inversion R; subst; now apply (Hm _ _ _ _ Em)).
  destruct (f a w1) as [[o2 ys2] w2] eqn:Ef. inversion R; subst.
  destruct (Hm _ _ _ _ Em Hw) as [Hw1 Hys1].
  destruct (Hf a _ _ _ _ Ef Hw1) as [Hw2 Hys2].
  split; [assumption | now apply Forall_app].
Qed.

Lemma keeps_try_except {A} (m : Gen Y A) (h : exn -> Gen Y A) :
  keeps I E m -> (forall e, keeps I E (h e)) -> keeps I E (try_except m h).
Proof.
  intros Hm Hh w o ys w' R Hw. unfold try_except in R.
  destruct (m w) as [[[a | e |] ys1] w1] eqn:Em;
    try (inversion R; subst; now apply (Hm _ _ _ _ Em)).
  destruct (h e w1) as [[o2 ys2] w2] eqn:Eh. inversion R; subst.
  destruct (Hm _ _ _ _ Em Hw) as [Hw1 Hys1].
  destruct (Hh e _ _ _ _ Eh Hw1) as [Hw2 Hys2].
  split; [assumption | now apply Forall_app].
Qed.

Lemma keeps_with_fuel {A} (loop : nat -> Gen Y A) :
  (forall fuel, keeps I E (loop fuel)) -> keeps I E (with_fuel loop).
Proof. intros Hl w o ys w' R Hw. exact (Hl _ _ _ _ _ R Hw). Qed.

Lemma keeps_blocked {A} : keeps I E (fun w => (@Blocked A, [], w)).
Proof. intros w o ys w' R Hw. inversion R; subst. auto. Qed.

(** The environment of the client: the steps that touch only the pending
    replies, the trace, the clock and the UUID source. *)
Hypothesis I_log : forall e w, I w -> I (log_effect e w).
Hypothesis I_net : forall n w, I w -> I (set_net n w).
Hypothesis I_tick : forall w, I w -> I (tick w).
Hypothesis I_draw : forall w, I w -> I (draw w).

Lemma keeps_request (e : Effect) : keeps I E (request e).
Proof.
  intros w o ys w' R Hw. unfold request in R.
  destruct (net (log_effect e w)) as [| [v | err |] rest];
    inversion R; subst; auto.
Qed.

Lemma keeps_sleep (d : pyval) : keeps I E (sleep d).
Proof. apply keeps_modify. auto. Qed.



Lemma keeps_get (op : string) : keeps I E (_get op).
Proof. apply keeps_bind; [apply keeps_get_world | intros; apply keeps_request]. Qed.

Lemma keeps_post (op : string) (body : pyval) : keeps I E (_post op body).
Proof. apply keeps_bind; [apply keeps_get_world | intros; apply keeps_request]. Qed.

Ltac keeps_here :=
  repeat first
    [ apply keeps_bind; [| intros ?]
    | apply keeps_ret | apply keeps_lift | apply keeps_raise
    | apply keeps_get_world | apply keeps_get | apply keeps_post
    | apply keeps_request | apply keeps_sleep
    | match goal with
      | |- keeps _ _ (if ?c then _ else _) => destruct c
      end ].

Lemma keeps_upload_to_s3 (blob : pyval) : keeps I E (_upload_to_s3 blob).
Proof. unfold _upload_to_s3. keeps_here. Qed.

Lemma keeps_send_images (inputs : pyval) : keeps I E (_send_images inputs).
Proof. unfold _send_images. keeps_here. Qed.

Lemma keeps_receive_images (images : pyval) : keeps I E (receive_images images).
Proof. unfold receive_images. keeps_here. Qed.

End Keeps.

(** ** The loop of [_process_job] *)

Lemma bind_run_ok {Y A B} (m : Gen Y A) (f : A -> Gen Y B) (w w1 : World)
  (a : A) (ys : list Y) :
  m w = (Ok a, ys, w1) ->
  bind m f w = let '(o, ys', w2) := f a w1 in (o, (ys ++ ys')%list, w2).
Proof. intros E. cbn. now rewrite E. Qed.

Lemma bind_run_silent {Y A B} (m : Gen Y A) (f : A -> Gen Y B) (w w1 : World)
  (a : A) :
  m w = (Ok a, [], w1) -> bind m f w = f a w1.
Proof. intros E. cbn. rewrite E. apply run_eta. Qed.

Lemma poll_once_queued (job : JobInfo) (w : World) (r : pydict)
  (rest : list Reply) :
  net w = Answer (PyDict r) :: rest ->
  dict_get r "status" = Some (PyStr "IN_QUEUE") ->
  poll_once job w
  = (Ok (PyDict r), [queued_event (local_id job)], polled job rest w).
Proof.
  intros Hnet Hs. unfold poll_once.
  rewrite (bind_post_answer _ _ _ _ _ _ Hnet).
  rewrite (status_is_dict _ _ _ Hs), bind_lift_ok.
  reflexivity.
Qed.

Lemma poll_once_progress (job : JobInfo) (w : World) (r output : pydict)
  (fraction : pyval) (rest : list Reply) :
  net w = Answer (PyDict r) :: rest ->
  dict_get r "status" = Some (PyStr "IN_PROGRESS") ->
  dict_get r "output" = Some (PyDict output) ->
  dict_get output "progress" = Some fraction ->
  poll_once job w
  = (Ok (PyDict r), [progress_event (local_id job) fraction],
     polled job rest w).
Proof.
  intros Hnet Hs Ho Hp. unfold poll_once.
  rewrite (bind_post_answer _ _ _ _ _ _ Hnet).
  rewrite !(status_is_dict _ _ _ Hs), bind_lift_ok.
  cbn [String.eqb Ascii.eqb Bool.eqb].
  rewrite !bind_bind, bind_lift_ok.
  rewrite (get_method_dict _ _ _ _ Ho), !bind_bind, bind_lift_ok.
  rewrite (truthy_dict _ _ _ Hp), (get_method_dict _ _ _ _ Hp).
  rewrite !bind_bind, bind_lift_ok.
  reflexivity.
Qed.

Lemma poll_once_placeholder (job : JobInfo) (w : World) (r : pydict)
  (rest : list Reply) :
  net w = Answer (PyDict r) :: rest ->
  dict_get r "status" = Some (PyStr "IN_PROGRESS") ->
  no_fraction r ->
  poll_once job w
  = (Ok (PyDict r), [progress_event (local_id job) (PyFloat 0.09)],
     polled job rest w).
Proof.
  intros Hnet Hs Hn. unfold poll_once.
  rewrite (bind_post_answer _ _ _ _ _ _ Hnet).
  rewrite !(status_is_dict _ _ _ Hs), bind_lift_ok.
  cbn [String.eqb Ascii.eqb Bool.eqb].
  rewrite !bind_bind, bind_lift_ok.
  unfold no_fraction in Hn. cbn [get_method].
  destruct (dict_get r "output") as [output |].
  - rewrite !bind_bind, bind_lift_ok.
    destruct Hn as [Hf | (d & -> & Hd)].
    + rewrite Hf. rewrite !bind_bind, bind_ret. reflexivity.
    + destruct (truthy (PyDict d)).
      * rewrite (get_method_missing _ _ _ Hd), !bind_bind, bind_lift_ok.
        reflexivity.
      * rewrite !bind_bind, bind_ret. reflexivity.
  - rewrite !bind_bind, bind_lift_ok. cbn [truthy].
    rewrite !bind_bind, bind_ret. reflexivity.
Qed.

Lemma poll_once_terminal (job : JobInfo) (w : World) (r : pydict)
  (s : string) (rest : list Reply) :
  net w = Answer (PyDict r) :: rest ->
  dict_get r "status" = Some (PyStr s) ->
  s <> "IN_QUEUE" -> s <> "IN_PROGRESS" ->
  poll_once job w = (Ok (PyDict r), [], polled job rest w).
Proof.
  intros Hnet Hs Hq Hp. unfold poll_once.
  rewrite (bind_post_answer _ _ _ _ _ _ Hnet).
  rewrite !(status_is_dict _ _ _ Hs), bind_lift_ok.
  apply String.eqb_neq in Hq, Hp. rewrite Hq, Hp.
  rewrite !bind_bind, bind_lift_ok. reflexivity.
Qed.

Lemma poll_loop_continue (fuel : nat) (job : JobInfo) (response : pydict)
  (w : World) :
  pending response ->
  poll_loop (S fuel) job (PyDict response) w
  = bind (poll_once job) (poll_loop fuel job) w.
Proof.
  intros [Hs | Hs]; cbn [poll_loop];
    rewrite !(status_is_dict _ _ _ Hs), bind_lift_ok;
    cbn [String.eqb Ascii.eqb Bool.eqb];
    [rewrite bind_ret | rewrite bind_lift_ok]; reflexivity.
Qed.

Lemma poll_loop_exit (fuel : nat) (job : JobInfo) (response : pydict)
  (s : string) (w : World) :
  dict_get response "status" = Some (PyStr s) ->
  s <> "IN_QUEUE" -> s <> "IN_PROGRESS" ->
  poll_loop fuel job (PyDict response) w = (Ok (PyDict response), [], w).
Proof.
  intros Hs Hq Hp.
  apply String.eqb_neq in Hq, Hp.
  destruct fuel; cbn [poll_loop];
    rewrite !(status_is_dict _ _ _ Hs), bind_lift_ok, Hq, bind_lift_ok, Hp;
    reflexivity.
Qed.

(** ** [_process_job] *)

(** The submission: the job is accepted, the quota of the user is
    updated, and the first event is a progress of 0. *)
Lemma process_job_submitted (job : JobInfo) (w w1 : World) (user user' : User)
  (inputs cost remote worker : pyval) (submit : pydict) (rest : list Reply) :
  _user w = Some user ->
  _send_images (Y := ClientMessage) (to_dict (work job)) w = (Ok inputs, [], w1) ->
  net w1 = Answer (PyDict submit) :: rest ->
  dict_get submit "id" = Some remote ->
  dict_get submit "worker_id" = Some worker ->
  (user_data <- get_method (PyDict submit) "user" PyNone ;;
   _update_user user user_data) = Ok (cost, user') ->
  let job' := mkJobInfo (local_id job) (work job) remote worker in
  _process_job job w
  = emit_first (progress_event (local_id job) (PyInt 0))
      (track job' (PyDict submit)
         (submitted job' user'
            (PyDict [("input", PyDict [("workflow", inputs)])]) rest w1)).
Proof.
  intros Hu Hsend Hnet Hid Hwk Hcost job'. unfold _process_job, ensure_user.
  rewrite !bind_bind, bind_get_world, Hu, bind_ret.
  rewrite (bind_run_silent _ _ _ _ _ Hsend).
  rewrite (bind_post_answer _ _ _ _ _ _ Hnet).
  rewrite (getitem_dict _ _ _ Hid), bind_lift_ok, bind_modify.
  rewrite (getitem_dict _ _ _ Hwk), bind_lift_ok, bind_modify.
  cbn [get_method] in *. rewrite bind_lift_ok.
  cbn [bind Monad_Outcome] in Hcost. rewrite Hcost, bind_lift_ok, bind_modify.
  rewrite bind_yield. cbn [local_id work remote_id worker_id snd].
  reflexivity.
Qed.

(** The resolution of a response with status [COMPLETED]. *)
Lemma resolve_completed (job : JobInfo) (r output : pydict) (payload : pyval)
  (images : ImageCollection) (w w' : World) :
  dict_get r "status" = Some (PyStr "COMPLETED") ->
  dict_get r "output" = Some (PyDict output) ->
  dict_get output "images" = Some payload ->
  receive_images (Y := ClientMessage) payload w = (Ok images, [], w') ->
  resolve job (PyDict r) w
  = (Ok tt,
     [finished_event (local_id job) images
        (match dict_get output "pose" with Some p => p | None => PyNone end)],
     w').
Proof.
  intros Hs Ho Hi Hr. unfold resolve.
  rewrite (status_is_dict _ _ _ Hs), bind_lift_ok.
  cbn [String.eqb Ascii.eqb Bool.eqb].
  rewrite (getitem_dict _ _ _ Ho), bind_lift_ok.
  rewrite (getitem_dict _ _ _ Hi), bind_lift_ok.
  rewrite (bind_run_silent _ _ _ _ _ Hr). cbn [get_method].
  rewrite bind_lift_ok. reflexivity.
Qed.

(** C1: when the response to the submission has the status [IN_QUEUE] or
    [IN_PROGRESS] and the status requests are answered, in this order, by
    [IN_QUEUE], [IN_PROGRESS] with the progress 0.3, [IN_PROGRESS] with the
    progress 0.6 and [COMPLETED], then [_process_job] emits the progress 0
    of the submission and after it exactly the events queued, progress 0.3,
    progress 0.6 and finished, in this order; and for a response
    [IN_PROGRESS] that carries no fraction, the progress emitted is the
    placeholder 0.09. *)
Theorem poll_sequence_events (job : JobInfo) (w w1 : World)
  (user user' : User) (inputs cost remote worker payload : pyval)
  (submit waiting first second done output1 output2 output : pydict)
  (images : ImageCollection) (rest : list Reply) :
  _user w = Some user ->
  _send_images (Y := ClientMessage) (to_dict (work job)) w
  = (Ok inputs, [], w1) ->
  net w1 = Answer (PyDict submit) :: Answer (PyDict waiting)
           :: Answer (PyDict first) :: Answer (PyDict second)
           :: Answer (PyDict done) :: rest ->
  dict_get submit "id" = Some remote ->
  dict_get submit "worker_id" = Some worker ->
  pending submit ->
  (user_data <- get_method (PyDict submit) "user" PyNone ;;
   _update_user user user_data) = Ok (cost, user') ->
  dict_get waiting "status" = Some (PyStr "IN_QUEUE") ->
  dict_get first "status" = Some (PyStr "IN_PROGRESS") ->
  dict_get first "output" = Some (PyDict output1) ->
  dict_get output1 "progress" = Some (PyFloat 0.3) ->
  dict_get second "status" = Some (PyStr "IN_PROGRESS") ->
  dict_get second "output" = Some (PyDict output2) ->
  dict_get output2 "progress" = Some (PyFloat 0.6) ->
  dict_get done "status" = Some (PyStr "COMPLETED") ->
  dict_get done "output" = Some (PyDict output) ->
  dict_get output "images" = Some payload ->
  (forall w5, net w5 = rest ->
     exists w6, receive_images (Y := ClientMessage) payload w5
                = (Ok images, [], w6)) ->
  (exists w',
     _process_job job w
     = (Ok tt,
        [progress_event (local_id job) (PyInt 0);
         queued_event (local_id job);
         progress_event (local_id job) (PyFloat 0.3);
         progress_event (local_id job) (PyFloat 0.6);
         finished_event (local_id job) images
           (match dict_get output "pose" with Some p => p | None => PyNone end)],
        w'))
  /\ (forall (j : JobInfo) (fuel : nat) (previous r : pydict) (w0 : World)
             (rest0 : list Reply),
        pending previous ->
        net w0 = Answer (PyDict r) :: rest0 ->
        dict_get r "status" = Some (PyStr "IN_PROGRESS") ->
        no_fraction r ->
        exists o ys w',
          poll_loop fuel j (PyDict r) (polled j rest0 w0) = (o, ys, w')
          /\ poll_loop (S fuel) j (PyDict previous) w0
             = (o, progress_event (local_id j) (PyFloat 0.09) :: ys, w')).
Proof.
  intros Hu Hsend Hnet Hid Hwk Hsub Hcost Hw Hf Hfo Hfp Hs Hso Hsp Hd Hdo Hdi
         Hrecv.
  split.
  - rewrite (process_job_submitted job w w1 user user' inputs cost remote worker
               submit _ Hu Hsend Hnet Hid Hwk Hcost).
    set (job' := mkJobInfo (local_id job) (work job) remote worker).
    set (w2 := submitted job' user' _ _ w1).
    set (w3 := polled job' (Answer (PyDict first) :: Answer (PyDict second)
                            :: Answer (PyDict done) :: rest) w2).
    set (w4 := polled job' (Answer (PyDict second) :: Answer (PyDict done)
                            :: rest) w3).
    set (w5 := polled job' (Answer (PyDict done) :: rest) w4).
    set (w6 := polled job' rest w5).
    assert (Hpoll : with_fuel (fun fuel => poll_loop fuel job' (PyDict submit)) w2
                    = (Ok (PyDict done),
                       [queued_event (local_id job);
                        progress_event (local_id job) (PyFloat 0.3);
                        progress_event (local_id job) (PyFloat 0.6)], w6)).
    { unfold with_fuel. cbn [net w2 submitted set_user set_current_job set_net
                              List.length].
      rewrite (poll_loop_continue _ _ _ _ Hsub).
      rewrite (bind_run_ok _ _ _ _ _ _
                 (poll_once_queued job' w2 waiting _ eq_refl Hw)).
      fold w3.
      rewrite (poll_loop_continue _ _ _ _ (or_introl Hw)).
      rewrite (bind_run_ok _ _ _ _ _ _
                 (poll_once_progress job' w3 first output1 _ _ eq_refl Hf Hfo Hfp)).
      fold w4.
      rewrite (poll_loop_continue _ _ _ _ (or_intror Hf)).
      rewrite (bind_run_ok _ _ _ _ _ _
                 (poll_once_progress job' w4 second output2 _ _ eq_refl Hs Hso Hsp)).
      fold w5.
      rewrite (poll_loop_continue _ _ _ _ (or_intror Hs)).
      rewrite (bind_run_ok _ _ _ _ _ _
                 (poll_once_terminal job' w5 done "COMPLETED" _ eq_refl Hd
                    ltac:(discriminate) ltac:(discriminate))).
      fold w6.
      rewrite (poll_loop_exit _ _ _ "COMPLETED" _ Hd) by discriminate.
      reflexivity. }
    destruct (Hrecv w6 eq_refl) as [w7 Hr].
    exists w7. unfold track.
    rewrite (bind_run_ok _ _ _ _ _ _ Hpoll).
    rewrite (resolve_completed job' done output payload images w6 w7 Hd Hdo Hdi Hr).
    reflexivity.
  - intros j fuel previous r w0 rest0 Hp Hn Hst Hno.
    destruct (poll_loop fuel j (PyDict r) (polled j rest0 w0))
      as [[o ys] w'] eqn:Eloop.
    exists o, ys, w'. split; [reflexivity |].
    rewrite (poll_loop_continue _ _ _ _ Hp).
    rewrite (bind_run_ok _ _ _ _ _ _
               (poll_once_placeholder j w0 r rest0 Hn Hst Hno)).
    now rewrite Eloop.
Qed.

(** ** What [_process_job] preserves *)

Lemma keeps_weaken {Y A} (I : World -> Prop) (E E' : Y -> Prop) (m : Gen Y A) :
  (forall y, E y -> E' y) -> keeps I E m -> keeps I E' m.
Proof.
  intros Hsub Hm w o ys w' R Hw. destruct (Hm _ _ _ _ R Hw) as [Hw' Hys].
  split; [assumption |]. eapply Forall_impl; eauto.
Qed.

Lemma quiet_of_keeps {Y A} (E : Y -> Prop) (m : Gen Y A) :
  keeps (fun _ => True) E m -> quiet_unless_done E m.
Proof. intros Hm w o ys w' R. right. now apply (Hm _ _ _ _ R). Qed.

Lemma quiet_yield {Y} (E : Y -> Prop) (y : Y) : quiet_unless_done E (yield y).
Proof. intros w o ys w' R. inversion R; subst. left. now exists tt. Qed.

Lemma quiet_bind {Y A B} (E : Y -> Prop) (m : Gen Y A) (f : A -> Gen Y B) :
  keeps (fun _ => True) E m -> (forall a, quiet_unless_done E (f a)) ->
  quiet_unless_done E (bind m f).
Proof.
  intros Hm Hf w o ys w' R. cbn in R.
  destruct (m w) as [[[a | e |] ys1] w1] eqn:Em;
    try (inversion R; subst; right; now apply (Hm _ _ _ _ Em)).
  destruct (f a w1) as [[o2 ys2] w2] eqn:Ef. inversion R; subst.
  destruct (Hf a _ _ _ _ Ef) as [Hok | Hys2]; [now left | right].
  apply Forall_app. split; [now apply (Hm _ _ _ _ Em) | assumption].
Qed.

Ltac keeps_env :=
  first [ assumption | exact Logic.I | intros; exact Logic.I
        | solve [intros; eauto]
        | intros; match goal with
                  | Hjob : forall job w, local_id job = _ -> _ |- _ =>
                      apply Hjob; [first [reflexivity | cbn; assumption]
                                  | assumption]
                  end ].

Ltac keeps_auto :=
  repeat first
    [ apply keeps_ret | apply keeps_lift | apply keeps_raise
    | apply keeps_get_world | apply keeps_blocked
    | apply keeps_post; keeps_env
    | apply keeps_request; keeps_env
    | apply keeps_send_images; keeps_env
    | apply keeps_receive_images; keeps_env
    | apply keeps_sleep; keeps_env
    | apply keeps_modify; keeps_env
    | apply keeps_yield; solve [reflexivity | exact Logic.I]
    | match goal with
      | |- keeps _ _ (bind _ _) => apply keeps_bind; [| intros ?]
      | |- keeps _ _ (if ?c then _ else _) => destruct c
      | |- keeps _ _ (match ?x with _ => _ end) => destruct x
      end ].

Section ProcessingKeeps.
Variables (Inv : World -> Prop) (job_id : string).
Hypothesis Inv_log : forall e w, Inv w -> Inv (log_effect e w).
Hypothesis Inv_net : forall n w, Inv w -> Inv (set_net n w).
Hypothesis Inv_tick : forall w, Inv w -> Inv (tick w).
Hypothesis Inv_draw : forall w, Inv w -> Inv (draw w).
Hypothesis Inv_user : forall u w, Inv w -> Inv (set_user u w).
Hypothesis Inv_job : forall job w,
    local_id job = job_id -> Inv w -> Inv (set_current_job (Some job) w).

Lemma keeps_poll_once (job : JobInfo) : keeps Inv not_error (poll_once job).
Proof. unfold poll_once. keeps_auto. Qed.

Lemma keeps_poll_loop (fuel : nat) (job : JobInfo) (response : pyval) :
  keeps Inv not_error (poll_loop fuel job response).
Proof.
  revert response. induction fuel as [| fuel IH]; intros response;
    cbn [poll_loop]; keeps_auto;
    first [apply keeps_poll_once | apply IH].
Qed.

Lemma keeps_resolve (job : JobInfo) (response : pyval) :
  keeps Inv (fun _ => True) (resolve job response).
Proof. unfold resolve. keeps_auto. Qed.

Lemma keeps_track (job : JobInfo) (response : pyval) :
  keeps Inv (fun _ => True) (track job response).
Proof.
  unfold track. apply keeps_bind; [| intros; apply keeps_resolve].
  apply keeps_with_fuel. intros fuel.
  apply keeps_weaken with (E := not_error); [trivial | apply keeps_poll_loop].
Qed.

(** A run of [_process_job] keeps what holds of the world of a job with
    the identifier [job_id]. *)
Lemma keeps_process_job (job : JobInfo) :
  local_id job = job_id -> keeps Inv (fun _ => True) (_process_job job).
Proof.
  intros Hid. unfold _process_job, ensure_user.
  keeps_auto. apply keeps_track.
Qed.

End ProcessingKeeps.

(** A run of [resolve] that yields an error event ends with a value. *)
Lemma quiet_resolve (job : JobInfo) (response : pyval) :
  quiet_unless_done not_error (resolve job response).
Proof.
  unfold resolve.
  repeat first
    [ apply quiet_yield
    | apply quiet_of_keeps; solve [keeps_auto]
    | apply quiet_bind; [solve [keeps_auto] | intros ?]
    | match goal with
      | |- quiet_unless_done _ (if ?c then _ else _) => destruct c
      end ].
Qed.

(** A run of [_process_job] that yields an error event ends with a value:
    when an exception leaves it, no error event was emitted. *)
Lemma quiet_process_job (job : JobInfo) :
  quiet_unless_done not_error (_process_job job).
Proof.
  unfold _process_job, ensure_user, track.
  repeat first
    [ apply quiet_resolve
    | apply quiet_bind;
      [solve [keeps_auto
             | apply keeps_with_fuel; intros; apply keeps_poll_loop; keeps_env]
      | intros ?]
    | match goal with
      | |- quiet_unless_done _ (match ?x with _ => _ end _) => destruct x
      | |- quiet_unless_done _ (match ?x with _ => _ end) => destruct x
      end
    | apply quiet_of_keeps; solve [keeps_auto] ].
Qed.

(** ** [listen] *)

Lemma bind_run_raise {Y A B} (m : Gen Y A) (f : A -> Gen Y B) (w w1 : World)
  (e : exn) (ys : list Y) :
  m w = (Raise e, ys, w1) -> bind m f w = (Raise e, ys, w1).
Proof. intros E. cbn. now rewrite E. Qed.

Lemma bind_queue_get {Y B} (f : JobInfo -> Gen Y B) (w : World)
  (job : JobInfo) (q : list JobInfo) :
  _queue w = job :: q -> bind queue_get f w = f job (set_queue q w).
Proof. intros E. cbn. unfold queue_get. rewrite E. apply run_eta. Qed.

(** An iteration of [listen] with a job in the queue takes the first job,
    makes it the current job and processes it. *)
Lemma listen_step_dequeues (w : World) (job : JobInfo) (q : list JobInfo) :
  _queue w = job :: q ->
  listen_step w
  = finally_reset
      (try_except (bind (_process_job job) (fun _ => ret true)) on_exception)
      (set_current_job (Some job) (set_queue q w)).
Proof.
  intros Hq. unfold listen_step, finally_reset, try_except.
  now rewrite (bind_queue_get _ _ _ _ Hq), bind_modify.
Qed.

(** An iteration of [listen] with an empty queue waits. *)
Lemma listen_step_waits (w : World) :
  _queue w = [] -> listen_step w = (Blocked, [], w).
Proof.
  intros Hq. unfold listen_step, finally_reset, try_except. cbn.
  unfold queue_get. now rewrite Hq.
Qed.

Lemma yield_error_current (text : string) (w : World) (job : JobInfo) :
  _current_job w = Some job ->
  yield_error text w
  = (Ok tt, [error_event (local_id job) (PyStr text)], w).
Proof. intros E. unfold yield_error. rewrite bind_get_world, E. reflexivity. Qed.

(** A job whose processing ends normally: its events, then the next
    iteration. *)
Lemma listen_step_done (w w1 : World) (job : JobInfo) (q : list JobInfo)
  (evs : list ClientMessage) :
  _queue w = job :: q ->
  _process_job job (set_current_job (Some job) (set_queue q w))
  = (Ok tt, evs, w1) ->
  listen_step w = (Ok true, evs, set_current_job None w1).
Proof.
  intros Hq Hrun. rewrite (listen_step_dequeues _ _ _ Hq).
  unfold finally_reset, try_except.
  rewrite (bind_run_ok _ _ _ _ _ _ Hrun). cbn. now rewrite app_nil_r.
Qed.

(** A job whose processing raises a [NetworkError]. *)
Lemma listen_step_network_error (w w1 : World) (job : JobInfo)
  (q : list JobInfo) (ne : NetError) (evs : list ClientMessage) :
  _queue w = job :: q ->
  _process_job job (set_current_job (Some job) (set_queue q w))
  = (Raise (NetworkError ne), evs, w1) ->
  exists text w2,
    _process_http_error (Y := ClientMessage) ne w1 = (Ok text, [], w2)
    /\ listen_step w
       = (Ok true, (evs ++ [error_event (local_id job) (PyStr text)])%list,
          set_current_job None w2)
    /\ _queue w2 = q.
Proof.
  intros Hq Hrun.
  assert (K : keeps (processing (local_id job) q) (fun _ => True)
                 (_process_job job)).
  { apply keeps_process_job with (job_id := local_id job);
      try (intros; assumption); [| reflexivity].
    intros j w0 Hj [Hqueue _]. split; [exact Hqueue | now exists j]. }
  assert (Hkeep : processing (local_id job) q w1).
  { apply (K _ _ _ _ Hrun). split; [reflexivity | now exists job]. }
  destruct Hkeep as [Hq1 (j & Hj & Hid)].
  destruct (process_http_error_returns (Y := ClientMessage) ne w1)
    as (text & w2 & Herr & Hcur & Hq2 & _).
  exists text, w2. split; [exact Herr |]. split; [| congruence].
  rewrite (listen_step_dequeues _ _ _ Hq).
  unfold finally_reset, try_except.
  assert (Hbody : bind (_process_job job) (fun _ => ret true)
                    (set_current_job (Some job) (set_queue q w))
                  = (Raise (NetworkError ne), evs, w1)).
  { now apply bind_run_raise. }
  rewrite Hbody. cbn [on_exception].
  rewrite (bind_run_silent _ _ _ _ _ Herr).
  rewrite (bind_run_ok _ _ _ _ _ _
             (yield_error_current text w2 j ltac:(congruence))).
  cbn. now rewrite Hid.
Qed.

Lemma filter_not_error (evs : list ClientMessage) :
  Forall not_error evs -> filter is_error evs = [].
Proof.
  induction 1 as [| m evs Hm _ IH]; [reflexivity |].
  cbn. unfold not_error in Hm. now rewrite Hm.
Qed.

(** C3: when the processing of a job raises a transport error, the loop of
    [listen] catches it: the iteration ends normally, the events of the
    job end with one error event, the only one, that carries the local
    identifier of the job, and the loop goes on with the jobs that remain in
    the queue, taking and processing the next one. *)
Theorem transport_failure_is_job_scoped (w w1 : World) (job : JobInfo)
  (q : list JobInfo) (ne : NetError) (evs : list ClientMessage) :
  _queue w = job :: q ->
  _process_job job (set_current_job (Some job) (set_queue q w))
  = (Raise (NetworkError ne), evs, w1) ->
  exists (text : string) (w2 : World),
    let failure := error_event (local_id job) (PyStr text) in
    let w3 := set_current_job None w2 in
    _process_http_error (Y := ClientMessage) ne w1 = (Ok text, [], w2)
    /\ listen_step w = (Ok true, (evs ++ [failure])%list, w3)
    /\ filter is_error (evs ++ [failure]) = [failure]
    /\ (forall fuel,
          listen_loop (S fuel) w
          = let '(o, ys, w') := listen_loop fuel w3 in
            (o, (evs ++ failure :: ys)%list, w'))
    /\ _queue w3 = q
    /\ (forall next q',
          q = next :: q' ->
          listen_step w3
          = finally_reset
              (try_except (bind (_process_job next) (fun _ => ret true))
                          on_exception)
              (set_current_job (Some next) (set_queue q' w3))).
Proof.
  intros Hq Hrun.
  destruct (listen_step_network_error w w1 job q ne evs Hq Hrun)
    as (text & w2 & Herr & Hstep & Hq2).
  exists text, w2. cbn zeta.
  split; [exact Herr |]. split; [exact Hstep |]. split; [| split; [| split]].
  - rewrite filter_app.
    destruct (quiet_process_job job _ _ _ _ Hrun) as [[a Ha] | Hquiet];
      [discriminate |].
    now rewrite (filter_not_error _ Hquiet).
  - intros fuel. cbn [listen_loop].
    rewrite (bind_run_ok _ _ _ _ _ _ Hstep).
    destruct (listen_loop fuel (set_current_job None w2)) as [[o ys] w'].
    now rewrite <- app_assoc.
  - exact Hq2.
  - intros next q' ->. now apply listen_step_dequeues.
Qed.

(** ** The fuel of the loops *)

Lemma bind_ext_run {Y A B} (m : Gen Y A) (f g : A -> Gen Y B) (w : World) :
  (forall a ys w1, m w = (Ok a, ys, w1) -> f a w1 = g a w1) ->
  bind m f w = bind m g w.
Proof.
  intros Hfg. cbn. destruct (m w) as [[[a | e |] ys] w1] eqn:Em; try reflexivity.
  now rewrite (Hfg a ys w1 eq_refl).
Qed.

(** A response to a status request takes one of the pending replies. *)
Lemma poll_once_consumes (job : JobInfo) (w w1 : World) (r : pyval)
  (ys : list ClientMessage) :
  poll_once job w = (Ok r, ys, w1) ->
  exists reply, net w = reply :: net w1.
Proof.
  unfold poll_once, _post. rewrite !bind_bind, bind_get_world.
  intros Hrun. apply bind_ok_inv in Hrun as (v & ys1 & w2 & ys2 & Hreq & Hrest & _).
  unfold request in Hreq. cbn [net log_effect] in Hreq.
  destruct (net w) as [| [x | err |] rest] eqn:Hnet; try discriminate.
  inversion Hreq; subst. exists (Answer v). f_equal.
  assert (K : keeps (fun w0 => net w0 = rest) (fun _ => True)
                (in_queue <- lift (status_is v "IN_QUEUE") ;;
                 (if (in_queue : bool) then
                    yield (message_of ClientEvent.queued (local_id job))
                  else
                    in_progress <- lift (status_is v "IN_PROGRESS") ;;
                    if (in_progress : bool) then
                      output <- lift (get_method v "output" PyNone) ;;
                      fraction <- (if truthy output
                                   then lift (get_method output "progress" (PyFloat 0.09))
                                   else ret (PyFloat 0.09)) ;;
                      yield (with_progress
                               (message_of ClientEvent.progress (local_id job))
                               fraction)
                    else ret tt) ;;
                 sleep _poll_interval ;;
                 ret v)).
  { keeps_auto. }
  symmetry. apply (K _ _ _ _ Hrest). reflexivity.
Qed.

(** With more fuel than pending replies the loop of [_process_job] never
    runs out of fuel: more fuel changes nothing. *)
Lemma poll_loop_fuel (fuel : nat) (job : JobInfo) (response : pyval) (w : World) :
  (List.length (net w) < fuel)%nat ->
  poll_loop (S fuel) job response w = poll_loop fuel job response w.
Proof.
  revert response w. induction fuel as [| fuel IH]; intros response w Hlen;
    [inversion Hlen |].
  change (poll_loop (S (S fuel)) job response)
    with (in_queue <- lift (status_is response "IN_QUEUE") ;;
          pending <- (if (in_queue : bool) then ret true
                      else lift (status_is response "IN_PROGRESS")) ;;
          if (pending : bool)
          then r <- poll_once job ;; poll_loop (S fuel) job r
          else ret response).
  change (poll_loop (S fuel) job response)
    with (in_queue <- lift (status_is response "IN_QUEUE") ;;
          pending <- (if (in_queue : bool) then ret true
                      else lift (status_is response "IN_PROGRESS")) ;;
          if (pending : bool)
          then r <- poll_once job ;; poll_loop fuel job r
          else ret response).
  apply bind_ext_run. intros in_queue ys1 w1 E1. inversion E1; subst.
  apply bind_ext_run. intros pending ys2 w2 E2.
  assert (w2 = w1) as ->.
  { destruct in_queue; [now inversion E2 |].
    unfold lift in E2. now inversion E2. }
  destruct pending; [| reflexivity].
  apply bind_ext_run. intros r ys3 w3 E3.
  apply IH. destruct (poll_once_consumes _ _ _ _ _ E3) as [reply Hn].
  rewrite Hn in Hlen. cbn in Hlen. lia.
Qed.

(** The fuel that [_process_job] gives its loop is enough: any larger
    amount gives the same run. *)
Lemma poll_loop_enough_fuel (extra : nat) (job : JobInfo) (response : pyval)
  (w : World) :
  poll_loop (extra + S (List.length (net w))) job response w
  = with_fuel (fun fuel => poll_loop fuel job response) w.
Proof.
  unfold with_fuel. induction extra as [| extra IH]; [reflexivity |].
  cbn [Nat.add]. rewrite poll_loop_fuel by lia. exact IH.
Qed.

Lemma confirm_again_consumes (client_id : string) (time : Z) (w w1 : World)
  (r : pyval) (ys : list pyval) :
  confirm_again client_id time w = (Ok r, ys, w1) ->
  exists reply, net w = reply :: net w1.
Proof.
  unfold confirm_again. intros Hrun.
  apply bind_ok_inv in Hrun as (t & ys1 & w2 & ys2 & Hnow & Hrest & _).
  inversion Hnow; subst.
  destruct (timedelta_seconds time (now w (ticks w)) >? 300); [discriminate |].
  unfold sleep in Hrest. rewrite bind_modify in Hrest.
  unfold _post in Hrest. rewrite bind_get_world in Hrest.
  unfold request in Hrest. cbn [net log_effect tick] in Hrest.
  destruct (net w) as [| [x | err |] rest]; try discriminate.
  inversion Hrest; subst. now exists (Answer r).
Qed.

(** With more fuel than pending replies the loop of [sign_in] never runs
    out of fuel. *)
Lemma sign_in_loop_fuel (fuel : nat) (client_id : string) (time : Z)
  (auth_confirm : pyval) (w : World) :
  (List.length (net w) < fuel)%nat ->
  sign_in_loop (S fuel) client_id time auth_confirm w
  = sign_in_loop fuel client_id time auth_confirm w.
Proof.
  revert auth_confirm w. induction fuel as [| fuel IH];
    intros auth_confirm w Hlen; [inversion Hlen |].
  change (sign_in_loop (S (S fuel)) client_id time auth_confirm)
    with (waiting <- lift (status_is auth_confirm "not-found") ;;
          if (waiting : bool)
          then r <- confirm_again client_id time ;;
               sign_in_loop (S fuel) client_id time r
          else ret auth_confirm).
  change (sign_in_loop (S fuel) client_id time auth_confirm)
    with (waiting <- lift (status_is auth_confirm "not-found") ;;
          if (waiting : bool)
          then r <- confirm_again client_id time ;;
               sign_in_loop fuel client_id time r
          else ret auth_confirm).
  apply bind_ext_run. intros waiting ys1 w1 E1. inversion E1; subst.
  destruct waiting; [| reflexivity].
  apply bind_ext_run. intros r ys3 w3 E3.
  apply IH. destruct (confirm_again_consumes _ _ _ _ _ _ E3) as [reply Hn].
  rewrite Hn in Hlen. cbn in Hlen. lia.
Qed.

Lemma sign_in_loop_enough_fuel (extra : nat) (client_id : string) (time : Z)
  (auth_confirm : pyval) (w : World) :
  sign_in_loop (extra + S (List.length (net w))) client_id time auth_confirm w
  = with_fuel (fun fuel => sign_in_loop fuel client_id time auth_confirm) w.
Proof.
  unfold with_fuel. induction extra as [| extra IH]; [reflexivity |].
  cbn [Nat.add]. rewrite sign_in_loop_fuel by lia. exact IH.
Qed.

Lemma keeps_process_http_error {Y} (Inv : World -> Prop) (ne : NetError) :
  (forall u w, Inv w -> Inv (set_user u w)) ->
  keeps Inv (fun _ : Y => True) (_process_http_error ne).
Proof.
  intros Huser. unfold _process_http_error, set_user_credits, user_credits.
  repeat first
    [ apply keeps_try_except; [| intros ?]
    | progress keeps_auto ].
Qed.

(** An iteration of [listen] that ends takes one job from the queue. *)
Lemma listen_step_consumes (w w1 : World) (go_on : bool)
  (ys : list ClientMessage) :
  listen_step w = (Ok go_on, ys, w1) ->
  exists job, _queue w = job :: _queue w1.
Proof.
  destruct (_queue w) as [| job q] eqn:Hq.
  - rewrite (listen_step_waits _ Hq). discriminate.
  - rewrite (listen_step_dequeues _ _ _ Hq). intros Hrun.
    exists job. f_equal.
    assert (K : keeps (fun w0 => _queue w0 = q) (fun _ => True)
                  (try_except (bind (_process_job job) (fun _ => ret true))
                              on_exception)).
    { apply keeps_try_except.
      - apply keeps_bind; [| intros; apply keeps_ret].
        apply keeps_process_job with (job_id := local_id job);
          try (intros; assumption). reflexivity.
      - intros [ne | | cls msg]; unfold on_exception, yield_error.
        + apply keeps_bind; [apply keeps_process_http_error; auto | intros].
          keeps_auto.
        + apply keeps_ret.
        + keeps_auto. }
    unfold finally_reset in Hrun.
    destruct (try_except _ _ _) as [[[b | e |] ys0] w0] eqn:Etry;
      inversion Hrun; subst.
    symmetry. cbn [_queue set_current_job].
    apply (K _ _ _ _ Etry). reflexivity.
Qed.

(** With more fuel than jobs in the queue the loop of [listen] never runs
    out of fuel. *)
Lemma listen_loop_fuel (fuel : nat) (w : World) :
  (List.length (_queue w) < fuel)%nat ->
  listen_loop (S fuel) w = listen_loop fuel w.
Proof.
  revert w. induction fuel as [| fuel IH]; intros w Hlen; [inversion Hlen |].
  change (listen_loop (S (S fuel)))
    with (go_on <- listen_step ;;
          if (go_on : bool) then listen_loop (S fuel) else ret tt).
  change (listen_loop (S fuel))
    with (go_on <- listen_step ;;
          if (go_on : bool) then listen_loop fuel else ret tt).
  apply bind_ext_run. intros go_on ys w1 E.
  destruct go_on; [| reflexivity].
  apply IH. destruct (listen_step_consumes _ _ _ _ E) as [job Hn].
  rewrite Hn in Hlen. cbn in Hlen. lia.
Qed.

Lemma listen_loop_enough_fuel (extra : nat) (w : World) :
  listen_loop (extra + S (List.length (_queue w))) w
  = listen_loop (S (List.length (_queue w))) w.
Proof.
  induction extra as [| extra IH]; [reflexivity |].
  cbn [Nat.add]. rewrite listen_loop_fuel by lia. exact IH.
Qed.

(** ** [sign_in] *)

(** Within a day, the seconds of a time difference are its whole seconds. *)
Lemma timedelta_seconds_within_day (earlier later : Z) :
  0 <= later - earlier < 86400 * 1000000 ->
  timedelta_seconds earlier later = (later - earlier) / 1000000.
Proof.
  intros Hd. unfold timedelta_seconds. apply Z.mod_small.
  split; [apply Z.div_pos; lia |].
  apply Z.div_lt_upper_bound; lia.
Qed.

(** The seconds of a time difference start again at 0 after every day. *)
Lemma timedelta_seconds_wraps (earlier later : Z) :
  timedelta_seconds earlier (later + 86400 * 1000000)
  = timedelta_seconds earlier later.
Proof.
  unfold timedelta_seconds.
  replace (later + 86400 * 1000000 - earlier)
    with (later - earlier + 86400 * 1000000) by lia.
  rewrite Z.div_add by lia.
  replace ((later - earlier) / 1000000 + 86400)
    with ((later - earlier) / 1000000 + 1 * 86400) by lia.
  now rewrite Z.mod_add by lia.
Qed.

(** The loop of [sign_in] gives up when the seconds of the time since its
    start exceed 300. *)
Lemma confirm_again_timeout (client_id : string) (time : Z) (w : World) :
  300 < timedelta_seconds time (now w (ticks w)) ->
  confirm_again client_id time w
  = (Raise (Exception TimeoutError "Sign-in attempt timed out after 5 minutes"),
     [], tick w).
Proof.
  intros Hlate. unfold confirm_again, datetime_now. cbn [bind Monad_Gen].
  destruct (Z.gtb_spec (timedelta_seconds time (now w (ticks w))) 300);
    [reflexivity | lia].
Qed.

(** Otherwise it sleeps for 2 seconds and asks for the confirmation again. *)
Lemma confirm_again_polls (client_id : string) (time : Z) (w : World)
  (r : pyval) (rest : list Reply) :
  timedelta_seconds time (now w (ticks w)) <= 300 ->
  net w = Answer r :: rest ->
  confirm_again client_id time w
  = (Ok r, [],
     set_net rest
       (log_effect (Post (url w ++ "/auth/confirm")
                         (PyDict [("client_id", PyStr client_id)]) (_token w))
          (log_effect (Sleep (PyInt 2)) (tick w)))).
Proof.
  intros Hearly Hnet. unfold confirm_again, datetime_now. cbn [bind Monad_Gen].
  destruct (Z.gtb_spec (timedelta_seconds time (now w (ticks w))) 300);
    [lia |].
  unfold sleep, _post, request. cbn. now rewrite Hnet.
Qed.

(** Between one day and one day and 300 seconds after the start the loop
    does not give up either: the seconds of the time difference are at most
    300 again. *)
Lemma confirm_again_after_a_day (client_id : string) (time : Z) (w : World)
  (r : pyval) (rest : list Reply) :
  86400 * 1000000 <= now w (ticks w) - time < (86400 + 301) * 1000000 ->
  net w = Answer r :: rest ->
  300 * 1000000 < now w (ticks w) - time
  /\ confirm_again client_id time w
     = (Ok r, [],
        set_net rest
          (log_effect (Post (url w ++ "/auth/confirm")
                            (PyDict [("client_id", PyStr client_id)]) (_token w))
             (log_effect (Sleep (PyInt 2)) (tick w)))).
Proof.
  intros Hday Hnet. split; [lia |].
  apply confirm_again_polls; [| exact Hnet].
  replace (now w (ticks w))
    with (now w (ticks w) - 86400 * 1000000 + 86400 * 1000000) by lia.
  rewrite timedelta_seconds_wraps, timedelta_seconds_within_day by lia.
  apply Z.lt_succ_r. apply Z.div_lt_upper_bound; lia.
Qed.

(** The loop of [sign_in] goes on exactly while the status is [not-found]. *)
Lemma sign_in_loop_exit (fuel : nat) (client_id : string) (time : Z)
  (auth_confirm : pydict) (s : string) (w : World) :
  dict_get auth_confirm "status" = Some (PyStr s) ->
  s <> "not-found" ->
  sign_in_loop fuel client_id time (PyDict auth_confirm) w
  = (Ok (PyDict auth_confirm), [], w).
Proof.
  intros Hs Hn. apply String.eqb_neq in Hn.
  destruct fuel; cbn [sign_in_loop];
    now rewrite (status_is_dict _ _ _ Hs), bind_lift_ok, Hn.
Qed.

Lemma sign_in_loop_continue (fuel : nat) (client_id : string) (time : Z)
  (auth_confirm : pydict) (w : World) :
  dict_get auth_confirm "status" = Some (PyStr "not-found") ->
  sign_in_loop (S fuel) client_id time (PyDict auth_confirm) w
  = bind (confirm_again client_id time) (sign_in_loop fuel client_id time) w.
Proof.
  intros Hs. cbn [sign_in_loop].
  now rewrite (status_is_dict _ _ _ Hs), bind_lift_ok.
Qed.

(** The status [authorized] stores the token and yields it. *)
Lemma sign_in_result_authorized (auth_confirm : pydict) (token : pyval)
  (w : World) :
  dict_get auth_confirm "status" = Some (PyStr "authorized") ->
  dict_get auth_confirm "token" = Some token ->
  sign_in_result (PyDict auth_confirm) w = (Ok tt, [token], set_token token w).
Proof.
  intros Hs Ht. unfold sign_in_result.
  rewrite (status_is_dict _ _ _ Hs), bind_lift_ok.
  cbn [String.eqb Ascii.eqb Bool.eqb].
  now rewrite (getitem_dict _ _ _ Ht), bind_lift_ok, bind_modify.
Qed.

(** Every other status fails with the status the server reported. *)
Lemma sign_in_result_rejected (auth_confirm : pydict) (s : string) (w : World) :
  dict_get auth_confirm "status" = Some (PyStr s) ->
  s <> "authorized" ->
  sign_in_result (PyDict auth_confirm) w
  = (Raise (Exception RuntimeError
              ("Authorization could not be confirmed: " ++ s)), [], w).
Proof.
  intros Hs Hn. apply String.eqb_neq in Hn. unfold sign_in_result.
  rewrite (status_is_dict _ _ _ Hs), bind_lift_ok, Hn.
  now rewrite (get_method_dict _ _ _ _ Hs), bind_lift_ok.
Qed.

(** ** The quota of the user *)

(** C7: when the submission response carries user data, the cost is
    [max(0, previous credits - reported credits)] and the credits and the
    image counter of the user are overwritten with the reported values;
    when the response has no user data the cost is 0, the user is unchanged
    and nothing is raised; and the user that results is the one the client
    holds from the submission on, however the job ends. *)
Theorem submission_cost_and_quota (user : User) (response : pydict) (p : Z) :
  credits user = PyInt p ->
  (forall (d : pydict) (c : Z) (g : pyval),
      dict_get response "user" = Some (PyDict d) ->
      dict_get d "credits" = Some (PyInt c) ->
      dict_get d "images_generated" = Some g ->
      (user_data <- get_method (PyDict response) "user" PyNone ;;
       _update_user user user_data)
      = Ok (PyInt (Z.max 0 (p - c)),
            mkUser (user_id user) (user_name user) g (PyInt c)))
  /\ (dict_get response "user" = None ->
      (user_data <- get_method (PyDict response) "user" PyNone ;;
       _update_user user user_data)
      = Ok (PyInt 0, user))
  /\ (forall (job : JobInfo) (w w1 : World) (inputs cost remote worker : pyval)
             (user' : User) (rest : list Reply),
        _user w = Some user ->
        _send_images (Y := ClientMessage) (to_dict (work job)) w
        = (Ok inputs, [], w1) ->
        net w1 = Answer (PyDict response) :: rest ->
        dict_get response "id" = Some remote ->
        dict_get response "worker_id" = Some worker ->
        (user_data <- get_method (PyDict response) "user" PyNone ;;
         _update_user user user_data) = Ok (cost, user') ->
        forall o ys w',
          _process_job job w = (o, ys, w') -> _user w' = Some user').
Proof.
  intros Hp. split; [| split].
  - intros d c g Hu Hc Hg.
    rewrite (get_method_dict _ _ _ _ Hu). outcome.
    now apply update_user_reported.
  - intros Hu. rewrite (get_method_missing _ _ _ Hu). reflexivity.
  - intros job w w1 inputs cost remote worker user' rest
           Hu Hsend Hnet Hid Hwk Hcost o ys w' Hrun.
    rewrite (process_job_submitted job w w1 user user' inputs cost remote worker
               response rest Hu Hsend Hnet Hid Hwk Hcost) in Hrun.
    unfold emit_first in Hrun.
    destruct (track _ _ _) as [[o1 ys1] w2] eqn:Etrack.
    inversion Hrun; subst.
    assert (K : keeps (fun w0 => _user w0 = Some user') (fun _ => True)
                  (track (mkJobInfo (local_id job) (work job) remote worker)
                         (PyDict response)))
      by (apply keeps_track; intros; assumption).
    apply (K _ _ _ _ Etrack). reflexivity.
Qed.

(** ** The events of one job *)

Lemma carries_poll_loop (fuel : nat) (job : JobInfo) (response : pyval) :
  keeps (fun _ => True) (fun m => msg_job_id m = local_id job)
        (poll_loop fuel job response).
Proof.
  revert response.
  induction fuel as [| fuel IH]; intros response; cbn [poll_loop].
  - keeps_auto.
  - keeps_auto; [| apply IH].
    unfold poll_once. keeps_auto.
Qed.

Lemma carries_resolve (job : JobInfo) (response : pyval) :
  keeps (fun _ => True) (fun m => msg_job_id m = local_id job)
        (resolve job response).
Proof. unfold resolve. keeps_auto. Qed.

Lemma carries_process_job (job : JobInfo) :
  keeps (fun _ => True) (fun m => msg_job_id m = local_id job)
        (_process_job job).
Proof.
  unfold _process_job, ensure_user, track.
  repeat first
    [ apply (carries_resolve (mkJobInfo (local_id job) _ _ _))
    | apply keeps_with_fuel; intros;
      apply (carries_poll_loop _ (mkJobInfo (local_id job) _ _ _))
    | match goal with
      | |- keeps _ _ (bind _ _) => apply keeps_bind; [| intros ?]
      | |- keeps _ _ (match ?x with _ => _ end) => destruct x
      end
    | solve [keeps_auto] ].
Qed.

Lemma keeps_run {Y A} (I : World -> Prop) (E : Y -> Prop) (m : Gen Y A)
  (w : World) :
  keeps I E m -> I w -> I (world_of (m w)) /\ Forall E (events_of (m w)).
Proof.
  intros K Hw. destruct (m w) as [[o ys] w'] eqn:Run.
  exact (K _ _ _ _ Run Hw).
Qed.

(** X1: every event that [_process_job] emits for a job carries the local
    identifier of that job, whatever the service answers and however the
    run ends. *)
Theorem events_carry_job_id (job : JobInfo) (w : World) :
  Forall (fun m => msg_job_id m = local_id job)
         (events_of (_process_job job w)).
Proof. exact (proj2 (keeps_run _ _ _ w (carries_process_job job) Logic.I)). Qed.

(** *** At most one closing event *)

Lemma ends_once_of_keeps {A} (m : Gen ClientMessage A) (w : World) :
  keeps (fun _ => True) open_event m -> ends_once (m w).
Proof.
  intros K. exists (events_of (m w)), []. rewrite app_nil_r.
  repeat split; [| now left].
  exact (proj2 (keeps_run _ _ _ w K Logic.I)).
Qed.

Lemma ends_once_yield (y : ClientMessage) (w : World) : ends_once (yield y w).
Proof.
  exists [], [y]. repeat split; [constructor |].
  right. split; [now exists y | now exists tt].
Qed.

Lemma ends_once_bind {A B} (m : Gen ClientMessage A)
  (f : A -> Gen ClientMessage B) (w : World) :
  keeps (fun _ => True) open_event m ->
  (forall a w1, ends_once (f a w1)) ->
  ends_once (bind m f w).
Proof.
  intros K F. pose proof (keeps_run _ _ _ w K Logic.I) as [_ Hys].
  cbn [bind Monad_Gen]. destruct (m w) as [[[a | e |] ys] w1].
  - destruct (F a w1) as (before & last & Hev & Hb & Hl).
    destruct (f a w1) as [[o ys'] w2]. cbn in *.
    exists (ys ++ before)%list, last. subst ys'.
    rewrite app_assoc. repeat split; [now apply Forall_app | exact Hl].
  - exists ys, []. rewrite app_nil_r. repeat split; [exact Hys | now left].
  - exists ys, []. rewrite app_nil_r. repeat split; [exact Hys | now left].
Qed.

Lemma open_poll_loop (fuel : nat) (job : JobInfo) (response : pyval) :
  keeps (fun _ => True) open_event (poll_loop fuel job response).
Proof.
  revert response.
  induction fuel as [| fuel IH]; intros response; cbn [poll_loop].
  - keeps_auto.
  - keeps_auto; [| apply IH].
    unfold poll_once. keeps_auto.
Qed.

Lemma ends_once_resolve (job : JobInfo) (response : pyval) (w : World) :
  ends_once (resolve job response w).
Proof.
  revert w. unfold resolve.
  repeat first
    [ intros ?; apply ends_once_yield
    | intros ?; apply ends_once_of_keeps; solve [keeps_auto]
    | intros ?; apply ends_once_bind; [solve [keeps_auto] | intros ?]
    | match goal with
      | |- forall w, ends_once ((if ?c then _ else _) w) => destruct c
      end ].
Qed.

(** X2: the events of a job are events that do not close it (progress and
    queue positions), followed by at most one that does (finished, error
    or interrupted); a closing event is the last event of the job, and it
    is emitted only by a run that ends normally: when an exception leaves
    [_process_job], or it is left waiting, it has reported no result. *)
Theorem job_ends_once (job : JobInfo) (w : World) :
  ends_once (_process_job job w).
Proof.
  revert w. unfold _process_job, ensure_user, track.
  repeat first
    [ intros ?; apply ends_once_resolve
    | intros ?; apply ends_once_bind;
      [solve [keeps_auto
             | apply keeps_with_fuel; intros; apply open_poll_loop]
      | intros ?]
    | match goal with
      | |- forall w, ends_once ((match ?x with _ => _ end) w) => destruct x
      end ].
Qed.

(** *** The first event *)

Lemma opens_with_bind {A B} (y : ClientMessage) (m : Gen ClientMessage A)
  (f : A -> Gen ClientMessage B) (w : World) :
  keeps (fun _ => True) (fun _ => False) m ->
  (forall a w1, opens_with y (f a w1)) ->
  opens_with y (bind m f w).
Proof.
  intros K F. pose proof (keeps_run _ _ _ w K Logic.I) as [_ Hys].
  cbn [bind Monad_Gen]. destruct (m w) as [[[a | e |] ys] w1]; cbn in Hys;
    (destruct ys as [| y0 ys]; [| now inversion Hys]).
  - specialize (F a w1). destruct (f a w1) as [[o ys'] w2]. exact F.
  - left. split; [reflexivity | intros [a Ha]; discriminate].
  - left. split; [reflexivity | intros [a Ha]; discriminate].
Qed.

Lemma opens_with_yield {B} (y : ClientMessage)
  (f : unit -> Gen ClientMessage B) (w : World) :
  opens_with y (bind (yield y) f w).
Proof.
  right. rewrite bind_yield. destruct (f tt w) as [[o ys] w1].
  now exists ys.
Qed.

Lemma opens_with_process_job (job : JobInfo) (w : World) :
  opens_with (progress_event (local_id job) (PyInt 0)) (_process_job job w).
Proof.
  revert w. unfold _process_job, ensure_user.
  repeat first
    [ intros ?; apply opens_with_yield
    | intros ?; apply opens_with_bind; [solve [keeps_auto] | intros ?]
    | match goal with
      | |- forall w, opens_with _ ((match ?x with _ => _ end) w) => destruct x
      end ].
Qed.

(** A step that yields nothing, followed by [f]: it gives a value and [f]
    goes on, or the run ends there without an event and without a value. *)
Lemma bind_silent_run {Y A B} (m : Gen Y A) (f : A -> Gen Y B) (w : World) :
  keeps (fun _ => True) (fun _ => False) m ->
  (exists a w1, m w = (Ok a, [], w1) /\ bind m f w = f a w1)
  \/ (events_of (bind m f w) = [] /\ ~ returned (bind m f w)).
Proof.
  intros K. pose proof (keeps_run _ _ _ w K Logic.I) as [_ Hys].
  cbn [bind Monad_Gen]. destruct (m w) as [[[a | e |] ys] w1]; cbn in Hys;
    (destruct ys as [| y0 ys]; [| now inversion Hys]).
  - left. exists a, w1. split; [reflexivity | apply run_eta].
  - right. split; [reflexivity | intros [a Ha]; discriminate].
  - right. split; [reflexivity | intros [a Ha]; discriminate].
Qed.

(** A request followed by [f]: the transport answers and [f] goes on, or
    the run ends there without an event and without a value. *)
Lemma bind_post_cases {Y B} (op : string) (body : pyval)
  (f : pyval -> Gen Y B) (w : World) :
  (exists v rest,
      net w = Answer v :: rest
      /\ bind (_post op body) f w
         = f v (set_net rest
                  (log_effect (Post (url w ++ "/" ++ op) body (_token w)) w)))
  \/ (events_of (bind (_post op body) f w) = []
      /\ ~ returned (bind (_post op body) f w)).
Proof.
  destruct (net w) as [| [v | err |] rest] eqn:Hnet.
  - right. unfold _post. rewrite bind_bind, bind_get_world.
    unfold request. cbn [bind Monad_Gen net log_effect]. rewrite Hnet.
    split; [reflexivity | intros [a Ha]; discriminate].
  - left. exists v, rest. split; [reflexivity |].
    now apply bind_post_answer.
  - right. unfold _post. rewrite bind_bind, bind_get_world.
    rewrite (bind_request_failure _ _ _ _ _ Hnet).
    split; [reflexivity | intros [a Ha]; discriminate].
  - right. unfold _post. rewrite bind_bind, bind_get_world.
    unfold request. cbn [bind Monad_Gen net log_effect]. rewrite Hnet.
    split; [reflexivity | intros [a Ha]; discriminate].
Qed.

Lemma getitem_ok_inv (v : pyval) (k : string) (x : pyval) :
  getitem v k = Ok x -> exists d, v = PyDict d /\ dict_get d k = Some x.
Proof.
  destruct v as [| | | | | | | d]; try discriminate.
  cbn [getitem]. destruct (dict_get d k) as [y |] eqn:Hk; [| discriminate].
  intros [= <-]. now exists d.
Qed.

(** X3: the first event of a job is the progress event with progress 0,
    and it is emitted only after the service has accepted the submission.
    A run of [_process_job] that emits no event at all did not end
    normally (it raised, or it waits for the transport).  A run that emits
    an event was made for a signed-in user, has sent the images, has posted
    the workflow to [<url>/generate] and has received an answer that names
    the job and its worker; the progress event comes first, and what
    follows is the tracking of that job in the world after that answer, in
    which the request is the last one made. *)
Theorem job_opens_with_progress (job : JobInfo) (w : World) :
  opens_with (progress_event (local_id job) (PyInt 0)) (_process_job job w)
  /\ ((events_of (_process_job job w) = [] /\ ~ returned (_process_job job w))
      \/ exists (user user' : User) (inputs cost : pyval) (submit : pydict)
                (remote worker : pyval) (w1 : World) (rest : list Reply),
           let job' := mkJobInfo (local_id job) (work job) remote worker in
           let body := PyDict [("input", PyDict [("workflow", inputs)])] in
           let w2 := submitted job' user' body rest w1 in
           _user w = Some user
           /\ _send_images (Y := ClientMessage) (to_dict (work job)) w
              = (Ok inputs, [], w1)
           /\ net w1 = Answer (PyDict submit) :: rest
           /\ dict_get submit "id" = Some remote
           /\ dict_get submit "worker_id" = Some worker
           /\ (user_data <- get_method (PyDict submit) "user" PyNone ;;
               _update_user user user_data) = Ok (cost, user')
           /\ trace w2
              = (trace w1 ++ [Post (url w1 ++ "/generate") body (_token w1)])%list
           /\ net w2 = rest
           /\ _process_job job w
              = emit_first (progress_event (local_id job) (PyInt 0))
                  (track job' (PyDict submit) w2)).
Proof.
  split; [apply opens_with_process_job |].
  assert (Cases :
    (events_of (_process_job job w) = [] /\ ~ returned (_process_job job w))
    \/ exists (user user' : User) (inputs cost : pyval) (submit : pydict)
              (remote worker : pyval) (w1 : World) (rest : list Reply),
         _user w = Some user
         /\ _send_images (Y := ClientMessage) (to_dict (work job)) w
            = (Ok inputs, [], w1)
         /\ net w1 = Answer (PyDict submit) :: rest
         /\ dict_get submit "id" = Some remote
         /\ dict_get submit "worker_id" = Some worker
         /\ (user_data <- get_method (PyDict submit) "user" PyNone ;;
             _update_user user user_data) = Ok (cost, user')).
  { unfold _process_job, ensure_user.
    rewrite !bind_bind, bind_get_world.
    destruct (_user w) as [user |] eqn:Hu.
    2:{ left. rewrite bind_raise.
        split; [reflexivity | intros [a Ha]; discriminate]. }
    rewrite bind_ret.
    match goal with
    | |- context [bind (_send_images ?i) ?f w] =>
        destruct (bind_silent_run (_send_images i) f w)
          as [(inputs & w1 & Hsend & ->) | Stop];
          [apply keeps_send_images; intros; exact Logic.I | | now left]
    end.
    match goal with
    | |- context [bind (_post ?op ?body) ?f w1] =>
        destruct (bind_post_cases op body f w1)
          as [(response & rest & Hnet & ->) | Stop]; [| now left]
    end.
    destruct (getitem_result response "id") as [[remote Hid] | (cls & msg & Hid)];
      rewrite Hid.
    2:{ left. rewrite bind_lift_raise.
        split; [reflexivity | intros [a Ha]; discriminate]. }
    rewrite bind_lift_ok, bind_modify.
    destruct (getitem_ok_inv _ _ _ Hid) as (submit & -> & Hid').
    cbn [getitem]. destruct (dict_get submit "worker_id") as [worker |] eqn:Hwk.
    2:{ left. unfold key_error. rewrite bind_lift_raise.
        split; [reflexivity | intros [a Ha]; discriminate]. }
    rewrite bind_lift_ok, bind_modify. cbn [get_method]. rewrite bind_lift_ok.
    destruct (_update_user user
                (match dict_get submit "user" with
                 | Some x => x
                 | None => PyNone
                 end)) as [[cost user'] | e |] eqn:Hcost.
    - right. exists user, user', inputs, cost, submit, remote, worker, w1, rest.
      repeat split; try assumption.
    - left. rewrite bind_lift_raise.
      split; [reflexivity | intros [a Ha]; discriminate].
    - left. cbn. split; [reflexivity | intros [a Ha]; discriminate]. }
  destruct Cases as [Stop | (user & user' & inputs & cost & submit & remote
                             & worker & w1 & rest & Hu & Hsend & Hnet & Hid
                             & Hwk & Hcost)]; [now left | right].
  exists user, user', inputs, cost, submit, remote, worker, w1, rest.
  cbn zeta. repeat split; try assumption.
  now apply process_job_submitted with (user := user) (cost := cost).
Qed.

(** *** How a job ends *)

Lemma resolve_status (job : JobInfo) (r : pydict) (s : string) (w : World) :
  dict_get r "status" = Some (PyStr s) ->
  s <> "COMPLETED" -> s <> "FAILED" ->
  resolve job (PyDict r) w
  = (if String.eqb s "CANCELLED" then yield (interrupted_event (local_id job))
     else if String.eqb s "TIMED_OUT"
          then yield (error_event (local_id job) (PyStr "job timed out"))
          else ret tt) w.
Proof.
  intros Hs Hc Hf. unfold resolve.
  rewrite !(status_is_dict _ _ _ Hs).
  apply String.eqb_neq in Hc, Hf. rewrite Hc, Hf.
  rewrite !bind_lift_ok. cbv beta iota.
  destruct (String.eqb s "CANCELLED"); [reflexivity |].
  rewrite bind_lift_ok.
  destruct (String.eqb s "TIMED_OUT"); reflexivity.
Qed.

Lemma track_settled (job : JobInfo) (r : pydict) (s : string) (w : World) :
  dict_get r "status" = Some (PyStr s) ->
  s <> "IN_QUEUE" -> s <> "IN_PROGRESS" ->
  track job (PyDict r) w = resolve job (PyDict r) w.
Proof.
  intros Hs Hq Hp. unfold track.
  apply bind_run_silent. unfold with_fuel.
  now apply poll_loop_exit with (s := s).
Qed.

(** X4: a response whose status is none of the six that [_process_job]
    knows ends the job in silence: the polling stops, no request is made,
    the client is left as it was, and the caller receives no event, neither
    a result nor an error. *)
Theorem unknown_status_reports_nothing (job : JobInfo) (r : pydict)
  (s : string) (w : World) :
  dict_get r "status" = Some (PyStr s) ->
  ~ known_status s ->
  track job (PyDict r) w = (Ok tt, [], w).
Proof.
  intros Hs Hk. unfold known_status in Hk.
  rewrite (track_settled _ _ _ _ Hs) by tauto.
  rewrite (resolve_status _ _ _ _ Hs) by tauto.
  destruct (String.eqb_spec s "CANCELLED") as [-> | _]; [tauto |].
  destruct (String.eqb_spec s "TIMED_OUT") as [-> | _]; [tauto |].
  reflexivity.
Qed.

(** X5: a response with the status CANCELLED ends the job with one
    [interrupted] event, and one with the status TIMED_OUT with one [error]
    event whose text is "job timed out"; in both cases no further request
    is made and the client is left as it was. *)
Theorem cancelled_or_timed_out (job : JobInfo) (r : pydict) (s : string)
  (w : World) :
  dict_get r "status" = Some (PyStr s) ->
  s = "CANCELLED" \/ s = "TIMED_OUT" ->
  track job (PyDict r) w
  = (Ok tt,
     [if String.eqb s "CANCELLED" then interrupted_event (local_id job)
      else error_event (local_id job) (PyStr "job timed out")],
     w).
Proof.
  intros Hs Hk.
  rewrite (track_settled _ _ _ _ Hs) by (destruct Hk; subst s; discriminate).
  rewrite (resolve_status _ _ _ _ Hs) by (destruct Hk; subst s; discriminate).
  destruct Hk; subst s; reflexivity.
Qed.

(** ** What [listen] does with a job that fails *)

Lemma process_job_keeps_processing (job : JobInfo) (q : list JobInfo)
  (w w1 : World) (o : Outcome unit) (evs : list ClientMessage) :
  _process_job job (set_current_job (Some job) (set_queue q w)) = (o, evs, w1) ->
  processing (local_id job) q w1.
Proof.
  intros Hrun.
  assert (K : keeps (processing (local_id job) q) (fun _ => True)
                 (_process_job job)).
  { apply keeps_process_job with (job_id := local_id job);
      try (intros; assumption); [| reflexivity].
    intros j w0 Hj [Hqueue _]. split; [exact Hqueue | now exists j]. }
  apply (K _ _ _ _ Hrun). split; [reflexivity | now exists job].
Qed.

(** X6: an exception other than a transport error or a cancellation that
    leaves the processing of a job (a missing key of a response, an invalid
    result, a missing user) is caught by [listen]: the events of the job
    are followed by one error event for that job whose text is the text of
    the exception, the current job is reset, the jobs that wait stay in
    the queue, and the loop goes on. *)
Theorem listen_reports_exception (w w1 : World) (job : JobInfo)
  (q : list JobInfo) (cls : exn_class) (text : string)
  (evs : list ClientMessage) :
  _queue w = job :: q ->
  _process_job job (set_current_job (Some job) (set_queue q w))
  = (Raise (Exception cls text), evs, w1) ->
  listen_step w
  = (Ok true, (evs ++ [error_event (local_id job) (PyStr text)])%list,
     set_current_job None w1)
  /\ _queue w1 = q
  /\ filter is_error evs = [].
Proof.
  intros Hq Hrun.
  destruct (process_job_keeps_processing _ _ _ _ _ _ Hrun)
    as [Hq1 (j & Hj & Hid)].
  split; [| split; [exact Hq1 |]].
  - rewrite (listen_step_dequeues _ _ _ Hq).
    unfold finally_reset, try_except.
    rewrite (bind_run_raise _ _ _ _ _ _ Hrun). cbn [on_exception].
    rewrite (bind_run_ok _ _ _ _ _ _ (yield_error_current text w1 j Hj)).
    cbn. now rewrite Hid.
  - destruct (quiet_process_job job _ _ _ _ Hrun) as [[a Ha] | Hquiet];
      [discriminate |].
    now apply filter_not_error.
Qed.

(** X7: a cancellation that reaches [listen] while a job is processed ends
    the loop: [listen] returns, after the events of the job and without an
    error event; the current job is reset, and the jobs that wait stay in
    the queue. *)
Theorem listen_stops_on_cancellation (w w1 : World) (job : JobInfo)
  (q : list JobInfo) (evs : list ClientMessage) (fuel : nat) :
  _queue w = job :: q ->
  _process_job job (set_current_job (Some job) (set_queue q w))
  = (Raise CancelledError, evs, w1) ->
  listen_loop (S fuel) w = (Ok tt, evs, set_current_job None w1)
  /\ _queue w1 = q
  /\ filter is_error evs = [].
Proof.
  intros Hq Hrun.
  destruct (process_job_keeps_processing _ _ _ _ _ _ Hrun) as [Hq1 _].
  split; [| split; [exact Hq1 |]].
  - assert (Hstep : listen_step w = (Ok false, evs, set_current_job None w1)).
    { rewrite (listen_step_dequeues _ _ _ Hq).
      unfold finally_reset, try_except.
      rewrite (bind_run_raise _ _ _ _ _ _ Hrun). cbn.
      now rewrite app_nil_r. }
    cbn [listen_loop]. rewrite (bind_run_ok _ _ _ _ _ _ Hstep).
    cbn. now rewrite app_nil_r.
  - destruct (quiet_process_job job _ _ _ _ Hrun) as [[a Ha] | Hquiet];
      [discriminate |].
    now apply filter_not_error.
Qed.

(** X8: a job that [listen] takes from the queue while no user is signed
    in is not submitted: no request is made, the job leaves the queue, and
    the caller receives one error event for it with the text of the failed
    [ensure]. *)
Theorem listen_without_user (w : World) (job : JobInfo) (q : list JobInfo) :
  _user w = None ->
  _queue w = job :: q ->
  listen_step w
  = (Ok true, [error_event (local_id job) (PyStr ensure_message)],
     set_current_job None (set_queue q w)).
Proof.
  intros Hu Hq. rewrite (listen_step_dequeues _ _ _ Hq).
  unfold finally_reset, try_except, _process_job, ensure_user.
  rewrite !bind_bind, bind_get_world. cbn [_user set_current_job set_queue].
  rewrite Hu. destruct w; reflexivity.
Qed.

(** ** The text of a failure *)

Lemma decode_quoted (s : string) (v : pyval) :
  Json.decode (String Json.dquote s) = inr v -> exists t, v = PyStr t.
Proof.
  unfold Json.decode.
  replace (Json.strip_prefix Json.bom (String Json.dquote s)) with (@None string)
    by reflexivity.
  replace (Json.skip_ws (String Json.dquote s)) with (String Json.dquote s)
    by reflexivity.
  replace (2 * String.length (String Json.dquote s) + 2)%nat
    with (S (2 * String.length (String Json.dquote s) + 1))%nat by lia.
  cbn [Json.scan_once]. change (Ascii.eqb Json.dquote Json.dquote) with true.
  cbv iota.
  destruct (Json.scan_string s) as [[text rest] |]; [| discriminate].
  destruct (Json.skip_ws rest); [| discriminate].
  intros [= <-]. now exists text.
Qed.

(** What [_extract_error] reports for an error field that is not the JSON
    text of an object. *)
Lemma extract_error_text (response err job_id : pyval) :
  get_method response "error"
    (PyStr (String Json.dquote ("Job " ++ py_str job_id
              ++ " failed (unknown error)" ++ String Json.dquote "")))
  = Ok err ->
  (forall d, json_loads err <> Ok (PyDict d)) ->
  _extract_error response job_id = Ok (PyStr (py_str err), PyStr "No traceback").
Proof.
  intros Hget Hno. unfold _extract_error. rewrite Hget. outcome.
  destruct (json_loads_result err) as [[x Hx] | (cls & msg & Hx)];
    rewrite Hx; outcome; [| reflexivity].
  destruct x as [| | | | | | | d]; try reflexivity.
  now destruct (Hno d).
Qed.

(** X9: whenever the error field of a failed response is not the JSON text
    of an object (a plain message, a document that does not parse, a JSON
    number or list, a value that is not a string), [_extract_error] gives
    [str(error)] as the message and "No traceback" as the trace. *)
Theorem error_text_when_not_an_object (response : pydict) (err job_id : pyval) :
  dict_get response "error" = Some err ->
  (forall d, json_loads err <> Ok (PyDict d)) ->
  _extract_error (PyDict response) job_id
  = Ok (PyStr (py_str err), PyStr "No traceback").
Proof.
  intros Herr Hno. apply extract_error_text; [| exact Hno].
  now apply get_method_dict.
Qed.

(** X10: for a failed response without an error field the message is the
    default text with the double quotes that surround it in the source,
    ["Job <id> failed (unknown error)"]: the default is the JSON text of a
    string, not of an object, so it is reported as it is written. *)
Theorem error_text_when_missing (response : pydict) (job_id : pyval) :
  dict_get response "error" = None ->
  _extract_error (PyDict response) job_id
  = Ok (PyStr (String Json.dquote
                 ("Job " ++ py_str job_id ++ " failed (unknown error)"
                  ++ String Json.dquote "")),
        PyStr "No traceback").
Proof.
  intros Herr.
  rewrite extract_error_text
    with (err := PyStr (String Json.dquote
                          ("Job " ++ py_str job_id ++ " failed (unknown error)"
                           ++ String Json.dquote ""))).
  - reflexivity.
  - now apply get_method_missing.
  - intros d. cbn [json_loads].
    destruct (Json.decode _) as [[| |] | v] eqn:Hv; try discriminate.
    apply decode_quoted in Hv as [t ->]. discriminate.
Qed.

(** X11: for an error field that [json.loads] reads as an object (a
    document of the JSON grammar whose integers have no more digits and
    whose containers are nested no deeper than the interpreter allows),
    the message is the member [error_message] of the object, and the whole
    object where it has no such member; the trace is the member
    [error_traceback], and "No traceback" where it has none. *)
Theorem error_text_of_object (response d : pydict) (err job_id : pyval) :
  dict_get response "error" = Some err ->
  json_loads err = Ok (PyDict d) ->
  _extract_error (PyDict response) job_id
  = Ok (match dict_get d "error_message" with
        | Some text => text
        | None => PyDict d
        end,
        match dict_get d "error_traceback" with
        | Some trace => trace
        | None => PyStr "No traceback"
        end).
Proof.
  intros Herr Hd. unfold _extract_error.
  rewrite (get_method_dict _ _ _ _ Herr). outcome. rewrite Hd. reflexivity.
Qed.

(** ** Payment errors that cannot be read *)

(** X12: a 402 error whose data name the remaining credits but not the
    cost is reported with the message of the error as it came, and yet the
    credits of the user have been replaced by the ones the data name: the
    assignment is made before the cost is looked up. *)
Theorem payment_error_without_cost {Y} (e : NetError) (w : World) (user : User)
  (d : pydict) (c : pyval) :
  status e = Some 402 -> data e = PyDict d ->
  dict_get d "credits" = Some c -> dict_get d "cost" = None ->
  _user w = Some user ->
  _process_http_error (Y := Y) e w
  = (Ok (message e), [],
     set_user (Some (mkUser (user_id user) (user_name user)
                            (images_generated user) c)) w).
Proof.
  intros Hs Hd Hc Hk Hu. destruct w, e; cbn in Hs, Hd, Hu; subst.
  unfold _process_http_error; cbn [message status data].
  rewrite (getitem_dict _ _ _ Hc), (truthy_dict _ _ _ Hc).
  unfold getitem. rewrite Hk. reflexivity.
Qed.

(** X13: [_process_http_error] gives the message of the error as it came
    and leaves the client as it was whenever the status is not 402, the
    error has no data, no user is signed in, or the data do not name the
    credits. *)
Theorem other_errors_keep_message {Y} (e : NetError) (w : World) :
  status e <> Some 402 \/ truthy (data e) = false \/ _user w = None
  \/ (forall c, getitem (data e) "credits" <> Ok c) ->
  _process_http_error (Y := Y) e w = (Ok (message e), [], w).
Proof.
  intros Hcase. unfold _process_http_error. rewrite bind_get_world.
  destruct (match status e with Some code => code =? 402 | None => false end)
    eqn:Hs; [| reflexivity].
  destruct (truthy (data e)) eqn:Hd; [| reflexivity].
  destruct (_user w) as [user |] eqn:Hu; [| reflexivity].
  cbn [andb is_some].
  destruct Hcase as [Hn | [Hn | [Hn | Hn]]]; try discriminate.
  - destruct (status e) as [code |]; [| discriminate].
    apply Z.eqb_eq in Hs. now subst code.
  - unfold try_except.
    destruct (getitem_result (data e) "credits") as [[c Hc] | (cls & msg & Hc)];
      [now destruct (Hn c) |].
    rewrite Hc, bind_lift_raise. destruct w; reflexivity.
Qed.

(** ** Where the result images come from *)

(** X14: with valid offsets, a result that names a URL is downloaded from
    there, with one request, and read with [from_bytes]; a [base64] member
    of the same result is not looked at. *)
Theorem receive_images_prefers_url {Y} (images : pydict) (offsets link data : pyval)
  (rest : list Reply) (w : World) :
  dict_get images "offsets" = Some offsets ->
  valid_offsets offsets = true ->
  dict_get images "url" = Some link ->
  truthy link = true ->
  net w = Answer data :: rest ->
  receive_images (Y := Y) (PyDict images) w
  = (from_bytes data offsets, [], set_net rest (log_effect (Download link) w)).
Proof.
  intros Ho Hv Hl Ht Hnet. unfold receive_images.
  rewrite (get_method_dict _ _ _ _ Ho), bind_lift_ok, Hv. cbn [negb].
  rewrite (get_method_dict _ _ _ _ Hl), bind_lift_ok, Ht.
  rewrite (bind_request_answer _ _ _ _ _ Hnet). reflexivity.
Qed.

(** X15: with valid offsets and no URL (none, or one that is false in a
    condition), the images are read from the [base64] member with
    [from_base64] and no request is made; a result that has neither member
    raises a [ValueError] that quotes the first 80 characters of the
    result. *)
Theorem receive_images_without_url {Y} (images : pydict) (offsets : pyval)
  (w : World) :
  dict_get images "offsets" = Some offsets ->
  valid_offsets offsets = true ->
  match dict_get images "url" with
  | Some link => truthy link = false
  | None => True
  end ->
  let b64 := match dict_get images "base64" with
             | Some text => text
             | None => PyNone
             end in
  receive_images (Y := Y) (PyDict images) w
  = (if truthy b64 then from_base64 b64 offsets
     else Raise (Exception ValueError
                   ("No result images found in server response: "
                    ++ str_prefix 80 (py_str (PyDict images)))),
     [], w).
Proof.
  intros Ho Hv Hl b64. unfold receive_images.
  rewrite (get_method_dict _ _ _ _ Ho), bind_lift_ok, Hv. cbn [negb].
  assert (Hlink : exists link, get_method (PyDict images) "url" PyNone = Ok link
                               /\ truthy link = false).
  { cbn [get_method]. destruct (dict_get images "url") as [link |].
    - now exists link.
    - now exists PyNone. }
  destruct Hlink as (link & -> & Hf). rewrite bind_lift_ok, Hf.
  cbn [get_method]. rewrite bind_lift_ok. fold b64.
  destruct (truthy b64); reflexivity.
Qed.

(** ** The images of a request *)

(** X16: inputs without image data, or whose image data are false in a
    condition, are submitted as they are: [_send_images] makes no request
    and changes nothing. *)
Theorem send_images_without_images {Y} (inputs : pydict) (w : World) :
  match dict_get inputs "image_data" with
  | Some image_data => truthy image_data = false
  | None => True
  end ->
  _send_images (Y := Y) (PyDict inputs) w = (Ok (PyDict inputs), [], w).
Proof.
  intros Hi. unfold _send_images. cbn [get_method]. rewrite bind_lift_ok.
  destruct (dict_get inputs "image_data") as [image_data |].
  - now rewrite Hi.
  - reflexivity.
Qed.

(** X17: the text that [_send_images] embeds takes exactly
    [_base64_size(len(blob))] characters: the size that is compared with
    the limit is the size of what is sent, so an embedded text always has
    fewer than 3,500,000 characters. *)
Theorem embedded_text_size {Y} (inputs image_data : pydict)
  (blob : list Byte.byte) (offsets : pyval) (w : World) :
  dict_get inputs "image_data" = Some (PyDict image_data) ->
  dict_get image_data "bytes" = Some (PyBytes blob) ->
  dict_get image_data "offsets" = Some offsets ->
  _base64_size (Z.of_nat (List.length blob)) < 3500000 ->
  exists encoded : string,
    _send_images (Y := Y) (PyDict inputs) w
    = (Ok (PyDict (dict_set inputs "image_data"
                     (PyDict [("base64", PyStr encoded); ("offsets", offsets)]))),
       [], w)
    /\ Z.of_nat (String.length encoded)
       = _base64_size (Z.of_nat (List.length blob))
    /\ Z.of_nat (String.length encoded) < 3500000.
Proof.
  intros Hi Hb Ho Hlt. exists (Base64.b64encode blob).
  rewrite b64encode_length. split; [| split; [reflexivity | exact Hlt]].
  unfold _send_images.
  rewrite (get_method_dict _ _ _ _ Hi), bind_lift_ok.
  rewrite (truthy_dict _ _ _ Hb).
  rewrite (getitem_dict _ _ _ Hb), bind_lift_ok.
  rewrite (getitem_dict _ _ _ Ho), bind_lift_ok.
  cbn [py_len]. rewrite bind_lift_ok.
  apply Z.ltb_lt in Hlt. rewrite Hlt.
  cbn [b64encode_str]. rewrite bind_lift_ok. reflexivity.
Qed.

(** ** The time limit of [sign_in] *)

(** X18: as long as the clock has advanced by less than a day since the
    first confirmation, the loop of [sign_in] gives up exactly when 301
    seconds or more have passed: the test [> 300] is made on whole
    seconds, so between 300 and 301 seconds it still pauses and asks
    again. *)
Theorem sign_in_gives_up_from_301_seconds (client_id : string) (time : Z)
  (w : World) :
  0 <= now w (ticks w) - time < 86400 * 1000000 ->
  confirm_again client_id time w
  = if 301 * 1000000 <=? now w (ticks w) - time then
      (Raise (Exception TimeoutError "Sign-in attempt timed out after 5 minutes"),
       [], tick w)
    else
      bind (sleep (PyInt 2))
           (fun _ => _post "auth/confirm" (PyDict [("client_id", PyStr client_id)]))
           (tick w).
Proof.
  intros Hday.
  assert (Hs : timedelta_seconds time (now w (ticks w))
               = (now w (ticks w) - time) / 1000000)
    by now apply timedelta_seconds_within_day.
  destruct (Z.leb_spec (301 * 1000000) (now w (ticks w) - time)) as [Hge | Hlt].
  - apply confirm_again_timeout. rewrite Hs.
    apply Z.lt_le_trans with (m := 301 * 1000000 / 1000000); [reflexivity |].
    apply Z.div_le_mono; lia.
  - unfold confirm_again, datetime_now. cbn [bind Monad_Gen]. rewrite Hs.
    assert (Hq : (now w (ticks w) - time) / 1000000 < 301)
      by (apply Z.div_lt_upper_bound; lia).
    destruct (Z.gtb_spec ((now w (ticks w) - time) / 1000000) 300); [lia |].
    apply run_eta.
Qed.

(** X19: a clock that was set back since the first confirmation, by
    anything up to 86,099 seconds, ends [sign_in] with the timeout at the
    next turn of its loop: the seconds field of a negative difference
    counts from the day before. *)
Theorem sign_in_gives_up_when_clock_set_back (client_id : string) (time : Z)
  (w : World) :
  - (86400 - 301) * 1000000 <= now w (ticks w) - time < 0 ->
  confirm_again client_id time w
  = (Raise (Exception TimeoutError "Sign-in attempt timed out after 5 minutes"),
     [], tick w).
Proof.
  intros Hback. apply confirm_again_timeout. unfold timedelta_seconds.
  set (d := now w (ticks w) - time) in *.
  assert (Hlo : -86099 <= d / 1000000) by (apply Z.div_le_lower_bound; lia).
  assert (Hhi : d / 1000000 < 0) by (apply Z.div_lt_upper_bound; lia).
  replace (d / 1000000) with (d / 1000000 + 86400 + (-1) * 86400) by lia.
  rewrite Z.mod_add by lia. rewrite Z.mod_small; lia.
Qed.

(** *** The token of the client during [sign_in] *)





(** ** Signing in with a token *)

Section SessionProperties.
Variables (default_images_generated default_credits : pyval).

(** [authenticate] with a token and an answer to its request. *)
Lemma authenticate_answered {Y} (token : pyval) (d : pydict)
  (uid uname generated reported : pyval) (rest : list Reply) (w : World) :
  truthy token = true ->
  net w = Answer (PyDict d) :: rest ->
  dict_get d "id" = Some uid ->
  dict_get d "name" = Some uname ->
  dict_get d "images_generated" = Some generated ->
  dict_get d "credits" = Some reported ->
  authenticate default_images_generated default_credits (Y := Y) token w
  = (Ok (mkUser uid uname generated reported), [],
     set_user (Some (mkUser uid uname generated reported))
       (set_net rest
          (log_effect (Get (url w ++ "/user") token) (set_token token w)))).
Proof.
  intros Ht Hnet Hid Hname Hgen Hcred. unfold authenticate. rewrite Ht.
  cbn [negb]. rewrite bind_modify.
  assert (Hget : try_except (_get (Y := Y) "user")
                   (fun e => match e with
                             | NetworkError ne => reject_token ne
                             | _ => raise e
                             end) (set_token token w)
                 = (Ok (PyDict d), [],
                    set_net rest
                      (log_effect (Get (url w ++ "/user") token)
                                  (set_token token w)))).
  { unfold try_except, _get. rewrite bind_get_world. unfold request.
    cbn [net log_effect set_token]. rewrite Hnet. reflexivity. }
  rewrite (bind_run_silent _ _ _ _ _ Hget).
  rewrite (getitem_dict _ _ _ Hid), bind_lift_ok.
  rewrite (getitem_dict _ _ _ Hname), bind_lift_ok, bind_modify.
  rewrite (getitem_dict _ _ _ Hgen), bind_lift_ok, bind_modify.
  rewrite (getitem_dict _ _ _ Hcred), bind_lift_ok, bind_modify.
  destruct w; reflexivity.
Qed.

(** X21: [authenticate] with a token that the service accepts makes one
    request, a GET of [<url>/user] that already carries the new token as
    its bearer; afterwards the client holds the token and a user with the
    identifier, the name, the number of generated images and the credits
    of the reply, and returns that user. The queue and the current job of
    the client are not touched. *)
Theorem authenticate_stores_user {Y} (token : pyval) (d : pydict)
  (uid uname generated reported : pyval) (rest : list Reply) (w : World) :
  truthy token = true ->
  net w = Answer (PyDict d) :: rest ->
  dict_get d "id" = Some uid ->
  dict_get d "name" = Some uname ->
  dict_get d "images_generated" = Some generated ->
  dict_get d "credits" = Some reported ->
  let r := authenticate default_images_generated default_credits (Y := Y) token w in
  let user := mkUser uid uname generated reported in
  outcome_of r = Ok user
  /\ events_of r = []
  /\ _token (world_of r) = token
  /\ _user (world_of r) = Some user
  /\ trace (world_of r) = (trace w ++ [Get (url w ++ "/user") token])%list
  /\ net (world_of r) = rest
  /\ _queue (world_of r) = _queue w
  /\ _current_job (world_of r) = _current_job w.
Proof.
  intros Ht Hnet Hid Hname Hgen Hcred r user. subst r.
  rewrite (authenticate_answered token d uid uname generated reported rest w)
    by assumption.
  repeat split.
Qed.

(** X22: when the request of [authenticate] fails with a transport error,
    the token of the client is cleared, the user it held is kept, and the
    error is raised again, with the message replaced by the request to
    sign in again when the status is 401 and as it came otherwise. *)
Theorem authenticate_clears_rejected_token {Y} (token : pyval) (e : NetError)
  (rest : list Reply) (w : World) :
  truthy token = true ->
  net w = Failure e :: rest ->
  let r := authenticate default_images_generated default_credits (Y := Y) token w in
  outcome_of r
  = Raise (NetworkError
             (mkNetError
                (if match status e with Some code => code =? 401 | None => false end
                 then "The login data is incorrect, please sign in again."
                 else message e)
                (status e) (data e)))
  /\ _token (world_of r) = PyStr ""
  /\ _user (world_of r) = _user w
  /\ trace (world_of r) = (trace w ++ [Get (url w ++ "/user") token])%list.
Proof.
  intros Ht Hnet r. subst r. unfold authenticate. rewrite Ht.
  cbn [negb]. rewrite bind_modify.
  assert (Hget : try_except (_get (Y := Y) "user")
                   (fun e => match e with
                             | NetworkError ne => reject_token ne
                             | _ => raise e
                             end) (set_token token w)
                 = reject_token e
                     (set_net rest
                        (log_effect (Get (url w ++ "/user") token)
                                    (set_token token w)))).
  { unfold try_except, _get. rewrite bind_get_world. unfold request.
    cbn [net log_effect set_token]. rewrite Hnet.
    unfold reject_token. rewrite bind_modify. reflexivity. }
  unfold reject_token in Hget. rewrite bind_modify in Hget.
  rewrite (bind_run_raise _ _ _ _ _ _ Hget).
  destruct e as [msg st dat]. cbn [status message data].
  destruct (match st with Some code => code =? 401 | None => false end);
    repeat split.
Qed.

(** X23: a reply to [authenticate] that names the user but not the number
    of generated images raises a [KeyError] and leaves the client signed in
    by halves: it holds the new token and a user with the identifier and
    the name of the reply and the default counters. *)
Theorem authenticate_incomplete_reply {Y} (token : pyval) (d : pydict)
  (uid uname : pyval) (rest : list Reply) (w : World) :
  truthy token = true ->
  net w = Answer (PyDict d) :: rest ->
  dict_get d "id" = Some uid ->
  dict_get d "name" = Some uname ->
  dict_get d "images_generated" = None ->
  let r := authenticate default_images_generated default_credits (Y := Y) token w in
  outcome_of r = Raise (Exception KeyError "'images_generated'")
  /\ _token (world_of r) = token
  /\ _user (world_of r)
     = Some (mkUser uid uname default_images_generated default_credits).
Proof.
  intros Ht Hnet Hid Hname Hgen r. subst r. unfold authenticate. rewrite Ht.
  cbn [negb]. rewrite bind_modify.
  assert (Hget : try_except (_get (Y := Y) "user")
                   (fun e => match e with
                             | NetworkError ne => reject_token ne
                             | _ => raise e
                             end) (set_token token w)
                 = (Ok (PyDict d), [],
                    set_net rest
                      (log_effect (Get (url w ++ "/user") token)
                                  (set_token token w)))).
  { unfold try_except, _get. rewrite bind_get_world. unfold request.
    cbn [net log_effect set_token]. rewrite Hnet. reflexivity. }
  rewrite (bind_run_silent _ _ _ _ _ Hget).
  rewrite (getitem_dict _ _ _ Hid), bind_lift_ok.
  rewrite (getitem_dict _ _ _ Hname), bind_lift_ok, bind_modify.
  unfold getitem. rewrite Hgen. unfold key_error. rewrite bind_lift_raise.
  repeat split.
Qed.

(** X24: [connect] without an access token raises a [ValueError] before
    anything else happens, no request included; with a token that the
    service accepts it gives a client for the address it was called with,
    signed in with that token and the user of the reply, with an empty
    queue and no current job. *)
Theorem connect_gives_fresh_client {Y} (address : string) (token : pyval)
  (d : pydict) (uid uname generated reported : pyval) (rest : list Reply)
  (w : World) :
  net w = Answer (PyDict d) :: rest ->
  dict_get d "id" = Some uid ->
  dict_get d "name" = Some uname ->
  dict_get d "images_generated" = Some generated ->
  dict_get d "credits" = Some reported ->
  connect default_images_generated default_credits (Y := Y) address token w
  = if truthy token then
      (Ok tt, [],
       mkWorld address token (Some (mkUser uid uname generated reported))
               None [] rest
               (trace w ++ [Get (address ++ "/user") token])%list
               (now w) (ticks w) (uuids w))
    else
      (Raise (Exception ValueError "Authorization missing for cloud endpoint"),
       [], w).
Proof.
  intros Hnet Hid Hname Hgen Hcred. unfold connect.
  destruct (truthy token) eqn:Ht; [| reflexivity].
  cbn [negb]. rewrite bind_modify.
  rewrite (bind_run_silent _ _ _ _ _
             (authenticate_answered token d uid uname generated reported rest
                (new_client address w) Ht Hnet Hid Hname Hgen Hcred)).
  reflexivity.
Qed.

End SessionProperties.

(** ** Interrupting *)

(** X25: [interrupt] while the current job has an identifier of the
    service makes one request, a POST of an empty object to
    [<url>/cancel/<remote id>], and changes nothing of the client: the
    current job stays the current job, and the jobs that wait stay in the
    queue. *)
Theorem interrupt_cancels_remote_job {Y} (job : JobInfo) (reply : pyval)
  (rest : list Reply) (w : World) :
  _current_job w = Some job ->
  truthy (remote_id job) = true ->
  net w = Answer reply :: rest ->
  interrupt (Y := Y) w
  = (Ok tt, [],
     set_net rest
       (log_effect (Post (url w ++ "/cancel/" ++ py_str (remote_id job))
                         (PyDict []) (_token w)) w)).
Proof.
  intros Hjob Hid Hnet. unfold interrupt.
  rewrite bind_get_world, Hjob, Hid.
  rewrite (bind_post_answer _ _ _ _ _ _ Hnet). reflexivity.
Qed.

(** X26: [interrupt] does nothing at all, no request included, when the
    client has no current job or the current job has not received an
    identifier from the service yet: a job that waits in the queue, or
    whose submission is under way, is not cancelled by it. *)
Theorem interrupt_without_remote_job {Y} (w : World) :
  match _current_job w with
  | Some job => truthy (remote_id job) = false
  | None => True
  end ->
  interrupt (Y := Y) w = (Ok tt, [], w).
Proof.
  intros Hjob. unfold interrupt. rewrite bind_get_world.
  destruct (_current_job w) as [job |]; [now rewrite Hjob | reflexivity].
Qed.

(** X27: clearing the queue does not stop the job that is being
    processed: after [clear_queue] no job waits any more, the current job
    is still the current job, and an [interrupt] that follows still sends
    the request that cancels it. *)
Theorem clear_queue_keeps_current_job {Y} (job : JobInfo) (reply : pyval)
  (rest : list Reply) (w : World) :
  _current_job w = Some job ->
  truthy (remote_id job) = true ->
  net w = Answer reply :: rest ->
  bind clear_queue (fun _ => interrupt (Y := Y)) w
  = (Ok tt, [],
     set_net rest
       (log_effect (Post (url w ++ "/cancel/" ++ py_str (remote_id job))
                         (PyDict []) (_token w))
                   (set_queue [] w))).
Proof.
  intros Hjob Hid Hnet. unfold clear_queue. rewrite bind_modify.
  unfold interrupt. rewrite bind_get_world.
  cbn [_current_job set_queue]. rewrite Hjob, Hid.
  rewrite (bind_post_answer _ _ _ (set_queue [] w) reply rest Hnet).
  reflexivity.
Qed.

(** ** The order of the jobs *)

Lemma enqueue_run {Y} (a : WorkflowInput) (front : bool) (w : World) :
  exists job : JobInfo,
    enqueue (Y := Y) a front w
    = (Ok (local_id job), [], set_queue (_queue w ++ [job])%list (draw w))
    /\ local_id job = uuid4 (uuids w)
    /\ workflow_fields (work job) = workflow_fields a.
Proof.
  eexists. split; [unfold enqueue; reflexivity |].
  split; [reflexivity |]. cbn. now destruct (models a).
Qed.

(** X28: jobs are processed in the order in which they were enqueued,
    whatever the argument [front] says: two calls of [enqueue] leave the
    two jobs at the end of the queue, the first before the second, after
    the jobs that waited already, and with no job waiting before them the
    next turn of [listen] takes the first and leaves the second in the
    queue. *)
Theorem jobs_keep_their_order {Y} (a b : WorkflowInput) (front_a front_b : bool)
  (w : World) :
  exists ja jb : JobInfo,
    let w2 := set_queue (_queue w ++ [ja; jb])%list (draw (draw w)) in
    bind (enqueue (Y := Y) a front_a)
         (fun id_a => bind (enqueue b front_b) (fun id_b => ret (id_a, id_b))) w
    = (Ok (local_id ja, local_id jb), [], w2)
    /\ local_id ja = uuid4 (uuids w)
    /\ local_id jb = uuid4 (S (uuids w))
    /\ workflow_fields (work ja) = workflow_fields a
    /\ workflow_fields (work jb) = workflow_fields b
    /\ (_queue w = [] ->
        listen_step w2
        = finally_reset
            (try_except (bind (_process_job ja) (fun _ => ret true))
                        on_exception)
            (set_current_job (Some ja) (set_queue [jb] w2))).
Proof.
  destruct (enqueue_run (Y := Y) a front_a w) as (ja & Ha & Hida & Hfa).
  destruct (enqueue_run (Y := Y) b front_b
              (set_queue (_queue w ++ [ja])%list (draw w)))
    as (jb & Hb & Hidb & Hfb).
  exists ja, jb. cbn zeta.
  split; [| split; [| split; [| split; [| split]]]];
    try assumption.
  - rewrite (bind_run_silent _ _ _ _ _ Ha), (bind_run_silent _ _ _ _ _ Hb).
    destruct w. cbn. now rewrite <- app_assoc.
  - intros Hq. apply listen_step_dequeues. cbn. now rewrite Hq.
Qed.

(** ** [listen] as a whole *)

Lemma listen_step_never_raises (w : World) (e : exn) :
  outcome_of (listen_step w) <> Raise e.
Proof.
  unfold listen_step, finally_reset, try_except.
  match goal with
  | |- context [match ?body w with _ => _ end] =>
      destruct (body w) as [[[a | ex |] ys] w1]
  end; try discriminate.
  destruct ex as [ne | | cls text]; cbn [on_exception].
  - destruct (process_http_error_returns (Y := ClientMessage) ne w1)
      as (text & w2 & Herr & _).
    rewrite (bind_run_silent _ _ _ _ _ Herr).
    unfold yield_error. rewrite !bind_bind, bind_get_world.
    destruct (_current_job w2); cbn; discriminate.
  - cbn. discriminate.
  - unfold yield_error. rewrite !bind_bind, bind_get_world.
    destruct (_current_job w1); cbn; discriminate.
Qed.

Lemma listen_loop_never_raises (fuel : nat) (w : World) (e : exn) :
  outcome_of (listen_loop fuel w) <> Raise e.
Proof.
  revert w. induction fuel as [| fuel IH]; intros w; cbn [listen_loop].
  - discriminate.
  - pose proof (listen_step_never_raises w e) as Hstep.
    cbn [bind Monad_Gen].
    destruct (listen_step w) as [[[[|] | ex |] ys] w1]; cbn in Hstep |- *.
    + specialize (IH w1). destruct (listen_loop fuel w1) as [[o ys'] w2].
      exact IH.
    + discriminate.
    + intros [= <-]. now apply Hstep.
    + discriminate.
Qed.

(** X29: no exception leaves [listen]. Its first event is the [connected]
    event, emitted before the queue is looked at; after that a run of
    [listen] waits for a job or for the transport, or it has ended because
    it was cancelled: whatever a job raises is caught and turned into an
    event. *)
Theorem listen_never_raises (w : World) :
  (exists rest,
      events_of (listen w) = message_of ClientEvent.connected "" :: rest)
  /\ (outcome_of (listen w) = Ok tt \/ outcome_of (listen w) = Blocked).
Proof.
  unfold listen. rewrite bind_yield.
  pose proof (fun e => listen_loop_never_raises
                         (S (List.length (_queue w))) w e) as Hloop.
  destruct (listen_loop (S (List.length (_queue w))) w) as [[o ys] w1].
  cbn in Hloop |- *. split; [now exists ys |].
  destruct o as [[] | e |]; [now left | now destruct (Hloop e) | now right].
Qed.

(** *** When [listen] ends *)

Section Steady.
Context {Y : Type}.

Lemma steady_ret {A} (a : A) : steady (ret a : Gen Y A).
Proof. intros w o ys w' R Hw. inversion R; subst. split; [discriminate | exact Hw]. Qed.

Lemma steady_lift {A} (x : Outcome A) : uncancelled x -> steady (lift (Y := Y) x).
Proof. intros Hx w o ys w' R Hw. inversion R; subst. now split. Qed.

Lemma steady_raise {A} (cls : exn_class) (text : string) :
  steady (raise (Exception cls text) : Gen Y A).
Proof. intros w o ys w' R Hw. inversion R; subst. split; [discriminate | exact Hw]. Qed.

Lemma steady_get_world : steady (get_world (Y := Y)).
Proof. intros w o ys w' R Hw. inversion R; subst. split; [discriminate | exact Hw]. Qed.

Lemma steady_yield (y : Y) : steady (yield y).
Proof. intros w o ys w' R Hw. inversion R; subst. split; [discriminate | exact Hw]. Qed.

Lemma steady_modify (g : World -> World) :
  (forall w, net (g w) = net w) -> steady (modify (Y := Y) g).
Proof.
  intros Hg w o ys w' R Hw. inversion R; subst.
  split; [discriminate |]. unfold undisturbed in *. now rewrite Hg.
Qed.

Lemma steady_blocked {A} : steady (fun w => (@Blocked A, @nil Y, w)).
Proof. intros w o ys w' R Hw. inversion R; subst. split; [discriminate | exact Hw]. Qed.

Lemma steady_bind {A B} (m : Gen Y A) (f : A -> Gen Y B) :
  steady m -> (forall a, steady (f a)) -> steady (bind m f).
Proof.
  intros Hm Hf w o ys w' R Hw. cbn [bind Monad_Gen] in R.
  destruct (m w) as [[[a | e |] ys1] w1] eqn:Rm;
    destruct (Hm _ _ _ _ Rm Hw) as [Ho Hw1].
  - destruct (f a w1) as [[o2 ys2] w2] eqn:Rf.
    inversion R; subst. exact (Hf _ _ _ _ _ Rf Hw1).
  - inversion R; subst. split; [| exact Hw1].
    intros E. apply Ho. now inversion E.
  - inversion R; subst. split; [discriminate | exact Hw1].
Qed.

Lemma steady_try_except {A} (m : Gen Y A) (h : exn -> Gen Y A) :
  steady m -> (forall e, steady (h e)) -> steady (try_except m h).
Proof.
  intros Hm Hh w o ys w' R Hw. unfold try_except in R.
  destruct (m w) as [[[a | e |] ys1] w1] eqn:Rm;
    destruct (Hm _ _ _ _ Rm Hw) as [Ho Hw1].
  - inversion R; subst. split; [discriminate | exact Hw1].
  - destruct (h e w1) as [[o2 ys2] w2] eqn:Rh.
    inversion R; subst. exact (Hh _ _ _ _ _ Rh Hw1).
  - inversion R; subst. split; [discriminate | exact Hw1].
Qed.

Lemma steady_with_fuel {A} (loop : nat -> Gen Y A) :
  (forall fuel, steady (loop fuel)) -> steady (with_fuel loop).
Proof. intros Hl w o ys w' R Hw. exact (Hl _ _ _ _ _ R Hw). Qed.

Lemma steady_request (e : Effect) : steady (request (Y := Y) e).
Proof.
  intros w o ys w' R Hw. unfold request in R. unfold undisturbed in *.
  cbn [net log_effect] in R.
  destruct (net w) as [| [v | err |] rest] eqn:Hn; cbn in Hw;
    inversion R; subst; cbn [net set_net log_effect]; rewrite ?Hn;
    try discriminate; (split; [discriminate | assumption]).
Qed.

Lemma steady_sleep (d : pyval) : steady (sleep (Y := Y) d).
Proof. apply steady_modify. reflexivity. Qed.

Lemma steady_post (op : string) (body : pyval) : steady (_post (Y := Y) op body).
Proof.
  apply steady_bind; [apply steady_get_world | intros; apply steady_request].
Qed.

Lemma steady_get (op : string) : steady (_get (Y := Y) op).
Proof.
  apply steady_bind; [apply steady_get_world | intros; apply steady_request].
Qed.

End Steady.

(** The operations on values raise exceptions of the interpreter only. *)
Lemma uncancelled_getitem (v : pyval) (k : string) : uncancelled (getitem v k).
Proof.
  destruct (getitem_result v k) as [[x E] | (cls & msg & E)];
    rewrite E; discriminate.
Qed.

Lemma uncancelled_get_method (v : pyval) (k : string) (dflt : pyval) :
  uncancelled (get_method v k dflt).
Proof.
  destruct (get_method_result v k dflt) as [[x E] | (cls & msg & E)];
    rewrite E; discriminate.
Qed.

Lemma uncancelled_status_is (v : pyval) (s : string) :
  uncancelled (status_is v s).
Proof.
  unfold status_is.
  destruct (getitem_result v "status") as [[x E] | (cls & msg & E)];
    rewrite E; discriminate.
Qed.

Lemma uncancelled_py_sub (a b : pyval) : uncancelled (py_sub a b).
Proof.
  unfold py_sub, to_float, type_error.
  destruct (as_number a) as [[x | x] |], (as_number b) as [[y | y] |];
    try discriminate.
  - destruct (is_infinity (float_of_int x)); discriminate.
  - destruct (is_infinity (float_of_int y)); discriminate.
Qed.

Lemma uncancelled_py_max0 (v : pyval) : uncancelled (py_max0 v).
Proof.
  unfold py_max0, type_error. destruct (as_number v) as [[z | f] |]; discriminate.
Qed.

Lemma uncancelled_bind {A B} (x : Outcome A) (f : A -> Outcome B) :
  uncancelled x -> (forall a, uncancelled (f a)) -> uncancelled (bind x f).
Proof.
  intros Hx Hf. destruct x as [a | e |]; cbn.
  - apply Hf.
  - intros E. apply Hx. now inversion E.
  - discriminate.
Qed.

Lemma uncancelled_ok {A} (a : A) : uncancelled (Ok a).
Proof. discriminate. Qed.

Lemma uncancelled_update_user (user : User) (response : pyval) :
  uncancelled (_update_user user response).
Proof.
  unfold _update_user. destruct (truthy response); [| discriminate].
  repeat first
    [ apply uncancelled_bind; [| intros ?]
    | apply uncancelled_getitem | apply uncancelled_py_sub
    | apply uncancelled_py_max0 | apply uncancelled_ok ].
Qed.

Lemma uncancelled_extract_error (response job_id : pyval) :
  uncancelled (_extract_error response job_id).
Proof.
  unfold _extract_error.
  destruct (get_method_result response "error"
              (PyStr (String Json.dquote ("Job " ++ py_str job_id
                        ++ " failed (unknown error)" ++ String Json.dquote ""))))
    as [[err E] | (cls & msg & E)]; rewrite E; outcome; [| discriminate].
  destruct (json_loads_result err) as [[x Hx] | (cls & msg & Hx)];
    rewrite Hx; outcome; [| discriminate].
  destruct (get_method_result x "error_message" x) as [[m Hm] | (cls & msg & Hm)];
    rewrite Hm; outcome; [| discriminate].
  destruct (get_method_result x "error_traceback" (PyStr "No traceback"))
    as [[t Ht] | (cls & msg & Ht)]; rewrite Ht; outcome; discriminate.
Qed.

Lemma uncancelled_py_len (v : pyval) : uncancelled (py_len v).
Proof. destruct v; discriminate. Qed.

Lemma uncancelled_b64encode_str (v : pyval) : uncancelled (b64encode_str v).
Proof. destruct v; discriminate. Qed.

Lemma uncancelled_setitem (v : pyval) (k : string) (x : pyval) :
  uncancelled (setitem v k x).
Proof. destruct v; discriminate. Qed.

Ltac steady_auto :=
  repeat first
    [ apply steady_ret | apply steady_raise | apply steady_get_world
    | apply steady_blocked | apply steady_yield
    | apply steady_post | apply steady_get | apply steady_request
    | apply steady_sleep
    | apply steady_modify; reflexivity
    | apply steady_lift;
      first [ apply uncancelled_getitem | apply uncancelled_get_method
            | apply uncancelled_status_is | apply uncancelled_update_user
            | apply uncancelled_extract_error | apply uncancelled_py_len
            | apply uncancelled_b64encode_str | apply uncancelled_setitem
            | assumption | apply uncancelled_ok ]
    | match goal with
      | |- steady (bind _ _) => apply steady_bind; [| intros ?]
      | |- steady (if ?c then _ else _) => destruct c
      | |- steady (match ?x with _ => _ end) => destruct x
      end ].

Section ListenEnds.
(** The readers of the images raise exceptions of their own only. *)
Hypothesis from_bytes_uncancelled :
  forall data offsets, uncancelled (from_bytes data offsets).
Hypothesis from_base64_uncancelled :
  forall text offsets, uncancelled (from_base64 text offsets).

Lemma steady_poll_loop (fuel : nat) (job : JobInfo) (response : pyval) :
  steady (poll_loop fuel job response).
Proof.
  revert response.
  induction fuel as [| fuel IH]; intros response; cbn [poll_loop].
  - steady_auto.
  - steady_auto; [| apply IH].
    unfold poll_once. steady_auto.
Qed.

Lemma steady_process_job (job : JobInfo) : steady (_process_job job).
Proof.
  unfold _process_job, ensure_user, track, resolve, _send_images,
    receive_images, _upload_to_s3.
  repeat first
    [ apply steady_with_fuel; intros; apply steady_poll_loop
    | apply steady_lift; first [ apply from_bytes_uncancelled
                               | apply from_base64_uncancelled ]
    | progress steady_auto ].
Qed.

Lemma listen_step_goes_on (w : World) :
  undisturbed w = true ->
  (outcome_of (listen_step w) = Ok true \/ outcome_of (listen_step w) = Blocked)
  /\ undisturbed (world_of (listen_step w)) = true.
Proof.
  intros Hw.
  assert (Body : steady (job <- queue_get ;;
                         modify (set_current_job (Some job)) ;;
                         _process_job job ;;
                         ret true)).
  { apply steady_bind.
    - intros w0 o ys w' R Hw0. unfold queue_get in R.
      destruct (_queue w0); inversion R; subst;
        (split; [discriminate | exact Hw0]).
    - intros job. steady_auto. apply steady_process_job. }
  unfold listen_step, finally_reset, try_except.
  match goal with
  | |- context [match ?body w with _ => _ end] =>
      destruct (body w) as [[[a | ex |] ys] w1] eqn:Rb;
        destruct (Body _ _ _ _ Rb Hw) as [Ho Hw1]
  end.
  - assert (Ha : a = true).
    { apply bind_ok_inv in Rb as (job & ys1 & w2 & ys2 & _ & Rb & _).
      apply bind_ok_inv in Rb as (u & ys3 & w3 & ys4 & _ & Rb & _).
      apply bind_ok_inv in Rb as (u' & ys5 & w4 & ys6 & _ & Rb & _).
      now inversion Rb. }
    subst a. split; [now left | exact Hw1].
  - destruct ex as [ne | | cls text]; cbn [on_exception].
    + destruct (process_http_error_returns (Y := ClientMessage) ne w1)
        as (text & w2 & Herr & _ & _ & Hnet & _).
      rewrite (bind_run_silent _ _ _ _ _ Herr).
      unfold yield_error. rewrite !bind_bind, bind_get_world.
      assert (Hw2 : undisturbed w2 = true)
        by (unfold undisturbed in *; now rewrite Hnet).
      destruct (_current_job w2); cbn; (split; [now left | exact Hw2]).
    + now destruct Ho.
    + unfold yield_error. rewrite !bind_bind, bind_get_world.
      destruct (_current_job w1); cbn; (split; [now left | exact Hw1]).
  - split; [now right | exact Hw1].
Qed.

Lemma listen_loop_waits (fuel : nat) (w : World) :
  undisturbed w = true -> outcome_of (listen_loop fuel w) = Blocked.
Proof.
  revert w. induction fuel as [| fuel IH]; intros w Hw; cbn [listen_loop].
  - reflexivity.
  - destruct (listen_step_goes_on w Hw) as [Ho Hw1].
    cbn [bind Monad_Gen].
    destruct (listen_step w) as [[[[|] | ex |] ys] w1]; cbn in Ho, Hw1 |- *.
    + specialize (IH w1 Hw1). destruct (listen_loop fuel w1) as [[o ys'] w2].
      exact IH.
    + destruct Ho; discriminate.
    + destruct Ho; discriminate.
    + reflexivity.
Qed.

(** X30: [listen] ends only when it is cancelled. As long as no
    cancellation is among the replies of the transport, a run of [listen]
    neither returns nor raises: it goes on from job to job, whatever the
    service answers and whatever fails, until it waits for the next job or
    for a reply. *)
Theorem listen_ends_only_when_cancelled (w : World) :
  undisturbed w = true -> outcome_of (listen w) = Blocked.
Proof.
  intros Hw. unfold listen. rewrite bind_yield.
  pose proof (listen_loop_waits (S (List.length (_queue w))) w Hw) as Hloop.
  destruct (listen_loop (S (List.length (_queue w))) w) as [[o ys] w1].
  exact Hloop.
Qed.

End ListenEnds.

End Properties.

(* ===================================================================== *)
(** * The client on a concrete host *)
(* ===================================================================== *)

(** C9: the loop of [sign_in] tests [(datetime.now() - time).seconds > 300],
    and the seconds of a time difference start again at 0 after a day.  On
    a machine that is suspended for a day during the second wait, 86,405
    seconds have elapsed at the next test while the status is still
    [not-found], and the seconds of the difference are 5: no [TimeoutError]
    is raised, the confirmation is requested again after 2 seconds, and
    the sign-in ends with the token. *)
Theorem sign_in_misses_timeout_after_a_day :
  let w := Demo.signed_out Demo.sign_in_replies Demo.suspended_clock in
  (now w 2 - now w 0) / 1000000 = 86405
  /\ timedelta_seconds (now w 0) (now w 2) = 5
  /\ exists w',
       sign_in (H := Demo.host) w
       = (Ok tt, [PyStr "https://www.interstice.cloud/auth?code=1"; PyStr "T-1"], w')
       /\ _token w' = PyStr "T-1"
       /\ ticks w' = 3%nat
       /\ trace w'
          = [Post "https://api.interstice.cloud/auth/initiate"
               (PyDict [("client_id", PyStr "uuid-0");
                        ("client_info",
                         PyStr "Generative AI for Krita [Device: workstation]")])
               (PyStr "");
             Post "https://api.interstice.cloud/auth/confirm"
               (PyDict [("client_id", PyStr "uuid-0")]) (PyStr "");
             Sleep (PyInt 2);
             Post "https://api.interstice.cloud/auth/confirm"
               (PyDict [("client_id", PyStr "uuid-0")]) (PyStr "");
             Sleep (PyInt 2);
             Post "https://api.interstice.cloud/auth/confirm"
               (PyDict [("client_id", PyStr "uuid-0")]) (PyStr "")].
Proof.
  cbn zeta. split; [reflexivity |]. split; [reflexivity |].
  eexists. split; [vm_compute; reflexivity |].
  repeat split.
Qed.

#[local] Existing Instance Demo.host.

(** [str] of an [int] determines the [int]. *)
Lemma str_of_int_injective (a b : Z) : str_of_int a = str_of_int b -> a = b.
Proof.
  unfold str_of_int. intros E.
  assert (Nonnil : forall z, Z.to_int z <> Decimal.Pos Decimal.Nil
                             /\ Z.to_int z <> Decimal.Neg Decimal.Nil).
  { intros [| p | p]; cbn; split; try discriminate;
      intros Hp; inversion Hp as [Hn]; now apply Unsigned.to_uint_nonnil in Hn. }
  apply (f_equal NilZero.int_of_string) in E.
  rewrite !NilZero.isi in E by apply Nonnil.
  inversion E as [E'].
  apply (f_equal Z.of_int) in E'. now rewrite !DecimalZ.of_to in E'.
Qed.

(** The identifiers of the demonstration host do not repeat. *)
Lemma demo_uuid4_injective (m n : nat) :
  uuid4 (Host := Demo.host) m = uuid4 (Host := Demo.host) n -> m = n.
Proof.
  cbn. intros E. inversion E as [E'].
  apply str_of_int_injective in E'. lia.
Qed.

(** The poll sequence of the specification on the demonstration host. *)
Lemma poll_sequence_events_witness :
  exists w',
    _process_job (H := Demo.host) (Demo.job "job-a")
      (Demo.world (Some Demo.user) []
         [Demo.accepted; Demo.reply "IN_QUEUE" []; Demo.running 0.3;
          Demo.running 0.6; Demo.completed] (fun _ => 0))
    = (Ok tt,
       [progress_event "job-a" (PyInt 0);
        queued_event "job-a";
        progress_event "job-a" (PyFloat 0.3);
        progress_event "job-a" (PyFloat 0.6);
        finished_event "job-a" (PyStr "QUJD", PyList [PyInt 0]) PyNone],
       w').
Proof.
  edestruct (poll_sequence_events (Demo.job "job-a")
               (Demo.world (Some Demo.user) []
                  [Demo.accepted; Demo.reply "IN_QUEUE" []; Demo.running 0.3;
                   Demo.running 0.6; Demo.completed] (fun _ => 0)))
    as [Hseq _];
    [reflexivity | reflexivity | reflexivity | reflexivity | reflexivity
    | left; reflexivity | reflexivity
    | reflexivity | reflexivity | reflexivity | reflexivity
    | reflexivity | reflexivity | reflexivity
    | reflexivity | reflexivity | reflexivity
    | intros w5 _; eexists; reflexivity
    | exact Hseq].
Defined.

(** Three bytes go inline; 2,624,998 bytes are uploaded. *)
Lemma send_images_transfer_choice_witness :
  _send_images (Y := ClientMessage) (PyDict (Demo.inputs Demo.small_blob))
    (Demo.world (Some Demo.user) [] [] (fun _ => 0))
  = (Ok (PyDict [("kind", PyStr "generate");
                 ("image_data", PyDict [("base64", PyStr "AQID");
                                        ("offsets", PyList [PyInt 0])])]),
     [], Demo.world (Some Demo.user) [] [] (fun _ => 0))
  /\ exists w',
       _send_images (Y := ClientMessage) (PyDict (Demo.inputs Demo.large_blob))
         (Demo.world (Some Demo.user) []
            [Answer (PyDict [("url", PyStr "https://store/put");
                             ("object", PyStr "tmp/1")]);
             Answer PyNone] (fun _ => 0))
       = (Ok (PyDict [("kind", PyStr "generate");
                      ("image_data", PyDict [("s3_object", PyStr "tmp/1");
                                             ("offsets", PyList [PyInt 0])])]),
          [], w')
       /\ trace w'
          = [Get "https://api.interstice.cloud/upload" (PyStr "token");
             Put (PyStr "https://store/put") (PyBytes Demo.large_blob)]
       /\ net w' = [].
Proof.
  split.
  - apply (proj1 (send_images_transfer_choice (Demo.inputs Demo.small_blob)
                    (Demo.image_data Demo.small_blob) Demo.small_blob
                    (PyList [PyInt 0]) _ eq_refl eq_refl eq_refl)).
    reflexivity.
  - assert (Hsize : Z.of_nat (List.length Demo.large_blob) = 2624998).
    { unfold Demo.large_blob. rewrite repeat_length. now rewrite N_nat_Z. }
    refine (proj1 (proj2 (send_images_transfer_choice
                            (Demo.inputs Demo.large_blob)
                            (Demo.image_data Demo.large_blob) Demo.large_blob
                            (PyList [PyInt 0])
                            (Demo.world (Some Demo.user) []
                               [Answer (PyDict [("url", PyStr "https://store/put");
                                                ("object", PyStr "tmp/1")]);
                                Answer PyNone] (fun _ => 0))
                            eq_refl eq_refl eq_refl))
              _ _ PyNone (PyStr "https://store/put") (PyStr "tmp/1") []
              eq_refl eq_refl eq_refl).
    rewrite Hsize. vm_compute. discriminate.
Defined.

(** A failure of the transport while the first of two jobs is polled. *)
Lemma transport_failure_is_job_scoped_witness :
  exists w3,
    listen_step Demo.two_jobs
    = (Ok true,
       [progress_event "job-a" (PyInt 0);
        error_event "job-a" (PyStr "Service Unavailable")], w3)
    /\ _queue w3 = [Demo.job "job-b"].
Proof.
  assert (Hrun : exists w1,
             _process_job (Demo.job "job-a")
               (set_current_job (Some (Demo.job "job-a"))
                  (set_queue [Demo.job "job-b"] Demo.two_jobs))
             = (Raise (NetworkError Demo.unavailable),
                [progress_event "job-a" (PyInt 0)], w1))
    by (eexists; vm_compute; reflexivity).
  destruct Hrun as [w1 Hrun].
  destruct (transport_failure_is_job_scoped Demo.two_jobs w1
              (Demo.job "job-a") [Demo.job "job-b"] Demo.unavailable
              [progress_event "job-a" (PyInt 0)] eq_refl Hrun)
    as (text & w2 & Herr & Hstep & _ & _ & Hq & _).
  assert (Hraw : _process_http_error (Y := ClientMessage) Demo.unavailable w1
                 = (Ok "Service Unavailable", [], w1)) by reflexivity.
  rewrite Hraw in Herr. inversion Herr; subst text w2.
  exists (set_current_job None w1). split; assumption.
Defined.

(** The two error fields of the specification. *)
Lemma failed_response_error_message_witness :
  resolve (Demo.job "job-a")
    (PyDict (Demo.failed (dq "{'error_message':'x','error_traceback':'y'}")))
    (Demo.world (Some Demo.user) [] [] (fun _ => 0))
  = (Ok tt, [error_event "job-a" (PyStr "x")],
     Demo.world (Some Demo.user) [] [] (fun _ => 0))
  /\ resolve (Demo.job "job-a") (PyDict (Demo.failed "boom"))
       (Demo.world (Some Demo.user) [] [] (fun _ => 0))
     = (Ok tt, [error_event "job-a" (PyStr "boom")],
        Demo.world (Some Demo.user) [] [] (fun _ => 0)).
Proof.
  split.
  - exact (proj1 (failed_response_error_message (Demo.job "job-a")
                    (Demo.failed (dq "{'error_message':'x','error_traceback':'y'}"))
                    _ eq_refl) eq_refl).
  - exact (proj1 (proj2 (failed_response_error_message (Demo.job "job-a")
                           (Demo.failed "boom") _ eq_refl)) eq_refl).
Defined.

(** The 402 error of the specification, and one without a cost. *)
Lemma payment_required_error_witness :
  (exists text,
     _process_http_error (Y := ClientMessage) Demo.payment_required
       (Demo.world (Some Demo.user) [] [] (fun _ => 0))
     = (Ok text, [],
        Demo.world (Some (mkUser (PyStr "u-1") (PyStr "Ada") (PyInt 3) (PyInt 5)))
                   [] [] (fun _ => 0))
     /\ contains "3" text /\ contains "5" text)
  /\ exists w',
       _process_http_error (Y := ClientMessage) Demo.payment_required_malformed
         (Demo.world (Some Demo.user) [] [] (fun _ => 0))
       = (Ok "Payment Required", [], w').
Proof.
  split.
  - exact (proj1 (payment_required_error (Y := ClientMessage)
                    Demo.payment_required
                    (Demo.world (Some Demo.user) [] [] (fun _ => 0)) eq_refl)
             Demo.user _ eq_refl eq_refl eq_refl eq_refl).
  - apply (proj2 (payment_required_error (Y := ClientMessage)
                    Demo.payment_required_malformed
                    (Demo.world (Some Demo.user) [] [] (fun _ => 0)) eq_refl)).
    intros c k [_ Hk]. discriminate Hk.
Defined.

(** A user with 10 credits and a response that reports 7. *)
Lemma submission_cost_and_quota_witness :
  (user_data <- get_method
                  (PyDict [("id", PyStr "r-1");
                           ("user", PyDict [("credits", PyInt 7);
                                            ("images_generated", PyInt 4)])])
                  "user" PyNone ;;
   _update_user Demo.user user_data)
  = Ok (PyInt 3, mkUser (PyStr "u-1") (PyStr "Ada") (PyInt 4) (PyInt 7))
  /\ (user_data <- get_method (PyDict [("id", PyStr "r-1")]) "user" PyNone ;;
      _update_user Demo.user user_data)
     = Ok (PyInt 0, Demo.user)
  /\ _user (snd (_process_job (Demo.job "job-a")
                   (Demo.world (Some Demo.user) []
                      [Demo.accepted; Demo.completed] (fun _ => 0))))
     = Some (mkUser (PyStr "u-1") (PyStr "Ada") (PyInt 4) (PyInt 7)).
Proof.
  split; [| split].
  - exact (proj1 (submission_cost_and_quota Demo.user
                    [("id", PyStr "r-1");
                     ("user", PyDict [("credits", PyInt 7);
                                      ("images_generated", PyInt 4)])]
                    10 eq_refl)
             _ 7 (PyInt 4) eq_refl eq_refl eq_refl).
  - exact (proj1 (proj2 (submission_cost_and_quota Demo.user
                           [("id", PyStr "r-1")] 10 eq_refl)) eq_refl).
  - destruct (_process_job _ _) as [[o ys] w'] eqn:Erun.
    exact (proj2 (proj2 (submission_cost_and_quota Demo.user
                           [("status", PyStr "IN_QUEUE"); ("id", PyStr "r-1");
                            ("worker_id", PyStr "wk-1");
                            ("user", PyDict [("credits", PyInt 7);
                                             ("images_generated", PyInt 4)])]
                           10 eq_refl))
             (Demo.job "job-a")
             (Demo.world (Some Demo.user) []
                [Demo.accepted; Demo.completed] (fun _ => 0))
             (Demo.world (Some Demo.user) []
                [Demo.accepted; Demo.completed] (fun _ => 0))
             (PyDict []) (PyInt 3) (PyStr "r-1") (PyStr "wk-1") _ [Demo.completed]
             eq_refl eq_refl eq_refl eq_refl eq_refl eq_refl o ys w' Erun).
Defined.

(** A request for 12 images with self-attention guidance. *)
Lemma enqueue_clamps_and_appends_witness :
  exists job,
    enqueue (Y := ClientMessage)
      (mkWorkflowInput 12 (Some (mkCheckpointInput true (PyStr "sd15")))
                       (PyDict [("prompt", PyStr "a boat")]))
      false (Demo.world (Some Demo.user) [Demo.job "job-a"] [] (fun _ => 0))
    = (Ok "uuid-0", [],
       set_queue [Demo.job "job-a"; job]
         (draw (Demo.world (Some Demo.user) [Demo.job "job-a"] [] (fun _ => 0))))
    /\ job = mkJobInfo "uuid-0"
               (mkWorkflowInput 8 (Some (mkCheckpointInput false (PyStr "sd15")))
                                (PyDict [("prompt", PyStr "a boat")]))
               PyNone PyNone.
Proof.
  destruct (enqueue_clamps_and_appends (Y := ClientMessage)
              (mkWorkflowInput 12 (Some (mkCheckpointInput true (PyStr "sd15")))
                               (PyDict [("prompt", PyStr "a boat")]))
              false (Demo.world (Some Demo.user) [Demo.job "job-a"] [] (fun _ => 0))
              demo_uuid4_injective)
    as (job & Hrun & Hclamp & _ & Hflag & Hid & _ & Hfields & Hmodels
        & Hremote & Hworker).
  exists job.
  destruct job as [id [count [[flag fields] |] rest] remote worker];
    cbn in Hclamp, Hflag, Hid, Hfields, Hmodels, Hremote, Hworker;
    [| discriminate Hmodels].
  injection Hmodels as Hmodels.
  pose proof (Hflag _ eq_refl) as Hoff. pose proof (Hclamp eq_refl) as Hcount.
  cbn in Hoff, Hcount. subst. split; [exact Hrun | reflexivity].
Defined.

(** The whole run of [listen] on the two jobs: the failure of the first
    job is reported, the second job is processed, and the loop then waits
    for the next job. *)
Example listen_survives_transport_failure :
  exists w',
    listen Demo.two_jobs
    = (Blocked,
       [message_of ClientEvent.connected "";
        progress_event "job-a" (PyInt 0);
        error_event "job-a" (PyStr "Service Unavailable");
        progress_event "job-b" (PyInt 0);
        finished_event "job-b" (PyStr "QUJD", PyList [PyInt 0]) PyNone],
       w')
    /\ _queue w' = [] /\ _current_job w' = None.
Proof. eexists. split; [vm_compute; reflexivity | split; reflexivity]. Qed.

(** The sizes next to the threshold of the inline transfer. *)
Example base64_size_boundary :
  _base64_size 2624997 = 3499996 /\ _base64_size 2624998 = 3500000.
Proof. split; reflexivity. Qed.

(* ===================================================================== *)
(** * Further runs on the concrete host *)
(* ===================================================================== *)

(** A job that the service accepts and then leaves unanswered: the
    progress event follows the request, and the tracking starts in the
    world after its answer. *)
Lemma job_opens_with_progress_witness :
  exists (remote worker : pyval) (submit : pydict) (w2 : World),
    _process_job (Demo.job "job-a")
      (Demo.world (Some Demo.user) [] [Demo.accepted] (fun _ => 0))
    = emit_first (progress_event "job-a" (PyInt 0))
        (track (mkJobInfo "job-a" (work (Demo.job "job-a")) remote worker)
               (PyDict submit) w2)
    /\ dict_get submit "id" = Some remote
    /\ dict_get submit "worker_id" = Some worker
    /\ net w2 = [].
Proof.
  destruct (proj2 (job_opens_with_progress (Demo.job "job-a")
                     (Demo.world (Some Demo.user) [] [Demo.accepted]
                                 (fun _ => 0))))
    as [[Hnone _] | (user & user' & inputs & cost & submit & remote & worker
                     & w1 & rest & Hu & Hsend & Hnet & Hid & Hwk & Hcost
                     & Htrace & Hrest & Hrun)].
  - assert (Hsome : events_of
                      (_process_job (Demo.job "job-a")
                         (Demo.world (Some Demo.user) [] [Demo.accepted]
                                     (fun _ => 0))) <> [])
      by (vm_compute; discriminate).
    now destruct (Hsome Hnone).
  - assert (Hsent : _send_images (Y := ClientMessage)
                      (to_dict (work (Demo.job "job-a")))
                      (Demo.world (Some Demo.user) [] [Demo.accepted]
                                  (fun _ => 0))
                    = (Ok (PyDict []), [],
                       Demo.world (Some Demo.user) [] [Demo.accepted]
                                  (fun _ => 0))) by reflexivity.
    rewrite Hsent in Hsend. injection Hsend as _ Hw1. subst w1.
    injection Hnet as _ Hr. subst rest.
    exists remote, worker, submit. eexists.
    split; [exact Hrun |]. split; [exact Hid |]. split; [exact Hwk |].
    exact Hrest.
Defined.

(** A response with a status the client does not know. *)
Lemma unknown_status_reports_nothing_witness :
  track (Demo.job "job-a") (PyDict [("status", PyStr "PAUSED")])
        (Demo.world (Some Demo.user) [] [] (fun _ => 0))
  = (Ok tt, [], Demo.world (Some Demo.user) [] [] (fun _ => 0)).
Proof.
  apply unknown_status_reports_nothing with (s := "PAUSED"); [reflexivity |].
  unfold known_status. intros [E | [E | [E | [E | [E | E]]]]]; discriminate E.
Defined.

(** A cancelled job. *)
Lemma cancelled_or_timed_out_witness :
  track (Demo.job "job-a") (PyDict [("status", PyStr "CANCELLED")])
        (Demo.world (Some Demo.user) [] [] (fun _ => 0))
  = (Ok tt, [interrupted_event "job-a"],
     Demo.world (Some Demo.user) [] [] (fun _ => 0)).
Proof.
  exact (cancelled_or_timed_out (Demo.job "job-a")
           [("status", PyStr "CANCELLED")] "CANCELLED"
           (Demo.world (Some Demo.user) [] [] (fun _ => 0))
           eq_refl (or_introl eq_refl)).
Defined.

(** A submission that the service answers without an identifier. *)
Lemma listen_reports_exception_witness :
  exists w1,
    listen_step (Demo.world (Some Demo.user) [Demo.job "job-a"; Demo.job "job-b"]
                            [Demo.reply "IN_QUEUE" []] (fun _ => 0))
    = (Ok true, [error_event "job-a" (PyStr "'id'")], set_current_job None w1)
    /\ _queue w1 = [Demo.job "job-b"].
Proof.
  assert (Hrun : exists w1,
             _process_job (Demo.job "job-a")
               (set_current_job (Some (Demo.job "job-a"))
                  (set_queue [Demo.job "job-b"]
                     (Demo.world (Some Demo.user)
                        [Demo.job "job-a"; Demo.job "job-b"]
                        [Demo.reply "IN_QUEUE" []] (fun _ => 0))))
             = (Raise (Exception KeyError "'id'"), [], w1))
    by (eexists; vm_compute; reflexivity).
  destruct Hrun as [w1 Hrun]. exists w1.
  destruct (listen_reports_exception
              (Demo.world (Some Demo.user) [Demo.job "job-a"; Demo.job "job-b"]
                          [Demo.reply "IN_QUEUE" []] (fun _ => 0))
              w1 (Demo.job "job-a")
              [Demo.job "job-b"] KeyError "'id'" [] eq_refl Hrun)
    as (Hstep & Hq & _).
  split; assumption.
Defined.

(** A task that is cancelled while the first job is polled. *)
Lemma listen_stops_on_cancellation_witness :
  exists w1,
    listen_loop 3 (Demo.world (Some Demo.user)
                              [Demo.job "job-a"; Demo.job "job-b"]
                              [Demo.accepted; Cancel] (fun _ => 0))
    = (Ok tt, [progress_event "job-a" (PyInt 0)], set_current_job None w1)
    /\ _queue w1 = [Demo.job "job-b"].
Proof.
  assert (Hrun : exists w1,
             _process_job (Demo.job "job-a")
               (set_current_job (Some (Demo.job "job-a"))
                  (set_queue [Demo.job "job-b"]
                     (Demo.world (Some Demo.user)
                        [Demo.job "job-a"; Demo.job "job-b"]
                        [Demo.accepted; Cancel] (fun _ => 0))))
             = (Raise CancelledError, [progress_event "job-a" (PyInt 0)], w1))
    by (eexists; vm_compute; reflexivity).
  destruct Hrun as [w1 Hrun]. exists w1.
  destruct (listen_stops_on_cancellation
              (Demo.world (Some Demo.user) [Demo.job "job-a"; Demo.job "job-b"]
                          [Demo.accepted; Cancel] (fun _ => 0))
              w1 (Demo.job "job-a")
              [Demo.job "job-b"] [progress_event "job-a" (PyInt 0)] 2
              eq_refl Hrun)
    as (Hloop & Hq & _).
  split; assumption.
Defined.

(** A job on a client that is not signed in. *)
Lemma listen_without_user_witness :
  listen_step (Demo.world None [Demo.job "job-a"] [] (fun _ => 0))
  = (Ok true, [error_event "job-a" (PyStr "a value is required")],
     Demo.world None [] [] (fun _ => 0)).
Proof.
  exact (listen_without_user (Demo.world None [Demo.job "job-a"] [] (fun _ => 0))
           (Demo.job "job-a") [] eq_refl eq_refl).
Defined.

(** An error field that is the JSON text of a list. *)
Lemma error_text_when_not_an_object_witness :
  _extract_error (PyDict (Demo.failed "[1, 2]")) (PyStr "r-1")
  = Ok (PyStr "[1, 2]", PyStr "No traceback").
Proof.
  apply (error_text_when_not_an_object (Demo.failed "[1, 2]") (PyStr "[1, 2]")
           (PyStr "r-1") eq_refl).
  intros d. vm_compute. discriminate.
Defined.

(** A failed response without an error field. *)
Lemma error_text_when_missing_witness :
  _extract_error (PyDict [("status", PyStr "FAILED")]) (PyStr "r-1")
  = Ok (PyStr (dq "'Job r-1 failed (unknown error)'"), PyStr "No traceback").
Proof.
  exact (error_text_when_missing [("status", PyStr "FAILED")] (PyStr "r-1")
           eq_refl).
Defined.

(** An error field that is an object without a message. *)
Lemma error_text_of_object_witness :
  _extract_error (PyDict (Demo.failed (dq "{'detail':'x'}"))) (PyStr "r-1")
  = Ok (PyDict [("detail", PyStr "x")], PyStr "No traceback").
Proof.
  exact (error_text_of_object (Demo.failed (dq "{'detail':'x'}"))
           [("detail", PyStr "x")] (PyStr (dq "{'detail':'x'}")) (PyStr "r-1")
           eq_refl eq_refl).
Defined.

(** A 402 error that names the credits and not the cost. *)
Lemma payment_error_without_cost_witness :
  _process_http_error (Y := ClientMessage) Demo.payment_required_malformed
    (Demo.world (Some Demo.user) [] [] (fun _ => 0))
  = (Ok "Payment Required", [],
     Demo.world (Some (mkUser (PyStr "u-1") (PyStr "Ada") (PyInt 3) (PyInt 5)))
                [] [] (fun _ => 0)).
Proof.
  exact (payment_error_without_cost (Y := ClientMessage)
           Demo.payment_required_malformed
           (Demo.world (Some Demo.user) [] [] (fun _ => 0)) Demo.user
           [("credits", PyInt 5)] (PyInt 5)
           eq_refl eq_refl eq_refl eq_refl eq_refl).
Defined.

(** A 503 error. *)
Lemma other_errors_keep_message_witness :
  _process_http_error (Y := ClientMessage) Demo.unavailable
    (Demo.world (Some Demo.user) [] [] (fun _ => 0))
  = (Ok "Service Unavailable", [],
     Demo.world (Some Demo.user) [] [] (fun _ => 0)).
Proof.
  apply (other_errors_keep_message (Y := ClientMessage) Demo.unavailable).
  left. discriminate.
Defined.

(** A result with a URL and with inline images. *)
Lemma receive_images_prefers_url_witness :
  receive_images (Y := ClientMessage) (PyDict Samples.result_with_url)
    (Demo.world (Some Demo.user) [] [Answer (PyBytes Demo.small_blob)]
                (fun _ => 0))
  = (Ok (PyBytes Demo.small_blob, PyList [PyInt 0]), [],
     set_net []
       (log_effect (Download (PyStr "https://transfer.example/result"))
          (Demo.world (Some Demo.user) [] [Answer (PyBytes Demo.small_blob)]
                      (fun _ => 0)))).
Proof.
  exact (receive_images_prefers_url (Y := ClientMessage)
           Samples.result_with_url (PyList [PyInt 0])
           (PyStr "https://transfer.example/result") (PyBytes Demo.small_blob)
           []
           (Demo.world (Some Demo.user) [] [Answer (PyBytes Demo.small_blob)]
                       (fun _ => 0))
           eq_refl eq_refl eq_refl eq_refl eq_refl).
Defined.

(** A result with inline images, and a result without images whose text
    has more than 80 characters, some of them of two bytes. *)
Lemma receive_images_without_url_witness :
  receive_images (H := Samples.host) (Y := ClientMessage (H := Samples.host))
    (PyDict [("base64", PyStr "QUJD"); ("offsets", PyList [PyInt 0])])
    (Demo.world (Some Demo.user) [] [] (fun _ => 0))
  = (Ok (PyStr "QUJD", PyList [PyInt 0]), [],
     Demo.world (Some Demo.user) [] [] (fun _ => 0))
  /\ receive_images (H := Samples.host) (Y := ClientMessage (H := Samples.host))
       (PyDict Samples.result_with_note)
       (Demo.world (Some Demo.user) [] [] (fun _ => 0))
     = (Raise (Exception ValueError
                 ("No result images found in server response: "
                  ++ "{'offsets': [0], 'note': '" ++ Samples.accents 54)),
        [], Demo.world (Some Demo.user) [] [] (fun _ => 0)).
Proof.
  split.
  - exact (receive_images_without_url (H := Samples.host)
             (Y := ClientMessage (H := Samples.host))
             [("base64", PyStr "QUJD"); ("offsets", PyList [PyInt 0])]
             (PyList [PyInt 0])
             (Demo.world (Some Demo.user) [] [] (fun _ => 0))
             eq_refl eq_refl Logic.I).
  - exact (receive_images_without_url (H := Samples.host)
             (Y := ClientMessage (H := Samples.host))
             Samples.result_with_note (PyList [PyInt 0])
             (Demo.world (Some Demo.user) [] [] (fun _ => 0))
             eq_refl eq_refl Logic.I).
Defined.

(** A request without images. *)
Lemma send_images_without_images_witness :
  _send_images (Y := ClientMessage) (PyDict [("kind", PyStr "generate")])
    (Demo.world (Some Demo.user) [] [] (fun _ => 0))
  = (Ok (PyDict [("kind", PyStr "generate")]), [],
     Demo.world (Some Demo.user) [] [] (fun _ => 0)).
Proof.
  exact (send_images_without_images (Y := ClientMessage)
           [("kind", PyStr "generate")]
           (Demo.world (Some Demo.user) [] [] (fun _ => 0)) Logic.I).
Defined.

(** Three bytes take four characters. *)
Lemma embedded_text_size_witness :
  exists encoded : string,
    _send_images (Y := ClientMessage) (PyDict (Demo.inputs Demo.small_blob))
      (Demo.world (Some Demo.user) [] [] (fun _ => 0))
    = (Ok (PyDict (dict_set (Demo.inputs Demo.small_blob) "image_data"
                     (PyDict [("base64", PyStr encoded);
                              ("offsets", PyList [PyInt 0])]))),
       [], Demo.world (Some Demo.user) [] [] (fun _ => 0))
    /\ Z.of_nat (String.length encoded) = 4.
Proof.
  destruct (embedded_text_size (Y := ClientMessage)
              (Demo.inputs Demo.small_blob) (Demo.image_data Demo.small_blob)
              Demo.small_blob (PyList [PyInt 0])
              (Demo.world (Some Demo.user) [] [] (fun _ => 0))
              eq_refl eq_refl eq_refl eq_refl)
    as (encoded & Hrun & Hsize & _).
  exists encoded. split; [exact Hrun | exact Hsize].
Defined.

(** 300.5 seconds after the first confirmation the loop asks again;
    301 seconds after it, it gives up. *)
Lemma sign_in_gives_up_from_301_seconds_witness :
  (exists w1,
      confirm_again "c-1" 0
        (Demo.signed_out [Demo.reply "not-found" []]
                         (Samples.clock_at 300500000))
      = (Ok (PyDict [("status", PyStr "not-found")]), [], w1))
  /\ confirm_again "c-1" 0
       (Demo.signed_out [Demo.reply "not-found" []]
                        (Samples.clock_at 301000000))
     = (Raise (Exception TimeoutError "Sign-in attempt timed out after 5 minutes"),
        [], tick (Demo.signed_out [Demo.reply "not-found" []]
                                  (Samples.clock_at 301000000))).
Proof.
  split.
  - eexists.
    rewrite (sign_in_gives_up_from_301_seconds "c-1" 0
               (Demo.signed_out [Demo.reply "not-found" []]
                                (Samples.clock_at 300500000)));
      [reflexivity | change (0 <= 300500000 - 0 < 86400 * 1000000); lia].
  - rewrite (sign_in_gives_up_from_301_seconds "c-1" 0
               (Demo.signed_out [Demo.reply "not-found" []]
                                (Samples.clock_at 301000000)));
      [reflexivity | change (0 <= 301000000 - 0 < 86400 * 1000000); lia].
Defined.

(** A clock that was set back by one second. *)
Lemma sign_in_gives_up_when_clock_set_back_witness :
  confirm_again "c-1" 5000000
    (Demo.signed_out [Demo.reply "not-found" []] (Samples.clock_at 4000000))
  = (Raise (Exception TimeoutError "Sign-in attempt timed out after 5 minutes"),
     [], tick (Demo.signed_out [Demo.reply "not-found" []]
                               (Samples.clock_at 4000000))).
Proof.
  apply sign_in_gives_up_when_clock_set_back.
  change (- (86400 - 301) * 1000000 <= 4000000 - 5000000 < 0). lia.
Defined.

(** A token that the service accepts. *)
Lemma authenticate_stores_user_witness :
  let r := authenticate (PyInt 0) (PyInt 0) (Y := ClientMessage) (PyStr "T-1")
             (Demo.signed_out [Answer (PyDict Samples.user_data)] (fun _ => 0)) in
  outcome_of r = Ok Demo.user
  /\ _token (world_of r) = PyStr "T-1"
  /\ _user (world_of r) = Some Demo.user
  /\ trace (world_of r)
     = [Get "https://api.interstice.cloud/user" (PyStr "T-1")].
Proof.
  destruct (authenticate_stores_user (PyInt 0) (PyInt 0) (Y := ClientMessage)
              (PyStr "T-1") Samples.user_data
              (PyStr "u-1") (PyStr "Ada") (PyInt 3) (PyInt 10) []
              (Demo.signed_out [Answer (PyDict Samples.user_data)] (fun _ => 0))
              eq_refl eq_refl eq_refl eq_refl eq_refl eq_refl)
    as (Ho & _ & Ht & Hu & Htr & _).
  repeat split; assumption.
Defined.

(** A token that the service rejects. *)
Lemma authenticate_clears_rejected_token_witness :
  let r := authenticate (PyInt 0) (PyInt 0) (Y := ClientMessage) (PyStr "T-0")
             (Demo.world (Some Demo.user) [] [Failure Samples.unauthorized]
                         (fun _ => 0)) in
  outcome_of r
  = Raise (NetworkError
             (mkNetError "The login data is incorrect, please sign in again."
                         (Some 401) PyNone))
  /\ _token (world_of r) = PyStr ""
  /\ _user (world_of r) = Some Demo.user.
Proof.
  destruct (authenticate_clears_rejected_token (PyInt 0) (PyInt 0)
              (Y := ClientMessage) (PyStr "T-0") Samples.unauthorized []
              (Demo.world (Some Demo.user) [] [Failure Samples.unauthorized]
                          (fun _ => 0))
              eq_refl eq_refl)
    as (Ho & Ht & Hu & _).
  repeat split; assumption.
Defined.

(** A reply that does not count the images. *)
Lemma authenticate_incomplete_reply_witness :
  let r := authenticate (PyInt 0) (PyInt 0) (Y := ClientMessage) (PyStr "T-1")
             (Demo.signed_out
                [Answer (PyDict Samples.user_data_without_counter)]
                (fun _ => 0)) in
  outcome_of r = Raise (Exception KeyError "'images_generated'")
  /\ _token (world_of r) = PyStr "T-1"
  /\ _user (world_of r)
     = Some (mkUser (PyStr "u-1") (PyStr "Ada") (PyInt 0) (PyInt 0)).
Proof.
  exact (authenticate_incomplete_reply (PyInt 0) (PyInt 0) (Y := ClientMessage)
           (PyStr "T-1") Samples.user_data_without_counter
           (PyStr "u-1") (PyStr "Ada") []
           (Demo.signed_out
              [Answer (PyDict Samples.user_data_without_counter)] (fun _ => 0))
           eq_refl eq_refl eq_refl eq_refl eq_refl).
Defined.

(** A connection from a client that had a job and a queue. *)
Lemma connect_gives_fresh_client_witness :
  connect (PyInt 0) (PyInt 0) (Y := ClientMessage) "https://cloud.example"
    (PyStr "T-1")
    (Samples.busy Samples.submitted_job [Demo.job "job-b"]
                  [Answer (PyDict Samples.user_data)])
  = (Ok tt, [],
     mkWorld "https://cloud.example" (PyStr "T-1") (Some Demo.user) None [] []
             [Get "https://cloud.example/user" (PyStr "T-1")]
             (fun _ => 0) 0 0).
Proof.
  exact (connect_gives_fresh_client (PyInt 0) (PyInt 0) (Y := ClientMessage)
           "https://cloud.example" (PyStr "T-1") Samples.user_data
           (PyStr "u-1") (PyStr "Ada") (PyInt 3) (PyInt 10) []
           (Samples.busy Samples.submitted_job [Demo.job "job-b"]
                         [Answer (PyDict Samples.user_data)])
           eq_refl eq_refl eq_refl eq_refl eq_refl).
Defined.

(** An interrupt while the service works on the job. *)
Lemma interrupt_cancels_remote_job_witness :
  trace (world_of (interrupt (Y := ClientMessage)
                     (Samples.busy Samples.submitted_job [Demo.job "job-b"]
                                   [Answer (PyDict [])])))
  = [Post "https://api.interstice.cloud/cancel/r-1" (PyDict []) (PyStr "token")].
Proof.
  rewrite (interrupt_cancels_remote_job (Y := ClientMessage)
             Samples.submitted_job (PyDict []) []
             (Samples.busy Samples.submitted_job [Demo.job "job-b"]
                           [Answer (PyDict [])])
             eq_refl eq_refl eq_refl).
  reflexivity.
Defined.

(** An interrupt while the job has not been submitted yet. *)
Lemma interrupt_without_remote_job_witness :
  interrupt (Y := ClientMessage)
    (Samples.busy (Demo.job "job-a") [Demo.job "job-b"] [Answer (PyDict [])])
  = (Ok tt, [],
     Samples.busy (Demo.job "job-a") [Demo.job "job-b"] [Answer (PyDict [])]).
Proof.
  exact (interrupt_without_remote_job (Y := ClientMessage)
           (Samples.busy (Demo.job "job-a") [Demo.job "job-b"]
                         [Answer (PyDict [])])
           eq_refl).
Defined.

(** Clearing the queue and then interrupting the running job. *)
Lemma clear_queue_keeps_current_job_witness :
  exists w1,
    bind clear_queue (fun _ => interrupt (Y := ClientMessage))
         (Samples.busy Samples.submitted_job [Demo.job "job-b"]
                       [Answer (PyDict [])])
    = (Ok tt, [], w1)
    /\ _queue w1 = []
    /\ _current_job w1 = Some Samples.submitted_job
    /\ trace w1
       = [Post "https://api.interstice.cloud/cancel/r-1" (PyDict [])
               (PyStr "token")].
Proof.
  eexists. split.
  - exact (clear_queue_keeps_current_job (Y := ClientMessage)
             Samples.submitted_job (PyDict []) []
             (Samples.busy Samples.submitted_job [Demo.job "job-b"]
                           [Answer (PyDict [])])
             eq_refl eq_refl eq_refl).
  - repeat split.
Defined.

(** Two jobs, a failure of the transport and no cancellation. *)
Lemma listen_ends_only_when_cancelled_witness :
  outcome_of (listen Demo.two_jobs) = Blocked.
Proof.
  apply listen_ends_only_when_cancelled.
  - intros data offsets. discriminate.
  - intros text offsets. discriminate.
  - reflexivity.
Defined.

(** ** The limits of [json.loads] and the characters of a [str] *)

(** An integer of 4300 digits is read and one of 4301 digits is refused;
    arrays nested 901 deep are read and 902 deep are refused. *)
Example json_loads_limits :
  (exists z, json_loads (PyStr (Samples.sevens 4300)) = Ok (PyInt z))
  /\ json_loads (PyStr (Samples.sevens 4301))
     = Raise (Exception ValueError
                "Exceeds the limit for integer string conversion")
  /\ (exists v, json_loads (PyStr (Samples.nested 901)) = Ok v)
  /\ json_loads (PyStr (Samples.nested 902))
     = Raise (Exception RecursionError
                "maximum recursion depth exceeded while decoding a JSON document").
Proof.
  split; [eexists; vm_compute; reflexivity |].
  split; [vm_compute; reflexivity |].
  split; [eexists; vm_compute; reflexivity |].
  vm_compute; reflexivity.
Qed.

(** An error field that is an object whose message is an integer of 4301
    digits: the text is reported as it came. *)
Example extract_error_beyond_the_limits :
  let text := dq "{'error_message': " ++ Samples.sevens 4301 ++ "}" in
  _extract_error (PyDict (Demo.failed text)) (PyStr "r-1")
  = Ok (PyStr text, PyStr "No traceback").
Proof. vm_compute. reflexivity. Qed.

(** Eighty characters of a text of accented letters are 160 bytes. *)
Example str_prefix_counts_characters :
  str_prefix 80 (Samples.accents 100) = Samples.accents 80
  /\ String.length (str_prefix 80 (Samples.accents 100)) = 160%nat
  /\ str_length (Samples.accents 100) = 100%nat.
Proof. repeat split; vm_compute; reflexivity. Qed.
